(** * MediaPipe measurement pipelines: pose wingspan, hand distance, hand wingspan

    A shallow embedding of the three detection loops of the repository
    (the [detectPose] tick of the pose tracker and the two [detectHands]
    ticks of the hand trackers) together with the properties of the
    frame gate, the geometry and the measurement state.

    Numbers.  A JavaScript number is modelled by [number]: a real, or one of
    the three IEEE-754 special values.  Arithmetic on finite values is exact
    (rounding and overflow are abstracted away), the special values follow
    the IEEE-754 rules, so a division by zero yields [PosInf], [NegInf] or
    [NaN] as it does in the program.  Statements about the value of a
    measurement are therefore given with room for the rounding of the
    program's binary64 operations ([roundingSlack]); statements about control
    flow, signs and special values need none. *)

From Stdlib Require Import Reals Lra Lia List NArith ZArith Bool Factorial.
Import ListNotations.

Local Open Scope R_scope.

(* ------------------------------------------------------------------------- *)
(** ** JavaScript numbers *)

Inductive number : Type :=
| Fin (r : R)
| PosInf
| NegInf
| NaN.

Inductive sign : Type := Negative | Zero | Positive.

Definition Rsign (r : R) : sign :=
  match total_order_T r 0 with
  | inleft (left _) => Negative
  | inleft (right _) => Zero
  | inright _ => Positive
  end.

Definition sign_opp (s : sign) : sign :=
  match s with
  | Negative => Positive
  | Zero => Zero
  | Positive => Negative
  end.

(** The infinity of a given sign; a zero sign stands for the invalid
    operations (0 * Infinity, 0 / 0), whose result is NaN. *)
Definition inf_of (s : sign) : number :=
  match s with
  | Negative => NegInf
  | Zero => NaN
  | Positive => PosInf
  end.

(** A finite, non-NaN value: what [Number.isFinite] tests. *)
Definition isFinite (a : number) : bool :=
  match a with
  | Fin _ => true
  | _ => false
  end.

Module Num.

Definition of_N (n : N) : number := Fin (IZR (Z.of_N n)).

Definition neg (a : number) : number :=
  match a with
  | Fin r => Fin (- r)
  | PosInf => NegInf
  | NegInf => PosInf
  | NaN => NaN
  end.

Definition add (a b : number) : number :=
  match a, b with
  | Fin r, Fin q => Fin (r + q)
  | NaN, _ | _, NaN => NaN
  | PosInf, NegInf | NegInf, PosInf => NaN
  | PosInf, _ | _, PosInf => PosInf
  | NegInf, _ | _, NegInf => NegInf
  end.

Definition sub (a b : number) : number := add a (neg b).

Definition mul (a b : number) : number :=
  match a, b with
  | Fin r, Fin q => Fin (r * q)
  | NaN, _ | _, NaN => NaN
  | PosInf, Fin q | Fin q, PosInf => inf_of (Rsign q)
  | NegInf, Fin q | Fin q, NegInf => inf_of (sign_opp (Rsign q))
  | PosInf, PosInf | NegInf, NegInf => PosInf
  | PosInf, NegInf | NegInf, PosInf => NegInf
  end.

(** Division.  Every zero divisor of the three programs is a width read
    from the video element or the result of [Math.sqrt] on a sum of
    squares, so it is the positive zero: [r / 0] has the sign of [r]. *)
Definition div (a b : number) : number :=
  match a, b with
  | Fin r, Fin q =>
      match Rsign q with
      | Zero => inf_of (Rsign r)
      | _ => Fin (r / q)
      end
  | NaN, _ | _, NaN => NaN
  | Fin _, PosInf | Fin _, NegInf => Fin 0
  | PosInf, Fin q =>
      match Rsign q with Negative => NegInf | _ => PosInf end
  | NegInf, Fin q =>
      match Rsign q with Negative => PosInf | _ => NegInf end
  | PosInf, PosInf | PosInf, NegInf | NegInf, PosInf | NegInf, NegInf => NaN
  end.

End Num.

Declare Scope js_scope.
Delimit Scope js_scope with js.
Bind Scope js_scope with number.
Notation "a + b" := (Num.add a b) : js_scope.
Notation "a - b" := (Num.sub a b) : js_scope.
Notation "a * b" := (Num.mul a b) : js_scope.
Notation "a / b" := (Num.div a b) : js_scope.

(** The part of the [Math] object the programs use. *)
Module Math.

Definition PI : number := Fin Rtrigo1.PI.

Definition sqrt (a : number) : number :=
  match a with
  | Fin r =>
      match Rsign r with
      | Negative => NaN
      | _ => Fin (R_sqrt.sqrt r)
      end
  | PosInf => PosInf
  | NegInf => NaN
  | NaN => NaN
  end.

(** The programs apply [Math.tan] to one argument only, 35 degrees in
    radians, where the real tangent is defined. *)
Definition tan (a : number) : number :=
  match a with
  | Fin r => Fin (Rtrigo1.tan r)
  | _ => NaN
  end.

End Math.

(* ------------------------------------------------------------------------- *)
(** ** Data shared by the three programs *)

(** [NormalizedLandmark] of the detector: image-fraction coordinates. *)
Record Landmark : Type := mkLandmark {
  x : number;
  y : number;
  z : number
}.

(** The result of [detectForVideo]: one landmark list per detected subject. *)
Record LandmarkerResult : Type := mkResult {
  landmarks : list (list Landmark)
}.

(** The surface of the [<video>] element a tick reads.  [currentTime] is a
    WebIDL [double], which admits neither NaN nor an infinity; the pixel
    dimensions are WebIDL [unsigned long]. *)
Record Video : Type := mkVideo {
  paused : bool;
  ended : bool;
  videoWidth : N;
  videoHeight : N;
  currentTime : R
}.

Record Canvas : Type := mkCanvas {
  width : N;
  height : N
}.

(** How a tick of the loop ends: it reschedules itself through
    [requestAnimationFrame], or a property read on [undefined] throws a
    [TypeError] and the tick stops where it is, without rescheduling.  Both
    carry the state the tick leaves behind. *)
Inductive Outcome (S : Type) : Type :=
| Scheduled (s : S)
| Threw (s : S).
Arguments Scheduled {S} s.
Arguments Threw {S} s.

Definition final {S : Type} (o : Outcome S) : S :=
  match o with
  | Scheduled s => s
  | Threw s => s
  end.

(* ------------------------------------------------------------------------- *)
(** ** The pose tracker: Known-Reference calibration *)

Module Pose.

(** Component state the ticks share: the closure variable [lastVideoTime],
    the canvas, and the two React state slots.  [detectCalls] is a ghost
    counter of the [detectForVideo] invocations made so far. *)
Record State : Type := mkState {
  lastVideoTime : R;
  canvas : Canvas;
  distance : option number;
  wingspan : option number;
  detectCalls : nat
}.

(** [useState(null)] twice, [lastVideoTime = -1], and an untouched canvas
    (300 by 150 is the default size of a canvas element). *)
Definition initial : State := mkState (-1) (mkCanvas 300 150) None None 0.

Definition setCanvas (c : Canvas) (s : State) : State :=
  mkState (lastVideoTime s) c (distance s) (wingspan s) (detectCalls s).

Definition setLastVideoTime (t : R) (s : State) : State :=
  mkState t (canvas s) (distance s) (wingspan s) (detectCalls s).

Definition countDetect (s : State) : State :=
  mkState (lastVideoTime s) (canvas s) (distance s) (wingspan s)
          (S (detectCalls s)).

Definition setDistance (d : option number) (s : State) : State :=
  mkState (lastVideoTime s) (canvas s) d (wingspan s) (detectCalls s).

Definition setWingspan (w : option number) (s : State) : State :=
  mkState (lastVideoTime s) (canvas s) (distance s) w (detectCalls s).

Definition ASSUMED_SHOULDER_WIDTH_CM : number := Fin 45.

(** [PoseLandmarker.createFromOptions] is given no [numPoses]: the detector
    runs with its default limit of one pose per frame. *)
Definition numPoses : nat := 1.

Definition fovDegrees : number := Fin 70.

Definition shoulderWidthPixels (c : Canvas) (leftShoulder rightShoulder : Landmark)
  : number :=
  let shoulderDx := ((x rightShoulder - x leftShoulder) * Num.of_N (width c))%js in
  let shoulderDy := ((y rightShoulder - y leftShoulder) * Num.of_N (height c))%js in
  Math.sqrt (shoulderDx * shoulderDx + shoulderDy * shoulderDy)%js.

Definition focalLengthPixels (c : Canvas) : number :=
  (Num.of_N (width c)
   / (Fin 2 * Math.tan ((fovDegrees / Fin 2) * (Math.PI / Fin 180))))%js.

Definition calculatedDistance (c : Canvas) (leftShoulder rightShoulder : Landmark)
  : number :=
  ((ASSUMED_SHOULDER_WIDTH_CM * focalLengthPixels c)
   / shoulderWidthPixels c leftShoulder rightShoulder)%js.

Definition wingspanPixels (c : Canvas) (leftWrist rightWrist : Landmark) : number :=
  let wristDx := ((x rightWrist - x leftWrist) * Num.of_N (width c))%js in
  let wristDy := ((y rightWrist - y leftWrist) * Num.of_N (height c))%js in
  Math.sqrt (wristDx * wristDx + wristDy * wristDy)%js.

Definition wingspanCm (c : Canvas)
           (leftShoulder rightShoulder leftWrist rightWrist : Landmark) : number :=
  ((wingspanPixels c leftWrist rightWrist
    * calculatedDistance c leftShoulder rightShoulder)
   / focalLengthPixels c)%js.

(** The branch taken when [results.landmarks.length > 0], on the first
    subject.  The shoulders are dereferenced before [setDistance], the
    wrists only after it. *)
Definition measure (subject : list Landmark) (s : State) : Outcome State :=
  match nth_error subject 11, nth_error subject 12 with
  | Some leftShoulder, Some rightShoulder =>
      let s1 :=
        setDistance (Some (calculatedDistance (canvas s) leftShoulder rightShoulder)) s in
      match nth_error subject 15, nth_error subject 16 with
      | Some leftWrist, Some rightWrist =>
          Scheduled
            (setWingspan
               (Some (wingspanCm (canvas s) leftShoulder rightShoulder
                                 leftWrist rightWrist)) s1)
      | _, _ => Threw s1
      end
  | _, _ => Threw s
  end.

(** One tick of the loop.  [results] is what [detectForVideo] returns if
    this tick invokes it. *)
Definition detectPose (video : Video) (results : LandmarkerResult) (s : State)
  : Outcome State :=
  if paused video || ended video then Scheduled s
  else
    let s := setCanvas (mkCanvas (videoWidth video) (videoHeight video)) s in
    if Req_dec_T (currentTime video) (lastVideoTime s) then Scheduled s
    else
      let s := countDetect (setLastVideoTime (currentTime video) s) in
      match landmarks results with
      | subject :: _ => measure subject s
      | [] => Scheduled (setDistance None (setWingspan None s))
      end.

(** A tick processes a frame when it passes both gates. *)
Definition processes (video : Video) (s : State) : Prop :=
  paused video = false /\ ended video = false /\
  currentTime video <> lastVideoTime s.

(** The pose schema: 33 landmarks per subject. *)
Definition schema (subject : list Landmark) : Prop := length subject = 33%nat.

End Pose.

(* ------------------------------------------------------------------------- *)
(** ** The hand-distance tracker: fixed scale factor *)

Module HandDistance.

Record State : Type := mkState {
  lastVideoTime : R;
  canvas : Canvas;
  distance : option number;
  detectCalls : nat
}.

Definition initial : State := mkState (-1) (mkCanvas 300 150) None 0.

Definition setCanvas (c : Canvas) (s : State) : State :=
  mkState (lastVideoTime s) c (distance s) (detectCalls s).

Definition setLastVideoTime (t : R) (s : State) : State :=
  mkState t (canvas s) (distance s) (detectCalls s).

Definition countDetect (s : State) : State :=
  mkState (lastVideoTime s) (canvas s) (distance s) (S (detectCalls s)).

Definition setDistance (d : option number) (s : State) : State :=
  mkState (lastVideoTime s) (canvas s) d (detectCalls s).

Definition distancePixels (c : Canvas) (finger1 finger2 : Landmark) : number :=
  let dx := ((x finger2 - x finger1) * Num.of_N (width c))%js in
  let dy := ((y finger2 - y finger1) * Num.of_N (height c))%js in
  let dz := ((z finger2 - z finger1) * Num.of_N (width c))%js in
  Math.sqrt (dx * dx + dy * dy + dz * dz)%js.

Definition distanceCm (c : Canvas) (finger1 finger2 : Landmark) : number :=
  ((distancePixels c finger1 finger2 / Num.of_N (width c)) * Fin 50)%js.

(** The branch taken when [results.landmarks.length === 2]. *)
Definition measure (hand1 hand2 : list Landmark) (s : State) : Outcome State :=
  match nth_error hand1 12, nth_error hand2 12 with
  | Some finger1, Some finger2 =>
      Scheduled (setDistance (Some (distanceCm (canvas s) finger1 finger2)) s)
  | _, _ => Threw s
  end.

(** One tick.  [results.landmarks] is an array, hence truthy: the guard
    [if (results.landmarks)] always passes. *)
Definition detectHands (video : Video) (results : LandmarkerResult) (s : State)
  : Outcome State :=
  if paused video || ended video then Scheduled s
  else
    let s := setCanvas (mkCanvas (videoWidth video) (videoHeight video)) s in
    if Req_dec_T (currentTime video) (lastVideoTime s) then Scheduled s
    else
      let s := countDetect (setLastVideoTime (currentTime video) s) in
      match landmarks results with
      | [hand1; hand2] => measure hand1 hand2 s
      | _ => Scheduled (setDistance None s)
      end.

Definition processes (video : Video) (s : State) : Prop :=
  paused video = false /\ ended video = false /\
  currentTime video <> lastVideoTime s.

End HandDistance.

(* ------------------------------------------------------------------------- *)
(** ** The hand-wingspan tracker: Fixed-Distance calibration *)

Module HandWingspan.

Record State : Type := mkState {
  lastVideoTime : R;
  canvas : Canvas;
  wingspan : option number;
  detectCalls : nat
}.

Definition initial : State := mkState (-1) (mkCanvas 300 150) None 0.

Definition setCanvas (c : Canvas) (s : State) : State :=
  mkState (lastVideoTime s) c (wingspan s) (detectCalls s).

Definition setLastVideoTime (t : R) (s : State) : State :=
  mkState t (canvas s) (wingspan s) (detectCalls s).

Definition countDetect (s : State) : State :=
  mkState (lastVideoTime s) (canvas s) (wingspan s) (S (detectCalls s)).

Definition setWingspan (w : option number) (s : State) : State :=
  mkState (lastVideoTime s) (canvas s) w (detectCalls s).

Definition CAMERA_DISTANCE : number := Fin 150.

Definition fovDegrees : number := Fin 70.

Definition distancePixels (c : Canvas) (middleFinger1 middleFinger2 : Landmark)
  : number :=
  let dx := ((x middleFinger2 - x middleFinger1) * Num.of_N (width c))%js in
  let dy := ((y middleFinger2 - y middleFinger1) * Num.of_N (height c))%js in
  Math.sqrt (dx * dx + dy * dy)%js.

Definition fovWidthCm : number :=
  (Fin 2 * CAMERA_DISTANCE
   * Math.tan ((fovDegrees / Fin 2) * (Math.PI / Fin 180)))%js.

Definition pixelToCmRatio (c : Canvas) : number :=
  (fovWidthCm / Num.of_N (width c))%js.

Definition wingspanCm (c : Canvas) (middleFinger1 middleFinger2 : Landmark)
  : number :=
  (distancePixels c middleFinger1 middleFinger2 * pixelToCmRatio c)%js.

(** The branch taken when [results.landmarks.length === 2]. *)
Definition measure (hand1 hand2 : list Landmark) (s : State) : Outcome State :=
  match nth_error hand1 12, nth_error hand2 12 with
  | Some middleFinger1, Some middleFinger2 =>
      Scheduled
        (setWingspan (Some (wingspanCm (canvas s) middleFinger1 middleFinger2)) s)
  | _, _ => Threw s
  end.

Definition detectHands (video : Video) (results : LandmarkerResult) (s : State)
  : Outcome State :=
  if paused video || ended video then Scheduled s
  else
    let s := setCanvas (mkCanvas (videoWidth video) (videoHeight video)) s in
    if Req_dec_T (currentTime video) (lastVideoTime s) then Scheduled s
    else
      let s := countDetect (setLastVideoTime (currentTime video) s) in
      match landmarks results with
      | [hand1; hand2] => measure hand1 hand2 s
      | _ => Scheduled (setWingspan None s)
      end.

Definition processes (video : Video) (s : State) : Prop :=
  paused video = false /\ ended video = false /\
  currentTime video <> lastVideoTime s.

End HandWingspan.

(* ------------------------------------------------------------------------- *)
(** ** Auxiliary definitions for the statements *)

(** The real value of [Math.tan((fovDegrees / 2) * (Math.PI / 180))]. *)
Definition tanHalfFov : R := tan (70 / 2 * (PI / 180)).

(** Relative room left for the rounding of the binary64 operations of the
    programs, which the exact arithmetic on [Fin] does not show: a handful
    of roundings of relative size 2^-53 each stay far below it. *)
Definition roundingSlack : R := 1 / 1000000000.

(** A real within [roundingSlack] of [target], relative to [target]. *)
Definition near (r target : R) : Prop :=
  Rabs (r - target) <= roundingSlack * Rabs target.

(** Two numbers that agree up to rounding: the same special value, or reals
    one of which is near the other. *)
Definition closeTo (a b : number) : Prop :=
  match a, b with
  | Fin r, Fin q => near r q
  | PosInf, PosInf | NegInf, NegInf | NaN, NaN => True
  | _, _ => False
  end.

(** Two measurement slots that agree up to rounding. *)
Definition closeSlot (m m' : option number) : Prop :=
  match m, m' with
  | Some a, Some b => closeTo a b
  | None, None => True
  | _, _ => False
  end.

(** The real focal length, in pixels, of a frame [W] pixels wide. *)
Definition focal (W : N) : R := IZR (Z.of_N W) / (2 * tanHalfFov).

(** The canvas a tick works on once it has copied the video dimensions. *)
Definition frame (video : Video) : Canvas :=
  mkCanvas (videoWidth video) (videoHeight video).

(** Landmarks whose image coordinates are finite numbers. *)
Definition finiteXY (l : Landmark) : bool := isFinite (x l) && isFinite (y l).

(** A landmark at image fraction [(px, py)], depth 0. *)
Definition pt (px py : R) : Landmark := mkLandmark (Fin px) (Fin py) (Fin 0).

(** A pose of 33 landmarks with the given shoulders (11, 12) and wrists
    (15, 16); every other landmark sits at the image centre. *)
Definition poseWith (leftShoulder rightShoulder leftWrist rightWrist : Landmark)
  : list Landmark :=
  repeat (pt 0.5 0.5) 11 ++ [leftShoulder; rightShoulder]
  ++ repeat (pt 0.5 0.5) 2 ++ [leftWrist; rightWrist]
  ++ repeat (pt 0.5 0.5) 16.

(** A hand of 21 landmarks with the given middle-finger tip (12). *)
Definition handWith (middleFinger : Landmark) : list Landmark :=
  repeat (pt 0.5 0.5) 12 ++ [middleFinger] ++ repeat (pt 0.5 0.5) 8.

(** The pose of the Known-Reference scenario: shoulders at (0.40, 0.50) and
    (0.60, 0.50), wrists at (0.10, 0.50) and (0.90, 0.50). *)
Definition scenarioPose : list Landmark :=
  poseWith (pt 0.40 0.50) (pt 0.60 0.50) (pt 0.10 0.50) (pt 0.90 0.50).

(** A playing video, [W] by [H] pixels, at presentation time [t]. *)
Definition playing (W H : N) (t : R) : Video := mkVideo false false W H t.

(** The Measurement State invariant of the pose tracker: the distance is
    unavailable exactly when the wingspan is. *)
Definition consistent (s : Pose.State) : Prop :=
  Pose.distance s = None <-> Pose.wingspan s = None.

(* ------------------------------------------------------------------------- *)
(** ** The animation-frame loop *)

(** Every tick that ends normally hands itself to [requestAnimationFrame]
    and is called back on the next display frame; a tick that throws
    schedules nothing, and the loop is over.  A run is given by what the
    successive callbacks find: the video surface at that moment and the
    result the detector returns if it is invoked.  The end of the list is
    the moment the cleanup cancels the pending callback. *)
Fixpoint loop {S : Type} (tick : Video -> LandmarkerResult -> S -> Outcome S)
         (frames : list (Video * LandmarkerResult)) (s : S) : Outcome S :=
  match frames with
  | [] => Scheduled s
  | (video, results) :: rest =>
      match tick video results s with
      | Scheduled s' => loop tick rest s'
      | Threw s' => Threw s'
      end
  end.

(** The first test of every tick, negated: the video is neither paused nor
    ended. *)
Definition isPlaying (video : Video) : bool := negb (paused video || ended video).

Definition playingTicks (frames : list (Video * LandmarkerResult)) : nat :=
  length (filter (fun f => isPlaying (fst f)) frames).

(** Frames of a playing video that all show the presentation time [t]. *)
Definition frozenAt (t : R) (frames : list (Video * LandmarkerResult)) : Prop :=
  Forall (fun f => isPlaying (fst f) = true /\ currentTime (fst f) = t) frames.

(** Frames of a playing video each of which shows a presentation time other
    than the one before it, [last] being the time before the first. *)
Fixpoint freshFrames (last : R) (frames : list (Video * LandmarkerResult)) : Prop :=
  match frames with
  | [] => True
  | f :: rest =>
      isPlaying (fst f) = true
      /\ currentTime (fst f) <> last
      /\ freshFrames (currentTime (fst f)) rest
  end.

(** The presentation time of the last frame of a run, [last] for none. *)
Definition lastTime (last : R) (frames : list (Video * LandmarkerResult)) : R :=
  fold_left (fun _ f => currentTime (fst f)) frames last.

(** A number below zero. *)
Definition negative (a : number) : Prop :=
  match a with
  | Fin r => r < 0
  | NegInf => True
  | PosInf | NaN => False
  end.

(** A measurement slot that holds no number below zero. *)
Definition notNegative (m : option number) : Prop :=
  match m with
  | Some a => ~ negative a
  | None => True
  end.

(** The same video surface at [k] times the resolution. *)
Definition scaled (k : N) (video : Video) : Video :=
  mkVideo (paused video) (ended video)
          (k * videoWidth video) (k * videoHeight video) (currentTime video).

(** A landmark with finite coordinates. *)
Definition finiteXYZ (l : Landmark) : bool := finiteXY l && isFinite (z l).

(** What the presentation layer reads from the pose tracker. *)
Definition poseReading (s : Pose.State) : option number * option number :=
  (Pose.distance s, Pose.wingspan s).

(** The hand schema: 21 landmarks per hand. *)
Definition handSchema (hand : list Landmark) : Prop := length hand = 21%nat.

(** A landmark inside the image: both image fractions are reals of [0, 1]. *)
Definition inFrame (l : Landmark) : Prop :=
  exists px py : R,
    x l = Fin px /\ y l = Fin py /\ 0 <= px <= 1 /\ 0 <= py <= 1.

(** The diagonal of a canvas, in pixels. *)
Definition diagonal (c : Canvas) : R :=
  sqrt (IZR (Z.of_N (width c)) * IZR (Z.of_N (width c))
        + IZR (Z.of_N (height c)) * IZR (Z.of_N (height c))).

(* ------------------------------------------------------------------------- *)
(** ** Facts about numbers *)

Section NumberFacts.

Lemma Rsign_pos (r : R) : 0 < r -> Rsign r = Positive.
Proof.
  intros Hr. unfold Rsign.
  destruct (total_order_T r 0) as [[Hlt | Heq] | Hgt]; [lra | lra | reflexivity].
Qed.

Lemma Rsign_neg (r : R) : r < 0 -> Rsign r = Negative.
Proof.
  intros Hr. unfold Rsign.
  destruct (total_order_T r 0) as [[Hlt | Heq] | Hgt]; [reflexivity | lra | lra].
Qed.

Lemma Rsign_zero : Rsign 0 = Zero.
Proof.
  unfold Rsign.
  destruct (total_order_T 0 0) as [[Hlt | Heq] | Hgt]; [lra | reflexivity | lra].
Qed.

Lemma Rsign_nonneg (r : R) : 0 <= r -> Rsign r <> Negative.
Proof.
  intros Hr. unfold Rsign.
  destruct (total_order_T r 0) as [[Hlt | Heq] | Hgt]; [lra | discriminate | discriminate].
Qed.

Lemma Rsign_double (r : R) : Rsign (2 * r) = Rsign r.
Proof.
  destruct (total_order_T r 0) as [[Hlt | Heq] | Hgt].
  - rewrite !Rsign_neg by lra. reflexivity.
  - subst r. rewrite Rmult_0_r. reflexivity.
  - rewrite !Rsign_pos by lra. reflexivity.
Qed.

Lemma div_fin (r q : R) : q <> 0 -> (Fin r / Fin q)%js = Fin (r / q).
Proof.
  intros Hq. unfold Num.div, Rsign.
  destruct (total_order_T q 0) as [[Hlt | Heq] | Hgt]; [reflexivity | lra | reflexivity].
Qed.

Lemma div_zero_pos (r : R) : 0 < r -> (Fin r / Fin 0)%js = PosInf.
Proof.
  intros Hr. unfold Num.div. rewrite Rsign_zero, (Rsign_pos r Hr). reflexivity.
Qed.

Lemma div_zero_zero : (Fin 0 / Fin 0)%js = NaN.
Proof. unfold Num.div. rewrite Rsign_zero. reflexivity. Qed.

Lemma sqrt_fin (r : R) : 0 <= r -> Math.sqrt (Fin r) = Fin (sqrt r).
Proof.
  intros Hr. unfold Math.sqrt.
  pose proof (Rsign_nonneg r Hr) as Hs.
  destruct (Rsign r); [contradiction | reflexivity | reflexivity].
Qed.

(** [Math.sqrt] never returns a negative number or [NegInf]. *)
Lemma sqrt_range (a : number) :
  Math.sqrt a = NaN \/ Math.sqrt a = PosInf
  \/ exists r, 0 <= r /\ Math.sqrt a = Fin r.
Proof.
  destruct a as [r | | |]; simpl; auto.
  destruct (Rsign r); auto; right; right; exists (sqrt r); split;
    auto using sqrt_pos.
Qed.

Lemma lt_div (a b c : R) : 0 < c -> a * c < b -> a < b / c.
Proof.
  intros Hc H. apply Rmult_lt_reg_r with c; [exact Hc |].
  replace (b / c * c) with b by (field; lra). exact H.
Qed.

Lemma div_lt (a b c : R) : 0 < c -> b < a * c -> b / c < a.
Proof.
  intros Hc H. apply Rmult_lt_reg_r with c; [exact Hc |].
  replace (b / c * c) with b by (field; lra). exact H.
Qed.

Lemma sumsq_nonneg (a b : R) : 0 <= a * a + b * b.
Proof. nra. Qed.

Lemma sumsq3_nonneg (a b c : R) : 0 <= a * a + b * b + c * c.
Proof. nra. Qed.

Lemma of_N_pos (n : N) : (0 < n)%N -> 0 < IZR (Z.of_N n).
Proof. intros Hn. apply IZR_lt. lia. Qed.

Lemma of_N_nonneg (n : N) : 0 <= IZR (Z.of_N n).
Proof. apply IZR_le. lia. Qed.

(** Doubling commutes with a product, special values included. *)
Lemma mul_double (p r : number) : ((Fin 2 * p) * r = Fin 2 * (p * r))%js.
Proof.
  assert (H2 : Rsign 2 = Positive) by (apply Rsign_pos; lra).
  destruct p as [p | | |], r as [r | | |]; simpl;
    rewrite ?H2, ?Rsign_double; simpl;
    try reflexivity;
    try (f_equal; ring);
    try (destruct (Rsign p); simpl; rewrite ?H2; reflexivity);
    try (destruct (Rsign r); simpl; rewrite ?H2; reflexivity).
Qed.

Lemma near_refl (r : R) : near r r.
Proof.
  unfold near, roundingSlack. rewrite Rminus_diag, Rabs_R0.
  apply Rmult_le_pos; [lra | apply Rabs_pos].
Qed.

Lemma closeTo_refl (a : number) : closeTo a a.
Proof. destruct a; simpl; auto using near_refl. Qed.

Lemma closeSlot_refl (m : option number) : closeSlot m m.
Proof. destruct m; simpl; auto using closeTo_refl. Qed.

End NumberFacts.

(* ------------------------------------------------------------------------- *)
(** ** The field-of-view constant *)

Section FieldOfView.

Lemma PI_bounds : 3.141592 < PI < 3.141593.
Proof.
  pose proof (PI_2_3_7_ineq 3) as [Hlo Hhi].
  cbv [sum_f_R0 tg_alt PI_2_3_7_tg Ratan_seq Nat.mul Nat.add] in Hlo, Hhi.
  simpl pow in Hlo, Hhi. simpl INR in Hlo, Hhi.
  split; lra.
Qed.

Lemma INR_fact7 : INR (fact 7) = 5040.
Proof. rewrite INR_IZR_INZ. apply (f_equal IZR). vm_compute. reflexivity. Qed.

Lemma INR_fact8 : INR (fact 8) = 40320.
Proof. rewrite INR_IZR_INZ. apply (f_equal IZR). vm_compute. reflexivity. Qed.

Lemma INR_fact9 : INR (fact 9) = 362880.
Proof. rewrite INR_IZR_INZ. apply (f_equal IZR). vm_compute. reflexivity. Qed.

Lemma sin_lb_poly (a : R) : sin_lb a = a - a^3/6 + a^5/120 - a^7/5040.
Proof.
  unfold sin_lb, sin_approx, sum_f_R0, sin_term.
  replace (2 * 3 + 1)%nat with 7%nat by reflexivity.
  rewrite INR_fact7. simpl. field.
Qed.

Lemma sin_ub_poly (a : R) :
  sin_ub a = a - a^3/6 + a^5/120 - a^7/5040 + a^9/362880.
Proof.
  unfold sin_ub, sin_approx, sum_f_R0, sin_term.
  replace (2 * 3 + 1)%nat with 7%nat by reflexivity.
  replace (2 * 4 + 1)%nat with 9%nat by reflexivity.
  rewrite INR_fact7, INR_fact9. simpl. field.
Qed.

Lemma cos_lb_poly (a : R) : cos_lb a = 1 - a^2/2 + a^4/24 - a^6/720.
Proof. unfold cos_lb, cos_approx, sum_f_R0, cos_term. simpl. field. Qed.

Lemma cos_ub_poly (a : R) :
  cos_ub a = 1 - a^2/2 + a^4/24 - a^6/720 + a^8/40320.
Proof.
  unfold cos_ub, cos_approx, sum_f_R0, cos_term.
  replace (2 * 4)%nat with 8%nat by reflexivity.
  rewrite INR_fact8. simpl. field.
Qed.

Lemma tanHalfFov_bounds : 0.70020 < tanHalfFov < 0.70022.
Proof.
  unfold tanHalfFov.
  pose proof PI_bounds as [Hp1 Hp2].
  set (a := 70 / 2 * (PI / 180)).
  assert (Ha : 0.610865 < a < 0.610866) by (unfold a; lra).
  assert (Hs1 : sin 0.610865 < sin a) by (apply sin_increasing_1; lra).
  assert (Hs2 : sin a < sin 0.610866) by (apply sin_increasing_1; lra).
  assert (Hc1 : cos a < cos 0.610865) by (apply cos_decreasing_1; lra).
  assert (Hc2 : cos 0.610866 < cos a) by (apply cos_decreasing_1; lra).
  destruct (SIN 0.610865) as [Hs3 _]; [lra | lra |].
  destruct (SIN 0.610866) as [_ Hs4]; [lra | lra |].
  destruct (COS 0.610865) as [_ Hc3]; [lra | lra |].
  destruct (COS 0.610866) as [Hc4 _]; [lra | lra |].
  rewrite sin_lb_poly in Hs3. rewrite sin_ub_poly in Hs4.
  rewrite cos_ub_poly in Hc3. rewrite cos_lb_poly in Hc4.
  assert (Hcpos : 0 < cos a) by lra.
  unfold tan. split.
  - apply Rmult_lt_reg_r with (cos a); [exact Hcpos |].
    unfold Rdiv. rewrite Rmult_assoc, Rinv_l by lra. lra.
  - apply Rmult_lt_reg_r with (cos a); [exact Hcpos |].
    unfold Rdiv. rewrite Rmult_assoc, Rinv_l by lra. lra.
Qed.

Lemma tanHalfFov_pos : 0 < tanHalfFov.
Proof. pose proof tanHalfFov_bounds. lra. Qed.

Lemma Math_tanHalfFov :
  Math.tan ((Fin 70 / Fin 2) * (Math.PI / Fin 180))%js = Fin tanHalfFov.
Proof.
  unfold Math.PI. rewrite !div_fin by lra. reflexivity.
Qed.

End FieldOfView.

(* ------------------------------------------------------------------------- *)
(** ** The pose tracker: stepping a tick *)

Section PoseTick.

Lemma focalLengthPixels_focal (c : Canvas) :
  Pose.focalLengthPixels c = Fin (focal (width c)).
Proof.
  unfold Pose.focalLengthPixels, Pose.fovDegrees, focal.
  rewrite Math_tanHalfFov. cbn [Num.mul Num.of_N].
  apply div_fin. pose proof tanHalfFov_pos. lra.
Qed.

Lemma focal_pos (W : N) : (0 < W)%N -> 0 < focal W.
Proof.
  intros HW. unfold focal. pose proof tanHalfFov_pos. pose proof (of_N_pos W HW).
  apply Rdiv_lt_0_compat; lra.
Qed.

Lemma focal_zero : focal 0 = 0.
Proof. unfold focal. simpl. lra. Qed.

(** A tick that passes both gates: the canvas takes the video dimensions,
    the timestamp is recorded, the detector is invoked once, and the
    measurement branch runs on its result. *)
Lemma detectPose_processes (video : Video) (results : LandmarkerResult)
      (s : Pose.State) :
  Pose.processes video s ->
  Pose.detectPose video results s =
  let s1 := Pose.countDetect
              (Pose.setLastVideoTime (currentTime video)
                 (Pose.setCanvas (frame video) s)) in
  match landmarks results with
  | subject :: _ => Pose.measure subject s1
  | [] => Scheduled (Pose.setDistance None (Pose.setWingspan None s1))
  end.
Proof.
  intros (Hp & He & Ht). unfold Pose.detectPose. rewrite Hp, He. simpl.
  destruct (Req_dec_T (currentTime video) (Pose.lastVideoTime s)) as [Heq | Hne];
    [contradiction | reflexivity].
Qed.

Lemma detectPose_not_ready (video : Video) (results : LandmarkerResult)
      (s : Pose.State) :
  paused video || ended video = true ->
  Pose.detectPose video results s = Scheduled s.
Proof. intros H. unfold Pose.detectPose. rewrite H. reflexivity. Qed.

Lemma detectPose_same_time (video : Video) (results : LandmarkerResult)
      (s : Pose.State) :
  paused video = false -> ended video = false ->
  currentTime video = Pose.lastVideoTime s ->
  Pose.detectPose video results s = Scheduled (Pose.setCanvas (frame video) s).
Proof.
  intros Hp He Ht. unfold Pose.detectPose. rewrite Hp, He. simpl.
  destruct (Req_dec_T (currentTime video) (Pose.lastVideoTime s)) as [Heq | Hne];
    [reflexivity | contradiction].
Qed.

(** The measurement branch on a subject that has its four landmarks. *)
Lemma measure_schema (subject : list Landmark) (s : Pose.State)
      (leftShoulder rightShoulder leftWrist rightWrist : Landmark) :
  nth_error subject 11 = Some leftShoulder ->
  nth_error subject 12 = Some rightShoulder ->
  nth_error subject 15 = Some leftWrist ->
  nth_error subject 16 = Some rightWrist ->
  Pose.measure subject s =
  Scheduled
    (Pose.setWingspan
       (Some (Pose.wingspanCm (Pose.canvas s) leftShoulder rightShoulder
                              leftWrist rightWrist))
       (Pose.setDistance
          (Some (Pose.calculatedDistance (Pose.canvas s) leftShoulder rightShoulder))
          s)).
Proof.
  intros H11 H12 H15 H16. unfold Pose.measure.
  rewrite H11, H12, H15, H16. reflexivity.
Qed.

Lemma nth_error_schema (subject : list Landmark) (i : nat) :
  Pose.schema subject -> (i < 33)%nat -> exists l, nth_error subject i = Some l.
Proof.
  unfold Pose.schema. intros Hlen Hi.
  destruct (nth_error subject i) as [l |] eqn:E; [eauto |].
  apply nth_error_None in E. lia.
Qed.

(** What a processed frame with a subject leaves in the state. *)
Lemma detectPose_measures (video : Video) (results : LandmarkerResult)
      (s : Pose.State) (subject : list Landmark) (others : list (list Landmark))
      (leftShoulder rightShoulder leftWrist rightWrist : Landmark) :
  Pose.processes video s ->
  landmarks results = subject :: others ->
  nth_error subject 11 = Some leftShoulder ->
  nth_error subject 12 = Some rightShoulder ->
  nth_error subject 15 = Some leftWrist ->
  nth_error subject 16 = Some rightWrist ->
  Pose.detectPose video results s =
  Scheduled
    (Pose.mkState
       (currentTime video) (frame video)
       (Some (Pose.calculatedDistance (frame video) leftShoulder rightShoulder))
       (Some (Pose.wingspanCm (frame video) leftShoulder rightShoulder
                              leftWrist rightWrist))
       (S (Pose.detectCalls s))).
Proof.
  intros Hproc Hres H11 H12 H15 H16.
  rewrite (detectPose_processes video results s Hproc). cbv zeta.
  rewrite Hres, (measure_schema _ _ _ _ _ _ H11 H12 H15 H16). reflexivity.
Qed.

(** What a processed frame without a subject leaves in the state. *)
Lemma detectPose_resets (video : Video) (results : LandmarkerResult)
      (s : Pose.State) :
  Pose.processes video s ->
  landmarks results = [] ->
  Pose.detectPose video results s =
  Scheduled
    (Pose.mkState (currentTime video) (frame video) None None
                  (S (Pose.detectCalls s))).
Proof.
  intros Hproc Hres.
  rewrite (detectPose_processes video results s Hproc). cbv zeta.
  rewrite Hres. reflexivity.
Qed.

(** Coincident shoulders on a frame of positive width: the distance is the
    quotient of a positive number by zero. *)
Lemma calculatedDistance_degenerate (c : Canvas) (leftShoulder rightShoulder : Landmark) :
  (0 < width c)%N ->
  Pose.shoulderWidthPixels c leftShoulder rightShoulder = Fin 0 ->
  Pose.calculatedDistance c leftShoulder rightShoulder = PosInf.
Proof.
  intros HW Hp. unfold Pose.calculatedDistance, Pose.ASSUMED_SHOULDER_WIDTH_CM.
  rewrite focalLengthPixels_focal, Hp. cbn [Num.mul].
  apply div_zero_pos. pose proof (focal_pos _ HW). lra.
Qed.

Lemma wingspanCm_degenerate (c : Canvas)
      (leftShoulder rightShoulder leftWrist rightWrist : Landmark) :
  (0 < width c)%N ->
  Pose.shoulderWidthPixels c leftShoulder rightShoulder = Fin 0 ->
  Pose.wingspanCm c leftShoulder rightShoulder leftWrist rightWrist
  = match Pose.wingspanPixels c leftWrist rightWrist with
    | Fin p => match Rsign p with Positive => PosInf | _ => NaN end
    | PosInf => PosInf
    | _ => NaN
    end.
Proof.
  intros HW Hp. unfold Pose.wingspanCm.
  rewrite (calculatedDistance_degenerate c _ _ HW Hp), focalLengthPixels_focal.
  pose proof (focal_pos _ HW) as Hf.
  unfold Pose.wingspanPixels.
  match goal with |- context [Math.sqrt ?a] =>
    destruct (sqrt_range a) as [E | [E | (r & Hr & E)]]; rewrite E end.
  - reflexivity.
  - cbn [Num.mul Num.div]. rewrite (Rsign_pos _ Hf). reflexivity.
  - cbn [Num.mul]. destruct (Rsign r) eqn:Er; cbn [inf_of Num.div].
    + exfalso. exact (Rsign_nonneg r Hr Er).
    + reflexivity.
    + rewrite (Rsign_pos _ Hf). reflexivity.
Qed.

End PoseTick.

(* ------------------------------------------------------------------------- *)
(** ** Known-Reference geometry *)

Section KnownReference.

Lemma Rabs_le_bounds (a b : R) : Rabs a <= b -> - b <= a <= b.
Proof. unfold Rabs. destruct (Rcase_abs a); lra. Qed.

(** The round trip over the reals: the two similar-triangle steps do not
    amplify an error of the pixel separations by more than a factor 3. *)
Lemma round_trip_tolerance (f D L p q tol : R) :
  0 < f -> 0 < D -> 0 <= L -> 0 <= tol <= 1 / 10 ->
  Rabs (p - 45 * f / D) <= tol * (45 * f / D) ->
  Rabs (q - L * f / D) <= tol * (L * f / D) ->
  0 < p
  /\ Rabs (45 * f / p - D) <= 2 * tol * D
  /\ Rabs (q * (45 * f / p) / f - L) <= 3 * tol * L.
Proof.
  intros Hf HD HL Htol Hp Hq.
  assert (HpD : 45 * f * (1 - tol) <= p * D <= 45 * f * (1 + tol)).
  { apply Rabs_le_bounds in Hp.
    replace (45 * f * (1 - tol)) with ((45 * f / D - tol * (45 * f / D)) * D)
      by (field; lra).
    replace (45 * f * (1 + tol)) with ((45 * f / D + tol * (45 * f / D)) * D)
      by (field; lra).
    split; apply Rmult_le_compat_r; lra. }
  assert (HqD : L * f * (1 - tol) <= q * D <= L * f * (1 + tol)).
  { apply Rabs_le_bounds in Hq.
    replace (L * f * (1 - tol)) with ((L * f / D - tol * (L * f / D)) * D)
      by (field; lra).
    replace (L * f * (1 + tol)) with ((L * f / D + tol * (L * f / D)) * D)
      by (field; lra).
    split; apply Rmult_le_compat_r; lra. }
  assert (HpDpos : 0 < p * D) by nra.
  assert (Hppos : 0 < p) by nra.
  split; [exact Hppos |]. split.
  - replace (45 * f / p - D) with ((45 * f - p * D) / p) by (field; lra).
    apply Rabs_le. split.
    + apply Rmult_le_reg_r with p; [exact Hppos |].
      replace ((45 * f - p * D) / p * p) with (45 * f - p * D) by (field; lra).
      nra.
    + apply Rmult_le_reg_r with p; [exact Hppos |].
      replace ((45 * f - p * D) / p * p) with (45 * f - p * D) by (field; lra).
      nra.
  - replace (q * (45 * f / p) / f - L) with ((45 * (q * D) - L * (p * D)) / (p * D))
      by (field; lra).
    set (T := L * f) in *. set (X := p * D) in *. set (Y := q * D) in *.
    assert (HT : 0 <= T) by (unfold T; apply Rmult_le_pos; lra).
    assert (HZ : 45 * T * (1 - tol) <= L * X <= 45 * T * (1 + tol)).
    { unfold T. split.
      - replace (45 * (L * f) * (1 - tol)) with (L * (45 * f * (1 - tol))) by ring.
        apply Rmult_le_compat_l; lra.
      - replace (45 * (L * f) * (1 + tol)) with (L * (45 * f * (1 + tol))) by ring.
        apply Rmult_le_compat_l; lra. }
    set (Z := L * X) in *.
    assert (HtT : 0 <= tol * T) by (apply Rmult_le_pos; lra).
    assert (HttT : 0 <= tol * (tol * T)) by (apply Rmult_le_pos; lra).
    assert (H1 : 0 <= (45 * T * (1 + tol) - Z) * (1 - 3 * tol))
      by (apply Rmult_le_pos; lra).
    assert (H2 : 0 <= (Z - 45 * T * (1 - tol)) * (1 + 3 * tol))
      by (apply Rmult_le_pos; lra).
    apply Rabs_le. split.
    + apply Rmult_le_reg_r with X; [exact HpDpos |].
      replace ((45 * Y - Z) / X * X) with (45 * Y - Z) by (field; lra).
      replace (- (3 * tol * L) * X) with (- (3 * tol * Z)) by (unfold Z; ring).
      nra.
    + apply Rmult_le_reg_r with X; [exact HpDpos |].
      replace ((45 * Y - Z) / X * X) with (45 * Y - Z) by (field; lra).
      replace (3 * tol * L * X) with (3 * tol * Z) by (unfold Z; ring).
      nra.
Qed.

(** C1. Similar-triangles round trip, within tolerance.  Let the shoulder
    and wrist pixel separations [p] and [q] of a processed frame be the
    projections [45 * f / D] and [L_target * f / D] of the reference length
    45 cm and of a target length from one distance [D > 0], with focal
    length [f > 0], each up to a relative error [tol] of at most 1/10.  Then
    the tick stores a distance within [2 * tol + roundingSlack] of [D] and a
    wingspan within [3 * tol + roundingSlack] of [L_target], relative to
    [D] and [L_target]: for exact projections ([tol = 0]) the original
    distance and target length are recovered up to rounding. *)
Theorem similar_triangles_round_trip :
  forall (video : Video) (results : LandmarkerResult) (s : Pose.State)
         (subject : list Landmark) (others : list (list Landmark))
         (leftShoulder rightShoulder leftWrist rightWrist : Landmark)
         (D L_target p q tol : R),
    Pose.processes video s ->
    landmarks results = subject :: others ->
    nth_error subject 11 = Some leftShoulder ->
    nth_error subject 12 = Some rightShoulder ->
    nth_error subject 15 = Some leftWrist ->
    nth_error subject 16 = Some rightWrist ->
    0 < D ->
    0 <= L_target ->
    0 < focal (videoWidth video) ->
    0 <= tol <= 1 / 10 ->
    Pose.shoulderWidthPixels (frame video) leftShoulder rightShoulder = Fin p ->
    Pose.wingspanPixels (frame video) leftWrist rightWrist = Fin q ->
    Rabs (p - 45 * focal (videoWidth video) / D)
    <= tol * (45 * focal (videoWidth video) / D) ->
    Rabs (q - L_target * focal (videoWidth video) / D)
    <= tol * (L_target * focal (videoWidth video) / D) ->
    exists (s' : Pose.State) (d w : R),
      Pose.detectPose video results s = Scheduled s'
      /\ Pose.distance s' = Some (Fin d)
      /\ Pose.wingspan s' = Some (Fin w)
      /\ Rabs (d - D) <= (2 * tol + roundingSlack) * D
      /\ Rabs (w - L_target) <= (3 * tol + roundingSlack) * L_target.
Proof.
  intros video results s subject others ls rs lw rw D Lt p q tol
         Hproc Hres H11 H12 H15 H16 HD HL Hf Htol Hp Hq Hpref Hptarget.
  set (f := focal (videoWidth video)) in *.
  destruct (round_trip_tolerance f D Lt p q tol Hf HD HL Htol Hpref Hptarget)
    as (Hppos & Hd & Hw).
  assert (Hdist : Pose.calculatedDistance (frame video) ls rs = Fin (45 * f / p)).
  { unfold Pose.calculatedDistance, Pose.ASSUMED_SHOULDER_WIDTH_CM.
    rewrite focalLengthPixels_focal, Hp. cbn [width frame Num.mul]. fold f.
    apply div_fin. lra. }
  assert (Hwing : Pose.wingspanCm (frame video) ls rs lw rw
                  = Fin (q * (45 * f / p) / f)).
  { unfold Pose.wingspanCm. rewrite Hdist, Hq, focalLengthPixels_focal.
    cbn [width frame Num.mul]. fold f. apply div_fin. lra. }
  eexists. exists (45 * f / p), (q * (45 * f / p) / f).
  split; [exact (detectPose_measures _ _ _ _ _ _ _ _ _ Hproc Hres H11 H12 H15 H16) |].
  cbn [Pose.distance Pose.wingspan]. rewrite Hdist, Hwing.
  split; [reflexivity |]. split; [reflexivity |].
  unfold roundingSlack. split.
  - apply Rle_trans with (2 * tol * D); [exact Hd | nra].
  - apply Rle_trans with (3 * tol * Lt); [exact Hw | nra].
Qed.

End KnownReference.

(* ------------------------------------------------------------------------- *)
(** ** The Known-Reference scenario, evaluated *)

Section Scenario.

Lemma scenario_shoulderWidthPixels (H : N) :
  Pose.shoulderWidthPixels (mkCanvas 1280 H) (pt 0.40 0.50) (pt 0.60 0.50)
  = Fin 256.
Proof.
  unfold Pose.shoulderWidthPixels.
  cbn [x y pt Num.sub Num.add Num.neg Num.mul Num.of_N width height Z.of_N].
  rewrite sqrt_fin by nra. f_equal.
  rewrite <- (sqrt_square 256) by lra. f_equal. lra.
Qed.

Lemma scenario_wingspanPixels (H : N) :
  Pose.wingspanPixels (mkCanvas 1280 H) (pt 0.10 0.50) (pt 0.90 0.50)
  = Fin 1024.
Proof.
  unfold Pose.wingspanPixels.
  cbn [x y pt Num.sub Num.add Num.neg Num.mul Num.of_N width height Z.of_N].
  rewrite sqrt_fin by nra. f_equal.
  rewrite <- (sqrt_square 1024) by lra. f_equal. lra.
Qed.

Lemma scenario_focal : 913.99 < focal 1280 < 914.03.
Proof.
  unfold focal. cbn [Z.of_N].
  pose proof tanHalfFov_bounds as [Hlo Hhi].
  assert (Hpos : 0 < 2 * tanHalfFov) by lra.
  split.
  - apply lt_div; [exact Hpos | lra].
  - apply div_lt; [exact Hpos | lra].
Qed.

Lemma scenario_calculatedDistance (H : N) :
  Pose.calculatedDistance (mkCanvas 1280 H) (pt 0.40 0.50) (pt 0.60 0.50)
  = Fin (45 * focal 1280 / 256).
Proof.
  unfold Pose.calculatedDistance, Pose.ASSUMED_SHOULDER_WIDTH_CM.
  rewrite focalLengthPixels_focal, scenario_shoulderWidthPixels.
  cbn [width Num.mul]. apply div_fin. lra.
Qed.

Lemma scenario_wingspanCm (H : N) :
  Pose.wingspanCm (mkCanvas 1280 H) (pt 0.40 0.50) (pt 0.60 0.50)
                  (pt 0.10 0.50) (pt 0.90 0.50)
  = Fin 180.
Proof.
  pose proof scenario_focal as [Hf _].
  unfold Pose.wingspanCm.
  rewrite scenario_calculatedDistance, scenario_wingspanPixels,
    focalLengthPixels_focal.
  cbn [width Num.mul]. rewrite div_fin by lra. f_equal. field. lra.
Qed.

Lemma scenario_distance : 160.66 < 45 * focal 1280 / 256 < 160.67.
Proof. pose proof scenario_focal. lra. Qed.

(** Shoulders (or wrists) reported at one and the same point are zero pixels
    apart. *)
Lemma shoulderWidthPixels_coincident (c : Canvas) (px py : R) :
  Pose.shoulderWidthPixels c (pt px py) (pt px py) = Fin 0.
Proof.
  unfold Pose.shoulderWidthPixels.
  cbn [x y pt Num.sub Num.add Num.neg Num.mul Num.of_N].
  rewrite sqrt_fin by nra. f_equal.
  rewrite <- sqrt_0 at 1. f_equal. ring.
Qed.

Lemma wingspanPixels_coincident (c : Canvas) (px py : R) :
  Pose.wingspanPixels c (pt px py) (pt px py) = Fin 0.
Proof. exact (shoulderWidthPixels_coincident c px py). Qed.

End Scenario.

Lemma similar_triangles_round_trip_witness :
  exists (s' : Pose.State) (d w : R),
    Pose.detectPose (playing 1280 720 0) (mkResult [scenarioPose]) Pose.initial
    = Scheduled s'
    /\ Pose.distance s' = Some (Fin d)
    /\ Pose.wingspan s' = Some (Fin w)
    /\ Rabs (d - 45 * focal 1280 / 256)
       <= (2 * 0 + roundingSlack) * (45 * focal 1280 / 256)
    /\ Rabs (w - 180) <= (3 * 0 + roundingSlack) * 180.
Proof.
  pose proof scenario_focal as [Hf _].
  apply (similar_triangles_round_trip
           (playing 1280 720 0) (mkResult [scenarioPose]) Pose.initial
           scenarioPose [] (pt 0.40 0.50) (pt 0.60 0.50) (pt 0.10 0.50) (pt 0.90 0.50)
           (45 * focal 1280 / 256) 180 256 1024 0).
  - unfold Pose.processes. simpl. repeat split; lra.
  - reflexivity.
  - reflexivity.
  - reflexivity.
  - reflexivity.
  - reflexivity.
  - lra.
  - lra.
  - simpl. lra.
  - lra.
  - apply scenario_shoulderWidthPixels.
  - apply scenario_wingspanPixels.
  - simpl videoWidth.
    replace (256 - 45 * focal 1280 / (45 * focal 1280 / 256)) with 0
      by (field; lra).
    rewrite Rabs_R0. lra.
  - simpl videoWidth.
    replace (1024 - 180 * focal 1280 / (45 * focal 1280 / 256)) with 0
      by (field; lra).
    rewrite Rabs_R0. lra.
Defined.

(* ------------------------------------------------------------------------- *)
(** ** Degenerate reference separation *)

(** C2, as stated, fails: on a 1280 x 720 frame whose two shoulders are
    reported at the same point (p_ref = 0) while the wrists are apart, the
    tick stores +Infinity both as distance and as wingspan; neither slot is
    unavailable. *)
Lemma coincident_shoulders_store_infinity :
  exists s' : Pose.State,
    Pose.detectPose
      (playing 1280 720 0)
      (mkResult [poseWith (pt 0.5 0.5) (pt 0.5 0.5) (pt 0.10 0.50) (pt 0.90 0.50)])
      Pose.initial
    = Scheduled s'
    /\ Pose.distance s' = Some PosInf
    /\ Pose.wingspan s' = Some PosInf.
Proof.
  eexists. split.
  - apply (detectPose_measures
             _ _ _ (poseWith (pt 0.5 0.5) (pt 0.5 0.5) (pt 0.10 0.50) (pt 0.90 0.50))
             [] (pt 0.5 0.5) (pt 0.5 0.5) (pt 0.10 0.50) (pt 0.90 0.50));
      try reflexivity.
    unfold Pose.processes. simpl. repeat split; lra.
  - cbn [Pose.distance Pose.wingspan]. split.
    + rewrite calculatedDistance_degenerate;
        [reflexivity | reflexivity | apply shoulderWidthPixels_coincident].
    + rewrite wingspanCm_degenerate;
        [| reflexivity | apply shoulderWidthPixels_coincident].
      unfold frame, playing. cbn [videoWidth videoHeight].
      rewrite scenario_wingspanPixels. rewrite Rsign_pos by lra. reflexivity.
Qed.

(** C2, amended.  The division by the reference separation is unguarded: on
    every processed frame of positive width whose shoulder separation is
    zero, the distance stored is +Infinity, and the wingspan stored is
    +Infinity when the wrist separation is a positive number or +Infinity,
    NaN when the wrist separation is zero or NaN (a wrist separation, being
    a square root, is nothing else).  Both slots hold a non-finite number;
    neither is unavailable. *)
Theorem degenerate_reference_is_not_guarded :
  forall (video : Video) (results : LandmarkerResult) (s : Pose.State)
         (subject : list Landmark) (others : list (list Landmark))
         (leftShoulder rightShoulder leftWrist rightWrist : Landmark),
    Pose.processes video s ->
    landmarks results = subject :: others ->
    nth_error subject 11 = Some leftShoulder ->
    nth_error subject 12 = Some rightShoulder ->
    nth_error subject 15 = Some leftWrist ->
    nth_error subject 16 = Some rightWrist ->
    (0 < videoWidth video)%N ->
    Pose.shoulderWidthPixels (frame video) leftShoulder rightShoulder = Fin 0 ->
    exists s' : Pose.State,
      Pose.detectPose video results s = Scheduled s'
      /\ Pose.distance s' = Some PosInf
      /\ (forall q : R,
             Pose.wingspanPixels (frame video) leftWrist rightWrist = Fin q ->
             0 < q -> Pose.wingspan s' = Some PosInf)
      /\ (Pose.wingspanPixels (frame video) leftWrist rightWrist = PosInf ->
          Pose.wingspan s' = Some PosInf)
      /\ (Pose.wingspanPixels (frame video) leftWrist rightWrist = Fin 0 ->
          Pose.wingspan s' = Some NaN)
      /\ (Pose.wingspanPixels (frame video) leftWrist rightWrist = NaN ->
          Pose.wingspan s' = Some NaN)
      /\ ((exists q : R,
              0 < q /\ Pose.wingspanPixels (frame video) leftWrist rightWrist = Fin q)
          \/ Pose.wingspanPixels (frame video) leftWrist rightWrist = PosInf
          \/ Pose.wingspanPixels (frame video) leftWrist rightWrist = Fin 0
          \/ Pose.wingspanPixels (frame video) leftWrist rightWrist = NaN).
Proof.
  intros video results s subject others ls rs lw rw
         Hproc Hres H11 H12 H15 H16 HW Hp.
  eexists. split;
    [exact (detectPose_measures _ _ _ _ _ _ _ _ _ Hproc Hres H11 H12 H15 H16) |].
  cbn [Pose.distance Pose.wingspan].
  rewrite (calculatedDistance_degenerate (frame video) ls rs HW Hp).
  rewrite (wingspanCm_degenerate (frame video) ls rs lw rw HW Hp).
  split; [reflexivity |].
  split; [intros q -> Hq; rewrite (Rsign_pos q Hq); reflexivity |].
  split; [intros ->; reflexivity |].
  split; [intros ->; rewrite Rsign_zero; reflexivity |].
  split; [intros ->; reflexivity |].
  unfold Pose.wingspanPixels.
  match goal with |- context [Math.sqrt ?a] =>
    destruct (sqrt_range a) as [E | [E | (r & [Hr | Hr] & E)]]; rewrite E end.
  - right; right; right. reflexivity.
  - right; left. reflexivity.
  - left. exists r. split; [exact Hr | reflexivity].
  - right; right; left. rewrite <- Hr. reflexivity.
Qed.

Lemma degenerate_reference_is_not_guarded_witness :
  exists s' : Pose.State,
    Pose.detectPose
      (playing 640 480 1)
      (mkResult [poseWith (pt 0.3 0.4) (pt 0.3 0.4) (pt 0.3 0.4) (pt 0.3 0.4)])
      Pose.initial
    = Scheduled s'
    /\ Pose.distance s' = Some PosInf
    /\ Pose.wingspan s' = Some NaN.
Proof.
  destruct (degenerate_reference_is_not_guarded
              (playing 640 480 1)
              (mkResult [poseWith (pt 0.3 0.4) (pt 0.3 0.4) (pt 0.3 0.4) (pt 0.3 0.4)])
              Pose.initial
              (poseWith (pt 0.3 0.4) (pt 0.3 0.4) (pt 0.3 0.4) (pt 0.3 0.4)) []
              (pt 0.3 0.4) (pt 0.3 0.4) (pt 0.3 0.4) (pt 0.3 0.4))
    as (s' & Htick & Hd & _ & _ & Hzero & _).
  - unfold Pose.processes. simpl. repeat split; lra.
  - reflexivity.
  - reflexivity.
  - reflexivity.
  - reflexivity.
  - reflexivity.
  - reflexivity.
  - apply shoulderWidthPixels_coincident.
  - exists s'. split; [exact Htick |]. split; [exact Hd |].
    apply Hzero. apply wingspanPixels_coincident.
Defined.

(* ------------------------------------------------------------------------- *)
(** ** Subject-count gating of the pose tracker *)

(** C4. Exactly-one-subject gating.  The pose detector returns at most
    [numPoses] = 1 subjects per frame.  On every processed frame whose
    subject count is not exactly one, the tick reschedules with distance and
    wingspan both unavailable, whatever was shown before; on a processed
    frame with exactly one subject (of 33 landmarks) it stores a distance
    and a wingspan.  So the state a processed frame leaves holds a
    measurement only if exactly one subject was present. *)
Theorem exactly_one_subject_gating :
  forall (video : Video) (results : LandmarkerResult) (s : Pose.State),
    Pose.processes video s ->
    (length (landmarks results) <= Pose.numPoses)%nat ->
    (length (landmarks results) <> 1%nat ->
     exists s' : Pose.State,
       Pose.detectPose video results s = Scheduled s'
       /\ Pose.distance s' = None /\ Pose.wingspan s' = None)
    /\ (forall subject : list Landmark,
           landmarks results = [subject] ->
           Pose.schema subject ->
           exists (s' : Pose.State) (d w : number),
             Pose.detectPose video results s = Scheduled s'
             /\ Pose.distance s' = Some d /\ Pose.wingspan s' = Some w)
    /\ (Pose.distance (final (Pose.detectPose video results s)) <> None
        \/ Pose.wingspan (final (Pose.detectPose video results s)) <> None ->
        length (landmarks results) = 1%nat).
Proof.
  intros video results s Hproc Hmax. unfold Pose.numPoses in Hmax.
  assert (Hnone : length (landmarks results) <> 1%nat ->
                  Pose.detectPose video results s
                  = Scheduled (Pose.mkState (currentTime video) (frame video)
                                            None None (S (Pose.detectCalls s)))).
  { intros Hne. apply (detectPose_resets video results s Hproc).
    destruct (landmarks results) as [| subject others]; [reflexivity |].
    simpl in Hmax, Hne. destruct others; [contradiction | simpl in Hmax; lia]. }
  split; [| split].
  - intros Hne. eexists. split; [exact (Hnone Hne) |]. split; reflexivity.
  - intros subject Hres Hschema.
    destruct (nth_error_schema subject 11 Hschema) as [ls H11]; [lia |].
    destruct (nth_error_schema subject 12 Hschema) as [rs H12]; [lia |].
    destruct (nth_error_schema subject 15 Hschema) as [lw H15]; [lia |].
    destruct (nth_error_schema subject 16 Hschema) as [rw H16]; [lia |].
    do 3 eexists. split.
    + exact (detectPose_measures _ _ _ _ _ _ _ _ _ Hproc Hres H11 H12 H15 H16).
    + split; reflexivity.
  - intros Hsome.
    destruct (Nat.eq_dec (length (landmarks results)) 1) as [Heq | Hne];
      [exact Heq |].
    exfalso. rewrite (Hnone Hne) in Hsome. simpl in Hsome.
    destruct Hsome as [H | H]; apply H; reflexivity.
Qed.

Lemma exactly_one_subject_gating_witness :
  (exists s' : Pose.State,
      Pose.detectPose (playing 1280 720 3) (mkResult [])
                      (Pose.mkState 2 (mkCanvas 1280 720) (Some (Fin 160))
                                    (Some (Fin 180)) 4)
      = Scheduled s'
      /\ Pose.distance s' = None /\ Pose.wingspan s' = None)
  /\ (exists (s' : Pose.State) (d w : number),
         Pose.detectPose (playing 1280 720 0) (mkResult [scenarioPose]) Pose.initial
         = Scheduled s'
         /\ Pose.distance s' = Some d /\ Pose.wingspan s' = Some w).
Proof.
  split.
  - destruct (exactly_one_subject_gating
                (playing 1280 720 3) (mkResult [])
                (Pose.mkState 2 (mkCanvas 1280 720) (Some (Fin 160))
                              (Some (Fin 180)) 4))
      as [Hnone _].
    + unfold Pose.processes. simpl. repeat split; lra.
    + simpl. unfold Pose.numPoses. lia.
    + apply Hnone. simpl. discriminate.
  - destruct (exactly_one_subject_gating
                (playing 1280 720 0) (mkResult [scenarioPose]) Pose.initial)
      as (_ & Hone & _).
    + unfold Pose.processes. simpl. repeat split; lra.
    + simpl. unfold Pose.numPoses. lia.
    + apply (Hone scenarioPose); reflexivity.
Defined.

(* ------------------------------------------------------------------------- *)
(** ** The Known-Reference scenario *)

(** C7, as stated, fails: at FOV 70 degrees and width 1280 the focal length
    the code computes is below 914.8 px, so it is not 914.9 px to the
    precision given, and with shoulders 256 px and wrists 1024 px apart the
    wingspan it stores is above 179.7 cm, so it is not 179.6 cm to the
    precision given. *)
Lemma scenario_is_not_914_9_nor_179_6 :
  exists (f w : R) (s' : Pose.State),
    Pose.focalLengthPixels (mkCanvas 1280 720) = Fin f
    /\ f < 914.8
    /\ Pose.detectPose (playing 1280 720 0) (mkResult [scenarioPose]) Pose.initial
       = Scheduled s'
    /\ Pose.wingspan s' = Some (Fin w)
    /\ 179.7 < w.
Proof.
  exists (focal 1280), 180. eexists. split; [apply focalLengthPixels_focal |].
  split; [pose proof scenario_focal; lra |]. split.
  - apply (detectPose_measures
             _ _ _ scenarioPose [] (pt 0.40 0.50) (pt 0.60 0.50)
             (pt 0.10 0.50) (pt 0.90 0.50));
      try reflexivity.
    unfold Pose.processes. simpl. repeat split; lra.
  - cbn [Pose.wingspan]. unfold frame, playing. cbn [videoWidth videoHeight].
    rewrite scenario_wingspanCm. split; [reflexivity | lra].
Qed.

(** C7, amended.  For FOV 70 degrees, width 1280 px (any height), shoulders
    at (0.40, 0.50) and (0.60, 0.50) and wrists at (0.10, 0.50) and
    (0.90, 0.50), a processed frame computes a focal length between 913.99
    and 914.03 px (914.0 px), stores a distance between 160.66 and 160.67 cm
    (160.7 cm) and stores a wingspan between 179.99 and 180.01 cm
    (180.0 cm). *)
Theorem scenario_known_reference :
  forall (H : N) (t : R) (s : Pose.State) (others : list (list Landmark)),
    t <> Pose.lastVideoTime s ->
    exists (f d w : R) (s' : Pose.State),
      Pose.focalLengthPixels (mkCanvas 1280 H) = Fin f
      /\ 913.99 < f < 914.03
      /\ Pose.detectPose (playing 1280 H t) (mkResult (scenarioPose :: others)) s
         = Scheduled s'
      /\ Pose.distance s' = Some (Fin d)
      /\ 160.66 < d < 160.67
      /\ Pose.wingspan s' = Some (Fin w)
      /\ 179.99 < w < 180.01.
Proof.
  intros H t s others Ht.
  exists (focal 1280), (45 * focal 1280 / 256), 180. eexists.
  split; [apply focalLengthPixels_focal |].
  split; [exact scenario_focal |]. split.
  - apply (detectPose_measures
             _ _ _ scenarioPose others (pt 0.40 0.50) (pt 0.60 0.50)
             (pt 0.10 0.50) (pt 0.90 0.50));
      try reflexivity.
    unfold Pose.processes. simpl. repeat split. exact Ht.
  - cbn [Pose.distance Pose.wingspan]. unfold frame, playing.
    cbn [videoWidth videoHeight].
    rewrite scenario_calculatedDistance, scenario_wingspanCm.
    split; [reflexivity |]. split; [exact scenario_distance |].
    split; [reflexivity | lra].
Qed.

Lemma scenario_known_reference_witness :
  exists (f d w : R) (s' : Pose.State),
    Pose.focalLengthPixels (mkCanvas 1280 720) = Fin f
    /\ 913.99 < f < 914.03
    /\ Pose.detectPose (playing 1280 720 0) (mkResult [scenarioPose]) Pose.initial
       = Scheduled s'
    /\ Pose.distance s' = Some (Fin d)
    /\ 160.66 < d < 160.67
    /\ Pose.wingspan s' = Some (Fin w)
    /\ 179.99 < w < 180.01.
Proof.
  apply (scenario_known_reference 720 0 Pose.initial []).
  simpl. lra.
Defined.

(* ------------------------------------------------------------------------- *)
(** ** The Measurement State invariant *)

Section Invariant.

Lemma measure_consistent (subject : list Landmark) (s : Pose.State) :
  Pose.schema subject ->
  consistent (final (Pose.measure subject s)).
Proof.
  intros Hschema.
  destruct (nth_error_schema subject 11 Hschema) as [ls H11]; [lia |].
  destruct (nth_error_schema subject 12 Hschema) as [rs H12]; [lia |].
  destruct (nth_error_schema subject 15 Hschema) as [lw H15]; [lia |].
  destruct (nth_error_schema subject 16 Hschema) as [rw H16]; [lia |].
  rewrite (measure_schema _ _ _ _ _ _ H11 H12 H15 H16).
  unfold consistent. simpl. split; discriminate.
Qed.

Lemma detectPose_consistent (video : Video) (results : LandmarkerResult)
      (s : Pose.State) :
  Forall Pose.schema (landmarks results) ->
  consistent s ->
  consistent (final (Pose.detectPose video results s)).
Proof.
  intros Hwf Hs. unfold Pose.detectPose.
  destruct (paused video || ended video); [exact Hs |]. cbv zeta.
  destruct (Req_dec_T _ _); [exact Hs |].
  destruct (landmarks results) as [| subject others].
  - unfold consistent. simpl. tauto.
  - apply measure_consistent. inversion Hwf. assumption.
Qed.

(** Finite, distinct shoulders and finite wrists on a frame of positive
    width give finite results. *)
Lemma nondegenerate_is_finite (c : Canvas)
      (leftShoulder rightShoulder leftWrist rightWrist : Landmark) (p q : R) :
  (0 < width c)%N ->
  Pose.shoulderWidthPixels c leftShoulder rightShoulder = Fin p -> p <> 0 ->
  Pose.wingspanPixels c leftWrist rightWrist = Fin q ->
  Pose.calculatedDistance c leftShoulder rightShoulder
  = Fin (45 * focal (width c) / p)
  /\ Pose.wingspanCm c leftShoulder rightShoulder leftWrist rightWrist
     = Fin (q * (45 * focal (width c) / p) / focal (width c)).
Proof.
  intros HW Hp Hp0 Hq. pose proof (focal_pos _ HW) as Hf.
  assert (Hd : Pose.calculatedDistance c leftShoulder rightShoulder
               = Fin (45 * focal (width c) / p)).
  { unfold Pose.calculatedDistance, Pose.ASSUMED_SHOULDER_WIDTH_CM.
    rewrite focalLengthPixels_focal, Hp. cbn [Num.mul]. apply div_fin. exact Hp0. }
  split; [exact Hd |].
  unfold Pose.wingspanCm. rewrite Hd, Hq, focalLengthPixels_focal.
  cbn [Num.mul]. apply div_fin. lra.
Qed.

(** The schema hypothesis matters: on a subject cut short after its
    shoulders the wrist read throws after [setDistance] has run, and the
    tick leaves an available distance beside an unavailable wingspan. *)
Remark truncated_subject_leaves_a_mix :
  exists s' : Pose.State,
    Pose.detectPose (playing 1280 720 0) (mkResult [firstn 14 scenarioPose])
                    Pose.initial
    = Threw s'
    /\ Pose.distance s'
       = Some (Pose.calculatedDistance (mkCanvas 1280 720)
                                       (pt 0.40 0.50) (pt 0.60 0.50))
    /\ Pose.wingspan s' = None.
Proof.
  assert (Hproc : Pose.processes (playing 1280 720 0) Pose.initial).
  { unfold Pose.processes. simpl. repeat split; lra. }
  assert (H11 : nth_error (firstn 14 scenarioPose) 11 = Some (pt 0.40 0.50))
    by reflexivity.
  assert (H12 : nth_error (firstn 14 scenarioPose) 12 = Some (pt 0.60 0.50))
    by reflexivity.
  assert (H15 : nth_error (firstn 14 scenarioPose) 15 = None) by reflexivity.
  eexists. split.
  - rewrite (detectPose_processes _ (mkResult [firstn 14 scenarioPose]) _ Hproc).
    cbv zeta. cbn [landmarks]. unfold Pose.measure.
    rewrite H11, H12, H15. reflexivity.
  - cbn [Pose.distance Pose.wingspan Pose.setDistance Pose.canvas Pose.countDetect
           Pose.setLastVideoTime Pose.setCanvas Pose.initial].
    unfold frame, playing. cbn [videoWidth videoHeight].
    split; reflexivity.
Qed.

End Invariant.

(** C8, as stated, fails in its promise of finite values: on a frame whose
    shoulders and wrists are all reported at one point the tick stores
    +Infinity as distance and NaN as wingspan, which is neither a pair of
    finite values nor a joint reset. *)
Lemma degenerate_frame_stores_non_finite :
  exists s' : Pose.State,
    Pose.detectPose
      (playing 1280 720 0)
      (mkResult [poseWith (pt 0.5 0.5) (pt 0.5 0.5) (pt 0.5 0.5) (pt 0.5 0.5)])
      Pose.initial
    = Scheduled s'
    /\ Pose.distance s' = Some PosInf
    /\ Pose.wingspan s' = Some NaN
    /\ ~ ((exists d w : R, Pose.distance s' = Some (Fin d)
                           /\ Pose.wingspan s' = Some (Fin w))
          \/ (Pose.distance s' = None /\ Pose.wingspan s' = None)).
Proof.
  eexists. split.
  - apply (detectPose_measures
             _ _ _ (poseWith (pt 0.5 0.5) (pt 0.5 0.5) (pt 0.5 0.5) (pt 0.5 0.5))
             [] (pt 0.5 0.5) (pt 0.5 0.5) (pt 0.5 0.5) (pt 0.5 0.5));
      try reflexivity.
    unfold Pose.processes. simpl. repeat split; lra.
  - cbn [Pose.distance Pose.wingspan].
    rewrite calculatedDistance_degenerate;
      [| reflexivity | apply shoulderWidthPixels_coincident].
    rewrite wingspanCm_degenerate;
      [| reflexivity | apply shoulderWidthPixels_coincident].
    rewrite wingspanPixels_coincident, Rsign_zero.
    split; [reflexivity |]. split; [reflexivity |].
    intros [(d & w & Hd & _) | (Hd & _)]; discriminate.
Qed.

(** C8, amended.  Over subjects that carry the 33 landmarks of the pose
    schema, every tick preserves the invariant that the distance is
    unavailable exactly when the wingspan is.  A processed frame without a
    subject resets both quantities to unavailable together; a processed
    frame with a subject sets both together, to the distance and the
    wingspan computed from the shoulders and wrists of that frame.  These
    new numbers are finite when the frame has positive width, the shoulder
    separation is a non-zero real and the wrist separation is a real; when
    the frame has positive width and the shoulder separation is zero, the
    distance is +Infinity and the wingspan is not finite either. *)
Theorem measurement_state_all_or_nothing :
  forall (video : Video) (results : LandmarkerResult) (s : Pose.State),
    Forall Pose.schema (landmarks results) ->
    consistent s ->
    consistent (final (Pose.detectPose video results s))
    /\ (Pose.processes video s ->
        landmarks results = [] ->
        Pose.detectPose video results s
        = Scheduled (Pose.mkState (currentTime video) (frame video) None None
                                  (S (Pose.detectCalls s))))
    /\ (forall (subject : list Landmark) (others : list (list Landmark))
               (leftShoulder rightShoulder leftWrist rightWrist : Landmark),
           Pose.processes video s ->
           landmarks results = subject :: others ->
           nth_error subject 11 = Some leftShoulder ->
           nth_error subject 12 = Some rightShoulder ->
           nth_error subject 15 = Some leftWrist ->
           nth_error subject 16 = Some rightWrist ->
           Pose.detectPose video results s
           = Scheduled
               (Pose.mkState
                  (currentTime video) (frame video)
                  (Some (Pose.calculatedDistance (frame video)
                                                 leftShoulder rightShoulder))
                  (Some (Pose.wingspanCm (frame video) leftShoulder rightShoulder
                                         leftWrist rightWrist))
                  (S (Pose.detectCalls s)))
           /\ (forall p q : R,
                  (0 < videoWidth video)%N ->
                  Pose.shoulderWidthPixels (frame video) leftShoulder rightShoulder
                  = Fin p ->
                  p <> 0 ->
                  Pose.wingspanPixels (frame video) leftWrist rightWrist = Fin q ->
                  isFinite (Pose.calculatedDistance (frame video)
                                                    leftShoulder rightShoulder)
                  = true
                  /\ isFinite (Pose.wingspanCm (frame video) leftShoulder
                                               rightShoulder leftWrist rightWrist)
                     = true)
           /\ ((0 < videoWidth video)%N ->
               Pose.shoulderWidthPixels (frame video) leftShoulder rightShoulder
               = Fin 0 ->
               Pose.calculatedDistance (frame video) leftShoulder rightShoulder
               = PosInf
               /\ isFinite (Pose.wingspanCm (frame video) leftShoulder
                                            rightShoulder leftWrist rightWrist)
                  = false)).
Proof.
  intros video results s Hwf Hs. split; [| split].
  - exact (detectPose_consistent video results s Hwf Hs).
  - intros Hproc Hres. exact (detectPose_resets _ _ _ Hproc Hres).
  - intros subject others ls rs lw rw Hproc Hres H11 H12 H15 H16.
    split; [| split].
    + exact (detectPose_measures _ _ _ _ _ _ _ _ _ Hproc Hres H11 H12 H15 H16).
    + intros p q HW Hp Hp0 Hq.
      destruct (nondegenerate_is_finite (frame video) ls rs lw rw p q HW Hp Hp0 Hq)
        as [Hd Hw].
      rewrite Hd, Hw. split; reflexivity.
    + intros HW Hp.
      rewrite (calculatedDistance_degenerate (frame video) ls rs HW Hp).
      rewrite (wingspanCm_degenerate (frame video) ls rs lw rw HW Hp).
      split; [reflexivity |].
      destruct (Pose.wingspanPixels (frame video) lw rw) as [q | | |];
        try reflexivity.
      destruct (Rsign q); reflexivity.
Qed.

Lemma measurement_state_all_or_nothing_witness :
  consistent (final (Pose.detectPose (playing 1280 720 0) (mkResult [scenarioPose])
                                     Pose.initial))
  /\ isFinite (Pose.calculatedDistance (frame (playing 1280 720 0))
                                       (pt 0.40 0.50) (pt 0.60 0.50)) = true
  /\ isFinite (Pose.wingspanCm (frame (playing 1280 720 0))
                               (pt 0.40 0.50) (pt 0.60 0.50)
                               (pt 0.10 0.50) (pt 0.90 0.50)) = true.
Proof.
  assert (Hproc : Pose.processes (playing 1280 720 0) Pose.initial).
  { unfold Pose.processes. simpl. repeat split; lra. }
  destruct (measurement_state_all_or_nothing
              (playing 1280 720 0) (mkResult [scenarioPose]) Pose.initial)
    as (Hinv & _ & Hsome).
  - repeat constructor.
  - unfold consistent. simpl. tauto.
  - split; [exact Hinv |].
    destruct (Hsome scenarioPose [] (pt 0.40 0.50) (pt 0.60 0.50)
                    (pt 0.10 0.50) (pt 0.90 0.50) Hproc
                    eq_refl eq_refl eq_refl eq_refl eq_refl)
      as (_ & Hfinite & _).
    apply (Hfinite 256 1024).
    + reflexivity.
    + apply scenario_shoulderWidthPixels.
    + lra.
    + apply scenario_wingspanPixels.
Defined.

(* ------------------------------------------------------------------------- *)
(** ** The frame gate *)

Section FrameGate.

Lemma pose_measure_frame (subject : list Landmark) (s : Pose.State) :
  Pose.lastVideoTime (final (Pose.measure subject s)) = Pose.lastVideoTime s
  /\ Pose.detectCalls (final (Pose.measure subject s)) = Pose.detectCalls s.
Proof.
  unfold Pose.measure.
  destruct (nth_error subject 11), (nth_error subject 12),
           (nth_error subject 15), (nth_error subject 16); simpl; auto.
Qed.

(** A tick of a playing video leaves its timestamp in [lastVideoTime]. *)
Lemma pose_records_time (video : Video) (results : LandmarkerResult)
      (s : Pose.State) :
  paused video = false -> ended video = false ->
  Pose.lastVideoTime (final (Pose.detectPose video results s)) = currentTime video.
Proof.
  intros Hp He. unfold Pose.detectPose. rewrite Hp, He. simpl.
  destruct (Req_dec_T (currentTime video) (Pose.lastVideoTime s)) as [Heq | Hne].
  - simpl. symmetry. exact Heq.
  - destruct (landmarks results) as [| subject others]; [reflexivity |].
    destruct (pose_measure_frame
                subject
                (Pose.countDetect
                   (Pose.setLastVideoTime (currentTime video)
                      (Pose.setCanvas
                         (mkCanvas (videoWidth video) (videoHeight video)) s))))
      as [Ht _].
    rewrite Ht. reflexivity.
Qed.

(** A tick invokes the detector at most once. *)
Lemma pose_at_most_one_call (video : Video) (results : LandmarkerResult)
      (s : Pose.State) :
  (Pose.detectCalls (final (Pose.detectPose video results s))
   <= S (Pose.detectCalls s))%nat.
Proof.
  unfold Pose.detectPose.
  destruct (paused video || ended video); [simpl; lia |]. cbv zeta.
  destruct (Req_dec_T _ _); [simpl; lia |].
  destruct (landmarks results) as [| subject others]; [simpl; lia |].
  match goal with |- context [Pose.measure subject ?s1] =>
    destruct (pose_measure_frame subject s1) as [_ Hc]; rewrite Hc end.
  simpl. lia.
Qed.

Lemma hand_distance_measure_frame (hand1 hand2 : list Landmark)
      (s : HandDistance.State) :
  HandDistance.lastVideoTime (final (HandDistance.measure hand1 hand2 s))
  = HandDistance.lastVideoTime s
  /\ HandDistance.detectCalls (final (HandDistance.measure hand1 hand2 s))
     = HandDistance.detectCalls s.
Proof.
  unfold HandDistance.measure.
  destruct (nth_error hand1 12), (nth_error hand2 12); simpl; auto.
Qed.

Lemma hand_distance_records_time (video : Video) (results : LandmarkerResult)
      (s : HandDistance.State) :
  paused video = false -> ended video = false ->
  HandDistance.lastVideoTime (final (HandDistance.detectHands video results s))
  = currentTime video.
Proof.
  intros Hp He. unfold HandDistance.detectHands. rewrite Hp, He. simpl.
  destruct (Req_dec_T (currentTime video) (HandDistance.lastVideoTime s))
    as [Heq | Hne].
  - simpl. symmetry. exact Heq.
  - destruct (landmarks results) as [| hand1 [| hand2 [| hand3 rest]]];
      try reflexivity.
    match goal with |- context [HandDistance.measure hand1 hand2 ?s1] =>
      destruct (hand_distance_measure_frame hand1 hand2 s1) as [Ht _];
      rewrite Ht end.
    reflexivity.
Qed.

Lemma hand_distance_at_most_one_call (video : Video) (results : LandmarkerResult)
      (s : HandDistance.State) :
  (HandDistance.detectCalls (final (HandDistance.detectHands video results s))
   <= S (HandDistance.detectCalls s))%nat.
Proof.
  unfold HandDistance.detectHands.
  destruct (paused video || ended video); [simpl; lia |]. cbv zeta.
  destruct (Req_dec_T _ _); [simpl; lia |].
  destruct (landmarks results) as [| hand1 [| hand2 [| hand3 rest]]];
    try (simpl; lia).
  match goal with |- context [HandDistance.measure hand1 hand2 ?s1] =>
    destruct (hand_distance_measure_frame hand1 hand2 s1) as [_ Hc];
    rewrite Hc end.
  simpl. lia.
Qed.

Lemma hand_distance_same_time (video : Video) (results : LandmarkerResult)
      (s : HandDistance.State) :
  paused video = false -> ended video = false ->
  currentTime video = HandDistance.lastVideoTime s ->
  HandDistance.detectHands video results s
  = Scheduled (HandDistance.setCanvas (frame video) s).
Proof.
  intros Hp He Ht. unfold HandDistance.detectHands. rewrite Hp, He. simpl.
  destruct (Req_dec_T (currentTime video) (HandDistance.lastVideoTime s));
    [reflexivity | contradiction].
Qed.

Lemma hand_distance_not_ready (video : Video) (results : LandmarkerResult)
      (s : HandDistance.State) :
  paused video || ended video = true ->
  HandDistance.detectHands video results s = Scheduled s.
Proof. intros H. unfold HandDistance.detectHands. rewrite H. reflexivity. Qed.

End FrameGate.

(** C3. Idempotence under duplicate timestamps, for the pose loop and for
    the hand loop: when two consecutive ticks both read the timestamp of the
    video (a tick reads it once the video is neither paused nor ended) and
    read the same value, the second tick reschedules without invoking the
    detector and leaves distance and wingspan as the first tick left them;
    the two ticks together invoke the detector at most once. *)
Theorem duplicate_timestamp_is_skipped :
  (forall (v1 v2 : Video) (r1 r2 : LandmarkerResult) (s : Pose.State),
      paused v1 = false -> ended v1 = false ->
      paused v2 = false -> ended v2 = false ->
      currentTime v2 = currentTime v1 ->
      exists s2 : Pose.State,
        Pose.detectPose v2 r2 (final (Pose.detectPose v1 r1 s)) = Scheduled s2
        /\ Pose.detectCalls s2 = Pose.detectCalls (final (Pose.detectPose v1 r1 s))
        /\ Pose.distance s2 = Pose.distance (final (Pose.detectPose v1 r1 s))
        /\ Pose.wingspan s2 = Pose.wingspan (final (Pose.detectPose v1 r1 s))
        /\ (Pose.detectCalls s2 <= S (Pose.detectCalls s))%nat)
  /\ (forall (v1 v2 : Video) (r1 r2 : LandmarkerResult) (s : HandDistance.State),
         paused v1 = false -> ended v1 = false ->
         paused v2 = false -> ended v2 = false ->
         currentTime v2 = currentTime v1 ->
         exists s2 : HandDistance.State,
           HandDistance.detectHands v2 r2 (final (HandDistance.detectHands v1 r1 s))
           = Scheduled s2
           /\ HandDistance.detectCalls s2
              = HandDistance.detectCalls (final (HandDistance.detectHands v1 r1 s))
           /\ HandDistance.distance s2
              = HandDistance.distance (final (HandDistance.detectHands v1 r1 s))
           /\ (HandDistance.detectCalls s2 <= S (HandDistance.detectCalls s))%nat).
Proof.
  split.
  - intros v1 v2 r1 r2 s Hp1 He1 Hp2 He2 Ht.
    eexists. split.
    + apply detectPose_same_time; [exact Hp2 | exact He2 |].
      rewrite (pose_records_time v1 r1 s Hp1 He1). exact Ht.
    + simpl. repeat split; try reflexivity.
      apply pose_at_most_one_call.
  - intros v1 v2 r1 r2 s Hp1 He1 Hp2 He2 Ht.
    eexists. split.
    + apply hand_distance_same_time; [exact Hp2 | exact He2 |].
      rewrite (hand_distance_records_time v1 r1 s Hp1 He1). exact Ht.
    + simpl. repeat split; try reflexivity.
      apply hand_distance_at_most_one_call.
Qed.

Lemma duplicate_timestamp_is_skipped_witness :
  (exists s2 : Pose.State,
      Pose.detectPose
        (playing 1280 720 0) (mkResult [])
        (final (Pose.detectPose (playing 1280 720 0) (mkResult [scenarioPose])
                                Pose.initial))
      = Scheduled s2
      /\ Pose.detectCalls s2
         = Pose.detectCalls
             (final (Pose.detectPose (playing 1280 720 0) (mkResult [scenarioPose])
                                     Pose.initial))
      /\ Pose.distance s2
         = Pose.distance
             (final (Pose.detectPose (playing 1280 720 0) (mkResult [scenarioPose])
                                     Pose.initial))
      /\ Pose.wingspan s2
         = Pose.wingspan
             (final (Pose.detectPose (playing 1280 720 0) (mkResult [scenarioPose])
                                     Pose.initial))
      /\ (Pose.detectCalls s2 <= S (Pose.detectCalls Pose.initial))%nat)
  /\ (exists s2 : HandDistance.State,
         HandDistance.detectHands
           (playing 1280 720 0) (mkResult [])
           (final (HandDistance.detectHands
                     (playing 1280 720 0)
                     (mkResult [handWith (pt 0.2 0.5); handWith (pt 0.8 0.5)])
                     HandDistance.initial))
         = Scheduled s2
         /\ HandDistance.detectCalls s2
            = HandDistance.detectCalls
                (final (HandDistance.detectHands
                          (playing 1280 720 0)
                          (mkResult [handWith (pt 0.2 0.5); handWith (pt 0.8 0.5)])
                          HandDistance.initial))
         /\ HandDistance.distance s2
            = HandDistance.distance
                (final (HandDistance.detectHands
                          (playing 1280 720 0)
                          (mkResult [handWith (pt 0.2 0.5); handWith (pt 0.8 0.5)])
                          HandDistance.initial))
         /\ (HandDistance.detectCalls s2
             <= S (HandDistance.detectCalls HandDistance.initial))%nat).
Proof.
  destruct duplicate_timestamp_is_skipped as [Hpose Hhand]. split.
  - apply Hpose; reflexivity.
  - apply Hhand; reflexivity.
Defined.

(** The hypothesis of C3 on the first tick matters: a tick that finds the
    video paused returns before the gate and records nothing, so a next tick
    at the same timestamp, with the video playing, does invoke the
    detector. *)
Remark paused_tick_defers_detection :
  let s1 := final (Pose.detectPose (mkVideo true false 1280 720 0) (mkResult [])
                                   Pose.initial) in
  let s2 := final (Pose.detectPose (playing 1280 720 0) (mkResult []) s1) in
  Pose.detectCalls s1 = 0%nat /\ Pose.detectCalls s2 = 1%nat.
Proof.
  cbv zeta. rewrite detectPose_not_ready by reflexivity. cbn [final].
  rewrite detectPose_resets; [split; reflexivity | | reflexivity].
  unfold Pose.processes. simpl. repeat split; lra.
Qed.

(* ------------------------------------------------------------------------- *)
(** ** Ticks on a surface without dimensions *)

(** C9, as stated, fails: no tick tests the pixel dimensions.  On a playing
    video of width 0 and height 0 with a new timestamp the pose tick invokes
    the detector; with no subject reported it resets an available
    measurement, and with a subject reported it stores NaN as distance. *)
Lemma zero_dimension_tick_detects :
  let s0 := Pose.mkState (-1) (mkCanvas 300 150) (Some (Fin 160)) (Some (Fin 180)) 0 in
  videoWidth (playing 0 0 0) = 0%N
  /\ videoHeight (playing 0 0 0) = 0%N
  /\ Pose.detectPose (playing 0 0 0) (mkResult []) s0
     = Scheduled (Pose.mkState 0 (mkCanvas 0 0) None None 1)
  /\ Pose.detectPose (playing 0 0 0) (mkResult [scenarioPose]) s0
     = Scheduled (Pose.mkState 0 (mkCanvas 0 0) (Some NaN) (Some NaN) 1).
Proof.
  cbv zeta.
  assert (Hproc : Pose.processes
                    (playing 0 0 0)
                    (Pose.mkState (-1) (mkCanvas 300 150) (Some (Fin 160))
                                  (Some (Fin 180)) 0)).
  { unfold Pose.processes. simpl. repeat split; lra. }
  split; [reflexivity |]. split; [reflexivity |]. split.
  - rewrite (detectPose_resets _ (mkResult []) _ Hproc eq_refl). reflexivity.
  - rewrite (detectPose_measures _ (mkResult [scenarioPose]) _ scenarioPose []
                                 (pt 0.40 0.50) (pt 0.60 0.50)
                                 (pt 0.10 0.50) (pt 0.90 0.50) Hproc);
      try reflexivity.
    assert (Hd : Pose.calculatedDistance (frame (playing 0 0 0))
                                         (pt 0.40 0.50) (pt 0.60 0.50) = NaN).
    { unfold Pose.calculatedDistance, Pose.ASSUMED_SHOULDER_WIDTH_CM,
        Pose.shoulderWidthPixels.
      rewrite focalLengthPixels_focal.
      cbn [x y pt Num.sub Num.add Num.neg Num.mul Num.of_N width height frame
             playing videoWidth videoHeight Z.of_N].
      rewrite focal_zero. rewrite sqrt_fin by nra.
      replace (45 * 0) with 0 by ring.
      match goal with |- (Fin 0 / Fin (sqrt ?a))%js = NaN =>
        replace a with 0 by ring end.
      rewrite sqrt_0. apply div_zero_zero. }
    unfold Pose.wingspanCm. rewrite Hd.
    destruct (Pose.wingspanPixels (frame (playing 0 0 0)) (pt 0.10 0.50) (pt 0.90 0.50));
      reflexivity.
Qed.

(** C9, amended.  The only readiness test of a tick is on [paused] and
    [ended]: whenever the video is paused or has ended, whatever its pixel
    dimensions, the pose tick and the hand tick are no-ops that reschedule
    and leave the whole state, detector count included, as it was. *)
Theorem not_ready_tick_is_noop :
  forall (video : Video) (results : LandmarkerResult),
    paused video || ended video = true ->
    (forall s : Pose.State, Pose.detectPose video results s = Scheduled s)
    /\ (forall s : HandDistance.State,
           HandDistance.detectHands video results s = Scheduled s).
Proof.
  intros video results Hnot. split; intros s.
  - exact (detectPose_not_ready video results s Hnot).
  - exact (hand_distance_not_ready video results s Hnot).
Qed.

Lemma not_ready_tick_is_noop_witness :
  (forall s : Pose.State,
      Pose.detectPose (mkVideo true false 0 0 0) (mkResult [scenarioPose]) s
      = Scheduled s)
  /\ (forall s : HandDistance.State,
         HandDistance.detectHands (mkVideo true false 0 0 0)
                                  (mkResult [scenarioPose]) s
         = Scheduled s).
Proof.
  apply (not_ready_tick_is_noop (mkVideo true false 0 0 0) (mkResult [scenarioPose])).
  reflexivity.
Defined.

(* ------------------------------------------------------------------------- *)
(** ** The hand-wingspan tracker: Fixed-Distance geometry *)

Section FixedDistance.

Lemma hand_wingspan_processes (video : Video) (results : LandmarkerResult)
      (s : HandWingspan.State) :
  HandWingspan.processes video s ->
  HandWingspan.detectHands video results s =
  let s1 := HandWingspan.countDetect
              (HandWingspan.setLastVideoTime (currentTime video)
                 (HandWingspan.setCanvas (frame video) s)) in
  match landmarks results with
  | [hand1; hand2] => HandWingspan.measure hand1 hand2 s1
  | _ => Scheduled (HandWingspan.setWingspan None s1)
  end.
Proof.
  intros (Hp & He & Ht). unfold HandWingspan.detectHands. rewrite Hp, He. simpl.
  destruct (Req_dec_T (currentTime video) (HandWingspan.lastVideoTime s));
    [contradiction | reflexivity].
Qed.

Lemma hand_wingspan_measures (video : Video) (results : LandmarkerResult)
      (s : HandWingspan.State) (hand1 hand2 : list Landmark)
      (middleFinger1 middleFinger2 : Landmark) :
  HandWingspan.processes video s ->
  landmarks results = [hand1; hand2] ->
  nth_error hand1 12 = Some middleFinger1 ->
  nth_error hand2 12 = Some middleFinger2 ->
  HandWingspan.detectHands video results s =
  Scheduled
    (HandWingspan.mkState
       (currentTime video) (frame video)
       (Some (HandWingspan.wingspanCm (frame video) middleFinger1 middleFinger2))
       (S (HandWingspan.detectCalls s))).
Proof.
  intros Hproc Hres H1 H2.
  rewrite (hand_wingspan_processes video results s Hproc). cbv zeta.
  rewrite Hres. unfold HandWingspan.measure. rewrite H1, H2. reflexivity.
Qed.

Lemma hand_wingspan_resets (video : Video) (results : LandmarkerResult)
      (s : HandWingspan.State) :
  HandWingspan.processes video s ->
  length (landmarks results) <> 2%nat ->
  HandWingspan.detectHands video results s =
  Scheduled
    (HandWingspan.mkState (currentTime video) (frame video) None
                          (S (HandWingspan.detectCalls s))).
Proof.
  intros Hproc Hlen.
  rewrite (hand_wingspan_processes video results s Hproc). cbv zeta.
  destruct (landmarks results) as [| hand1 [| hand2 [| hand3 rest]]];
    try reflexivity.
  simpl in Hlen. contradiction.
Qed.

(** The pixel-to-centimetre ratio of a frame of positive width. *)
Lemma pixelToCmRatio_finite (c : Canvas) :
  (0 < width c)%N ->
  HandWingspan.pixelToCmRatio c
  = Fin (2 * 150 * tanHalfFov / IZR (Z.of_N (width c))).
Proof.
  intros HW.
  unfold HandWingspan.pixelToCmRatio, HandWingspan.fovWidthCm,
    HandWingspan.CAMERA_DISTANCE, HandWingspan.fovDegrees.
  rewrite Math_tanHalfFov. cbn [Num.mul Num.of_N].
  apply div_fin. pose proof (of_N_pos _ HW). lra.
Qed.

(** Finite fingertip coordinates give a finite pixel separation. *)
Lemma distancePixels_finite (c : Canvas) (middleFinger1 middleFinger2 : Landmark) :
  finiteXY middleFinger1 = true ->
  finiteXY middleFinger2 = true ->
  exists p : R, HandWingspan.distancePixels c middleFinger1 middleFinger2 = Fin p.
Proof.
  destruct middleFinger1 as [x1 y1 z1], middleFinger2 as [x2 y2 z2].
  unfold finiteXY. cbn [x y].
  destruct x1, y1; try discriminate. destruct x2, y2; try discriminate.
  intros _ _. unfold HandWingspan.distancePixels.
  cbn [x y Num.sub Num.add Num.neg Num.mul Num.of_N].
  rewrite sqrt_fin by apply sumsq_nonneg. eauto.
Qed.

End FixedDistance.

(** C5. Subject-count gating of the Fixed-Distance tracker: a processed
    frame whose number of detected hands is not two (0, 1, 3 and also 4, the
    detector limit) leaves the wingspan unavailable; a processed frame of
    positive width with exactly two hands, whose middle-finger tips carry
    finite image coordinates, leaves a finite wingspan. *)
Theorem hand_count_gating :
  forall (video : Video) (results : LandmarkerResult) (s : HandWingspan.State),
    HandWingspan.processes video s ->
    (length (landmarks results) <> 2%nat ->
     exists s' : HandWingspan.State,
       HandWingspan.detectHands video results s = Scheduled s'
       /\ HandWingspan.wingspan s' = None)
    /\ (forall (hand1 hand2 : list Landmark) (middleFinger1 middleFinger2 : Landmark),
           landmarks results = [hand1; hand2] ->
           nth_error hand1 12 = Some middleFinger1 ->
           nth_error hand2 12 = Some middleFinger2 ->
           finiteXY middleFinger1 = true ->
           finiteXY middleFinger2 = true ->
           (0 < videoWidth video)%N ->
           exists (s' : HandWingspan.State) (r : R),
             HandWingspan.detectHands video results s = Scheduled s'
             /\ HandWingspan.wingspan s' = Some (Fin r)).
Proof.
  intros video results s Hproc. split.
  - intros Hlen. eexists. split.
    + exact (hand_wingspan_resets video results s Hproc Hlen).
    + reflexivity.
  - intros hand1 hand2 m1 m2 Hres H1 H2 Hf1 Hf2 HW.
    destruct (distancePixels_finite (frame video) m1 m2 Hf1 Hf2) as [p Hp].
    do 2 eexists. split.
    + exact (hand_wingspan_measures video results s hand1 hand2 m1 m2
                                    Hproc Hres H1 H2).
    + cbn [HandWingspan.wingspan]. unfold HandWingspan.wingspanCm.
      rewrite Hp, (pixelToCmRatio_finite (frame video) HW). reflexivity.
Qed.

Lemma hand_count_gating_witness :
  (exists s' : HandWingspan.State,
      HandWingspan.detectHands
        (playing 1280 720 0)
        (mkResult [handWith (pt 0.2 0.5); handWith (pt 0.5 0.5); handWith (pt 0.8 0.5)])
        HandWingspan.initial
      = Scheduled s'
      /\ HandWingspan.wingspan s' = None)
  /\ (exists (s' : HandWingspan.State) (r : R),
         HandWingspan.detectHands
           (playing 1280 720 0)
           (mkResult [handWith (pt 0.2 0.5); handWith (pt 0.8 0.5)])
           HandWingspan.initial
         = Scheduled s'
         /\ HandWingspan.wingspan s' = Some (Fin r)).
Proof.
  assert (Hproc : HandWingspan.processes (playing 1280 720 0) HandWingspan.initial).
  { unfold HandWingspan.processes. simpl. repeat split; lra. }
  split.
  - destruct (hand_count_gating
                (playing 1280 720 0)
                (mkResult [handWith (pt 0.2 0.5); handWith (pt 0.5 0.5);
                           handWith (pt 0.8 0.5)])
                HandWingspan.initial Hproc) as [Hnone _].
    apply Hnone. simpl. discriminate.
  - destruct (hand_count_gating
                (playing 1280 720 0)
                (mkResult [handWith (pt 0.2 0.5); handWith (pt 0.8 0.5)])
                HandWingspan.initial Hproc) as [_ Hsome].
    apply (Hsome (handWith (pt 0.2 0.5)) (handWith (pt 0.8 0.5))
                 (pt 0.2 0.5) (pt 0.8 0.5)); reflexivity.
Defined.

(** C6. Fixed-Distance linearity: on frames of one width, a fingertip pair
    whose pixel separation is twice that of another pair gets exactly twice
    its length; and on a frame of positive width a pixel separation of zero
    is stored as the length 0, an available value. *)
Theorem fixed_distance_linearity :
  forall (c c' : Canvas) (a1 a2 b1 b2 : Landmark),
    width c' = width c ->
    (HandWingspan.distancePixels c' b1 b2
     = (Fin 2 * HandWingspan.distancePixels c a1 a2)%js ->
     HandWingspan.wingspanCm c' b1 b2
     = (Fin 2 * HandWingspan.wingspanCm c a1 a2)%js)
    /\ ((0 < width c)%N ->
        HandWingspan.distancePixels c a1 a2 = Fin 0 ->
        HandWingspan.wingspanCm c a1 a2 = Fin 0
        /\ forall (video : Video) (results : LandmarkerResult)
                  (s : HandWingspan.State) (hand1 hand2 : list Landmark),
            HandWingspan.processes video s ->
            frame video = c ->
            landmarks results = [hand1; hand2] ->
            nth_error hand1 12 = Some a1 ->
            nth_error hand2 12 = Some a2 ->
            exists s' : HandWingspan.State,
              HandWingspan.detectHands video results s = Scheduled s'
              /\ HandWingspan.wingspan s' = Some (Fin 0)).
Proof.
  intros c c' a1 a2 b1 b2 Hwidth. split.
  - intros Hdouble. unfold HandWingspan.wingspanCm, HandWingspan.pixelToCmRatio.
    rewrite Hdouble, Hwidth. apply mul_double.
  - intros HW Hzero.
    assert (Hcm : HandWingspan.wingspanCm c a1 a2 = Fin 0).
    { unfold HandWingspan.wingspanCm.
      rewrite Hzero, (pixelToCmRatio_finite c HW). cbn [Num.mul].
      f_equal. ring. }
    split; [exact Hcm |].
    intros video results s hand1 hand2 Hproc Hframe Hres H1 H2.
    eexists. split.
    + exact (hand_wingspan_measures video results s hand1 hand2 a1 a2
                                    Hproc Hres H1 H2).
    + cbn [HandWingspan.wingspan]. rewrite Hframe, Hcm. reflexivity.
Qed.

Lemma distancePixels_horizontal (c : Canvas) (a b py : R) :
  a <= b ->
  HandWingspan.distancePixels c (pt a py) (pt b py)
  = Fin ((b - a) * IZR (Z.of_N (width c))).
Proof.
  intros Hab. unfold HandWingspan.distancePixels.
  cbn [x y pt Num.sub Num.add Num.neg Num.mul Num.of_N].
  rewrite sqrt_fin by apply sumsq_nonneg. f_equal.
  rewrite <- (sqrt_square ((b - a) * IZR (Z.of_N (width c)))).
  - f_equal. ring.
  - pose proof (of_N_nonneg (width c)). apply Rmult_le_pos; lra.
Qed.

Lemma fixed_distance_linearity_witness :
  HandWingspan.wingspanCm (mkCanvas 1280 720) (pt 0.3 0.5) (pt 0.7 0.5)
  = (Fin 2 * HandWingspan.wingspanCm (mkCanvas 1280 720) (pt 0.4 0.5) (pt 0.6 0.5))%js
  /\ HandWingspan.wingspanCm (mkCanvas 1280 720) (pt 0.5 0.5) (pt 0.5 0.5) = Fin 0
  /\ exists s' : HandWingspan.State,
      HandWingspan.detectHands
        (playing 1280 720 0)
        (mkResult [handWith (pt 0.5 0.5); handWith (pt 0.5 0.5)])
        HandWingspan.initial
      = Scheduled s'
      /\ HandWingspan.wingspan s' = Some (Fin 0).
Proof.
  split.
  - destruct (fixed_distance_linearity
                (mkCanvas 1280 720) (mkCanvas 1280 720)
                (pt 0.4 0.5) (pt 0.6 0.5) (pt 0.3 0.5) (pt 0.7 0.5) eq_refl)
      as [Hdouble _].
    apply Hdouble. rewrite !distancePixels_horizontal by lra.
    cbn [Num.mul width Z.of_N]. f_equal. lra.
  - destruct (fixed_distance_linearity
                (mkCanvas 1280 720) (mkCanvas 1280 720)
                (pt 0.5 0.5) (pt 0.5 0.5) (pt 0.5 0.5) (pt 0.5 0.5) eq_refl)
      as [_ Hzero].
    destruct Hzero as [Hcm Htick].
    + reflexivity.
    + rewrite distancePixels_horizontal by lra. f_equal. ring.
    + split; [exact Hcm |].
      apply (Htick (playing 1280 720 0)
                   (mkResult [handWith (pt 0.5 0.5); handWith (pt 0.5 0.5)])
                   HandWingspan.initial
                   (handWith (pt 0.5 0.5)) (handWith (pt 0.5 0.5)));
        try reflexivity.
      unfold HandWingspan.processes. simpl. repeat split; lra.
Defined.

(* ------------------------------------------------------------------------- *)
(** ** The hand-distance tracker *)

Section HandDistanceTick.

Lemma hand_distance_measures (video : Video) (results : LandmarkerResult)
      (s : HandDistance.State) (hand1 hand2 : list Landmark)
      (finger1 finger2 : Landmark) :
  HandDistance.processes video s ->
  landmarks results = [hand1; hand2] ->
  nth_error hand1 12 = Some finger1 ->
  nth_error hand2 12 = Some finger2 ->
  HandDistance.detectHands video results s =
  Scheduled
    (HandDistance.mkState
       (currentTime video) (frame video)
       (Some (HandDistance.distanceCm (frame video) finger1 finger2))
       (S (HandDistance.detectCalls s))).
Proof.
  intros (Hp & He & Ht) Hres H1 H2.
  unfold HandDistance.detectHands. rewrite Hp, He. simpl.
  destruct (Req_dec_T (currentTime video) (HandDistance.lastVideoTime s));
    [contradiction |].
  rewrite Hres. unfold HandDistance.measure. rewrite H1, H2. reflexivity.
Qed.

(** The 3-D pixel separation of two finite fingertips, as a real. *)
Lemma hand_distancePixels_finite (c : Canvas) (x1 y1 z1 x2 y2 z2 : R) :
  HandDistance.distancePixels
    c (mkLandmark (Fin x1) (Fin y1) (Fin z1)) (mkLandmark (Fin x2) (Fin y2) (Fin z2))
  = Fin (sqrt (((x2 - x1) * IZR (Z.of_N (width c))) ^ 2
               + ((y2 - y1) * IZR (Z.of_N (height c))) ^ 2
               + ((z2 - z1) * IZR (Z.of_N (width c))) ^ 2)).
Proof.
  unfold HandDistance.distancePixels.
  cbn [x y z Num.sub Num.add Num.neg Num.mul Num.of_N].
  rewrite sqrt_fin by apply sumsq3_nonneg. do 2 f_equal. ring.
Qed.

End HandDistanceTick.

(** C10. In the hand-distance tracker a processed frame with exactly two
    hands stores, as distance in cm, the 3-D pixel separation of the two
    middle-finger tips (index 12; x and z scaled by the frame width, y by
    the frame height) divided by the frame width and multiplied by 50.  For
    finite coordinates and a positive width this is the real number
    [50 * sqrt (dx^2 + dy^2 + dz^2) / W]: no field of view, focal length or
    calibration distance enters. *)
Theorem hand_distance_fixed_scale :
  forall (video : Video) (results : LandmarkerResult) (s : HandDistance.State)
         (hand1 hand2 : list Landmark) (finger1 finger2 : Landmark),
    HandDistance.processes video s ->
    landmarks results = [hand1; hand2] ->
    nth_error hand1 12 = Some finger1 ->
    nth_error hand2 12 = Some finger2 ->
    exists s' : HandDistance.State,
      HandDistance.detectHands video results s = Scheduled s'
      /\ HandDistance.distance s'
         = Some ((HandDistance.distancePixels (frame video) finger1 finger2
                  / Num.of_N (videoWidth video)) * Fin 50)%js
      /\ forall x1 y1 z1 x2 y2 z2 : R,
          finger1 = mkLandmark (Fin x1) (Fin y1) (Fin z1) ->
          finger2 = mkLandmark (Fin x2) (Fin y2) (Fin z2) ->
          (0 < videoWidth video)%N ->
          HandDistance.distance s'
          = Some (Fin (50 * sqrt (((x2 - x1) * IZR (Z.of_N (videoWidth video))) ^ 2
                                  + ((y2 - y1) * IZR (Z.of_N (videoHeight video))) ^ 2
                                  + ((z2 - z1) * IZR (Z.of_N (videoWidth video))) ^ 2)
                       / IZR (Z.of_N (videoWidth video)))).
Proof.
  intros video results s hand1 hand2 finger1 finger2 Hproc Hres H1 H2.
  eexists. split; [| split].
  - exact (hand_distance_measures video results s hand1 hand2 _ _ Hproc Hres H1 H2).
  - reflexivity.
  - intros x1 y1 z1 x2 y2 z2 -> -> HW.
    cbn [HandDistance.distance]. unfold HandDistance.distanceCm.
    rewrite hand_distancePixels_finite. cbn [frame width height].
    unfold Num.of_N. pose proof (of_N_pos _ HW) as HWpos.
    rewrite div_fin by lra. cbn [Num.mul]. do 2 f_equal. field. lra.
Qed.

Lemma hand_distance_fixed_scale_witness :
  exists s' : HandDistance.State,
    HandDistance.detectHands
      (playing 1280 720 0)
      (mkResult [handWith (mkLandmark (Fin 0.2) (Fin 0.5) (Fin 0));
                 handWith (mkLandmark (Fin 0.8) (Fin 0.5) (Fin 0.1))])
      HandDistance.initial
    = Scheduled s'
    /\ HandDistance.distance s'
       = Some (Fin (50 * sqrt (((0.8 - 0.2) * 1280) ^ 2
                               + ((0.5 - 0.5) * 720) ^ 2
                               + ((0.1 - 0) * 1280) ^ 2)
                    / 1280)).
Proof.
  destruct (hand_distance_fixed_scale
              (playing 1280 720 0)
              (mkResult [handWith (mkLandmark (Fin 0.2) (Fin 0.5) (Fin 0));
                         handWith (mkLandmark (Fin 0.8) (Fin 0.5) (Fin 0.1))])
              HandDistance.initial
              (handWith (mkLandmark (Fin 0.2) (Fin 0.5) (Fin 0)))
              (handWith (mkLandmark (Fin 0.8) (Fin 0.5) (Fin 0.1)))
              (mkLandmark (Fin 0.2) (Fin 0.5) (Fin 0))
              (mkLandmark (Fin 0.8) (Fin 0.5) (Fin 0.1)))
    as (s' & Htick & _ & Hreal).
  - unfold HandDistance.processes. simpl. repeat split; lra.
  - reflexivity.
  - reflexivity.
  - reflexivity.
  - exists s'. split; [exact Htick |].
    apply (Hreal 0.2 0.5 0 0.8 0.5 0.1); reflexivity.
Defined.

(* ------------------------------------------------------------------------- *)
(** ** Runs of the loop, for any tick behind the frame gate *)

Section Gate.

Variable St : Type.
Variable Reading : Type.
Variable tick : Video -> LandmarkerResult -> St -> Outcome St.
Variable last : St -> R.
Variable calls : St -> nat.
Variable reading : St -> Reading.

Hypothesis tick_idle :
  forall video results s, isPlaying video = false -> tick video results s = Scheduled s.

Hypothesis tick_same :
  forall video results s,
    isPlaying video = true -> currentTime video = last s ->
    exists s', tick video results s = Scheduled s'
               /\ last s' = last s /\ calls s' = calls s /\ reading s' = reading s.

Hypothesis tick_new :
  forall video results s,
    isPlaying video = true -> currentTime video <> last s ->
    last (final (tick video results s)) = currentTime video
    /\ calls (final (tick video results s)) = S (calls s).

Lemma gate_tick_calls (video : Video) (results : LandmarkerResult) (s : St) :
  (calls s <= calls (final (tick video results s))
   <= calls s + (if isPlaying video then 1 else 0))%nat.
Proof.
  destruct (isPlaying video) eqn:Hplay.
  - destruct (Req_dec_T (currentTime video) (last s)) as [Heq | Hne].
    + destruct (tick_same video results s Hplay Heq) as (s' & -> & _ & Hc & _).
      simpl. lia.
    + destruct (tick_new video results s Hplay Hne) as [_ Hc]. lia.
  - rewrite (tick_idle video results s Hplay). simpl. lia.
Qed.

Lemma gate_tick_records (video : Video) (results : LandmarkerResult) (s : St) :
  isPlaying video = true ->
  last (final (tick video results s)) = currentTime video.
Proof.
  intros Hplay.
  destruct (Req_dec_T (currentTime video) (last s)) as [Heq | Hne].
  - destruct (tick_same video results s Hplay Heq) as (s' & -> & Hl & _).
    simpl. congruence.
  - apply (tick_new video results s Hplay Hne).
Qed.

Lemma gate_loop_calls (frames : list (Video * LandmarkerResult)) :
  forall s : St,
    (calls s <= calls (final (loop tick frames s))
     <= calls s + playingTicks frames)%nat.
Proof.
  unfold playingTicks.
  induction frames as [| [video results] rest IH]; intros s; simpl.
  - lia.
  - pose proof (gate_tick_calls video results s) as Hstep.
    destruct (tick video results s) as [s' | s'] eqn:Htick; simpl in Hstep.
    + specialize (IH s'). destruct (isPlaying video); simpl; lia.
    + simpl. destruct (isPlaying video); simpl; lia.
Qed.

Lemma gate_loop_frozen (frames : list (Video * LandmarkerResult)) :
  forall s : St,
    frozenAt (last s) frames ->
    exists s', loop tick frames s = Scheduled s'
               /\ last s' = last s /\ calls s' = calls s /\ reading s' = reading s.
Proof.
  induction frames as [| [video results] rest IH]; intros s Hfrozen; simpl.
  - exists s. auto.
  - inversion Hfrozen as [| f fs [Hplay Htime] Hrest]; subst. simpl in Hplay, Htime.
    destruct (tick_same video results s Hplay Htime) as (s1 & -> & Hl & Hc & Hr).
    destruct (IH s1) as (s2 & Hloop & Hl2 & Hc2 & Hr2).
    + rewrite Hl. exact Hrest.
    + exists s2. repeat split; congruence.
Qed.

(** Once a playing tick has seen a timestamp, any number of further ticks
    at that timestamp change neither the detector count nor the reading. *)
Lemma gate_loop_repeats (video : Video) (results : LandmarkerResult)
      (rest : list (Video * LandmarkerResult)) (s : St) :
  isPlaying video = true ->
  frozenAt (currentTime video) rest ->
  calls (final (loop tick ((video, results) :: rest) s))
  = calls (final (tick video results s))
  /\ reading (final (loop tick ((video, results) :: rest) s))
     = reading (final (tick video results s))
  /\ (calls (final (loop tick ((video, results) :: rest) s)) <= S (calls s))%nat.
Proof.
  intros Hplay Hfrozen.
  pose proof (gate_tick_records video results s Hplay) as Hrec.
  pose proof (gate_tick_calls video results s) as Hcalls. rewrite Hplay in Hcalls.
  simpl. destruct (tick video results s) as [s1 | s1]; simpl in *.
  - destruct (gate_loop_frozen rest s1) as (s2 & -> & _ & Hc & Hr).
    + rewrite Hrec. exact Hfrozen.
    + simpl. repeat split; [exact Hc | exact Hr | lia].
  - repeat split; lia.
Qed.

(** Frames that each show a new timestamp are each detected on, as long as
    no tick throws. *)
Lemma gate_loop_fresh (frames : list (Video * LandmarkerResult)) :
  forall s : St,
    freshFrames (last s) frames ->
    Forall (fun f => forall s0, exists s1, tick (fst f) (snd f) s0 = Scheduled s1)
           frames ->
    exists s', loop tick frames s = Scheduled s'
               /\ calls s' = (calls s + length frames)%nat
               /\ last s' = lastTime (last s) frames.
Proof.
  unfold lastTime.
  induction frames as [| [video results] rest IH]; intros s Hfresh Hok; simpl.
  - exists s. repeat split. lia.
  - destruct Hfresh as (Hplay & Hnew & Hrest). simpl in Hplay, Hnew, Hrest.
    inversion Hok as [| f fs Hhead Htail]; subst. simpl in Hhead.
    destruct (Hhead s) as [s1 Htick].
    destruct (tick_new video results s Hplay Hnew) as [Hl Hc].
    rewrite Htick in Hl, Hc |- *. simpl in Hl, Hc.
    destruct (IH s1) as (s2 & Hloop & Hc2 & Hl2).
    + rewrite Hl. exact Hrest.
    + exact Htail.
    + exists s2. repeat split; [exact Hloop | lia | congruence].
Qed.

End Gate.

(* ------------------------------------------------------------------------- *)
(** ** The three ticks behind the frame gate *)

Section Instances.

Lemma isPlaying_true (video : Video) :
  isPlaying video = true -> paused video = false /\ ended video = false.
Proof.
  unfold isPlaying. intros H. apply negb_true_iff in H.
  apply orb_false_iff in H. exact H.
Qed.

Lemma isPlaying_false (video : Video) :
  isPlaying video = false -> paused video || ended video = true.
Proof. unfold isPlaying. intros H. apply negb_false_iff in H. exact H. Qed.

(** Pose. *)

Lemma pose_idle (video : Video) (results : LandmarkerResult) (s : Pose.State) :
  isPlaying video = false -> Pose.detectPose video results s = Scheduled s.
Proof.
  intros H. apply detectPose_not_ready. apply isPlaying_false. exact H.
Qed.

Lemma pose_same (video : Video) (results : LandmarkerResult) (s : Pose.State) :
  isPlaying video = true -> currentTime video = Pose.lastVideoTime s ->
  exists s', Pose.detectPose video results s = Scheduled s'
             /\ Pose.lastVideoTime s' = Pose.lastVideoTime s
             /\ Pose.detectCalls s' = Pose.detectCalls s
             /\ poseReading s' = poseReading s.
Proof.
  intros Hplay Ht. destruct (isPlaying_true video Hplay) as [Hp He].
  eexists. split; [exact (detectPose_same_time video results s Hp He Ht) |].
  repeat split.
Qed.

Lemma pose_new (video : Video) (results : LandmarkerResult) (s : Pose.State) :
  isPlaying video = true -> currentTime video <> Pose.lastVideoTime s ->
  Pose.lastVideoTime (final (Pose.detectPose video results s)) = currentTime video
  /\ Pose.detectCalls (final (Pose.detectPose video results s))
     = S (Pose.detectCalls s).
Proof.
  intros Hplay Ht. destruct (isPlaying_true video Hplay) as [Hp He].
  split; [exact (pose_records_time video results s Hp He) |].
  rewrite (detectPose_processes video results s (conj Hp (conj He Ht))). cbv zeta.
  destruct (landmarks results) as [| subject others]; [reflexivity |].
  match goal with |- context [Pose.measure subject ?s1] =>
    destruct (pose_measure_frame subject s1) as [_ Hc]; rewrite Hc end.
  reflexivity.
Qed.

(** Hand distance. *)

Lemma hand_distance_idle (video : Video) (results : LandmarkerResult)
      (s : HandDistance.State) :
  isPlaying video = false -> HandDistance.detectHands video results s = Scheduled s.
Proof.
  intros H. apply hand_distance_not_ready. apply isPlaying_false. exact H.
Qed.

Lemma hand_distance_same (video : Video) (results : LandmarkerResult)
      (s : HandDistance.State) :
  isPlaying video = true -> currentTime video = HandDistance.lastVideoTime s ->
  exists s', HandDistance.detectHands video results s = Scheduled s'
             /\ HandDistance.lastVideoTime s' = HandDistance.lastVideoTime s
             /\ HandDistance.detectCalls s' = HandDistance.detectCalls s
             /\ HandDistance.distance s' = HandDistance.distance s.
Proof.
  intros Hplay Ht. destruct (isPlaying_true video Hplay) as [Hp He].
  eexists. split; [exact (hand_distance_same_time video results s Hp He Ht) |].
  repeat split.
Qed.

Lemma hand_distance_new (video : Video) (results : LandmarkerResult)
      (s : HandDistance.State) :
  isPlaying video = true -> currentTime video <> HandDistance.lastVideoTime s ->
  HandDistance.lastVideoTime (final (HandDistance.detectHands video results s))
  = currentTime video
  /\ HandDistance.detectCalls (final (HandDistance.detectHands video results s))
     = S (HandDistance.detectCalls s).
Proof.
  intros Hplay Ht. destruct (isPlaying_true video Hplay) as [Hp He].
  split; [exact (hand_distance_records_time video results s Hp He) |].
  unfold HandDistance.detectHands. rewrite Hp, He. simpl.
  destruct (Req_dec_T (currentTime video) (HandDistance.lastVideoTime s));
    [contradiction |].
  destruct (landmarks results) as [| hand1 [| hand2 [| hand3 rest]]];
    try reflexivity.
  match goal with |- context [HandDistance.measure hand1 hand2 ?s1] =>
    destruct (hand_distance_measure_frame hand1 hand2 s1) as [_ Hc];
    rewrite Hc end.
  reflexivity.
Qed.

(** Hand wingspan. *)

Lemma hand_wingspan_measure_frame (hand1 hand2 : list Landmark)
      (s : HandWingspan.State) :
  HandWingspan.lastVideoTime (final (HandWingspan.measure hand1 hand2 s))
  = HandWingspan.lastVideoTime s
  /\ HandWingspan.detectCalls (final (HandWingspan.measure hand1 hand2 s))
     = HandWingspan.detectCalls s.
Proof.
  unfold HandWingspan.measure.
  destruct (nth_error hand1 12), (nth_error hand2 12); simpl; auto.
Qed.

Lemma hand_wingspan_idle (video : Video) (results : LandmarkerResult)
      (s : HandWingspan.State) :
  isPlaying video = false -> HandWingspan.detectHands video results s = Scheduled s.
Proof.
  intros H. apply isPlaying_false in H.
  unfold HandWingspan.detectHands. rewrite H. reflexivity.
Qed.

Lemma hand_wingspan_same (video : Video) (results : LandmarkerResult)
      (s : HandWingspan.State) :
  isPlaying video = true -> currentTime video = HandWingspan.lastVideoTime s ->
  exists s', HandWingspan.detectHands video results s = Scheduled s'
             /\ HandWingspan.lastVideoTime s' = HandWingspan.lastVideoTime s
             /\ HandWingspan.detectCalls s' = HandWingspan.detectCalls s
             /\ HandWingspan.wingspan s' = HandWingspan.wingspan s.
Proof.
  intros Hplay Ht. destruct (isPlaying_true video Hplay) as [Hp He].
  unfold HandWingspan.detectHands. rewrite Hp, He. simpl.
  destruct (Req_dec_T (currentTime video) (HandWingspan.lastVideoTime s));
    [| contradiction].
  eexists. split; [reflexivity |]. repeat split.
Qed.

Lemma hand_wingspan_new (video : Video) (results : LandmarkerResult)
      (s : HandWingspan.State) :
  isPlaying video = true -> currentTime video <> HandWingspan.lastVideoTime s ->
  HandWingspan.lastVideoTime (final (HandWingspan.detectHands video results s))
  = currentTime video
  /\ HandWingspan.detectCalls (final (HandWingspan.detectHands video results s))
     = S (HandWingspan.detectCalls s).
Proof.
  intros Hplay Ht. destruct (isPlaying_true video Hplay) as [Hp He].
  rewrite (hand_wingspan_processes video results s (conj Hp (conj He Ht))).
  cbv zeta.
  destruct (landmarks results) as [| hand1 [| hand2 [| hand3 rest]]];
    try (split; reflexivity).
  match goal with |- context [HandWingspan.measure hand1 hand2 ?s1] =>
    destruct (hand_wingspan_measure_frame hand1 hand2 s1) as [Hl Hc];
    rewrite Hl, Hc end.
  split; reflexivity.
Qed.

End Instances.

(* ------------------------------------------------------------------------- *)
(** ** Runs of the three loops *)

Section Runs.

Lemma nth_error_in_range {A : Type} (l : list A) (i : nat) :
  (i < length l)%nat -> exists a, nth_error l i = Some a.
Proof.
  intros Hi. destruct (nth_error l i) as [a |] eqn:E; [eauto |].
  apply nth_error_None in E. lia.
Qed.

Lemma pose_never_throws_on_schema (video : Video) (results : LandmarkerResult) :
  Forall Pose.schema (landmarks results) ->
  forall s0, exists s1, Pose.detectPose video results s0 = Scheduled s1.
Proof.
  intros Hwf s0. unfold Pose.detectPose.
  destruct (paused video || ended video); [eauto |]. cbv zeta.
  destruct (Req_dec_T _ _); [eauto |].
  destruct (landmarks results) as [| subject others]; [eauto |].
  assert (Hschema : Pose.schema subject) by (inversion Hwf; assumption).
  destruct (nth_error_schema subject 11 Hschema) as [ls H11]; [lia |].
  destruct (nth_error_schema subject 12 Hschema) as [rs H12]; [lia |].
  destruct (nth_error_schema subject 15 Hschema) as [lw H15]; [lia |].
  destruct (nth_error_schema subject 16 Hschema) as [rw H16]; [lia |].
  rewrite (measure_schema _ _ _ _ _ _ H11 H12 H15 H16). eauto.
Qed.

Lemma hand_distance_never_throws_on_schema (video : Video)
      (results : LandmarkerResult) :
  Forall handSchema (landmarks results) ->
  forall s0, exists s1, HandDistance.detectHands video results s0 = Scheduled s1.
Proof.
  intros Hwf s0. unfold HandDistance.detectHands.
  destruct (paused video || ended video); [eauto |]. cbv zeta.
  destruct (Req_dec_T _ _); [eauto |].
  destruct (landmarks results) as [| hand1 [| hand2 [| hand3 rest]]]; eauto.
  inversion Hwf as [| h hs H1 Htl]; subst.
  inversion Htl as [| h' hs' H2 _]; subst.
  unfold handSchema in H1, H2.
  destruct (nth_error_in_range hand1 12) as [f1 E1]; [lia |].
  destruct (nth_error_in_range hand2 12) as [f2 E2]; [lia |].
  unfold HandDistance.measure. rewrite E1, E2. eauto.
Qed.

Lemma hand_wingspan_never_throws_on_schema (video : Video)
      (results : LandmarkerResult) :
  Forall handSchema (landmarks results) ->
  forall s0, exists s1, HandWingspan.detectHands video results s0 = Scheduled s1.
Proof.
  intros Hwf s0. unfold HandWingspan.detectHands.
  destruct (paused video || ended video); [eauto |]. cbv zeta.
  destruct (Req_dec_T _ _); [eauto |].
  destruct (landmarks results) as [| hand1 [| hand2 [| hand3 rest]]]; eauto.
  inversion Hwf as [| h hs H1 Htl]; subst.
  inversion Htl as [| h' hs' H2 _]; subst.
  unfold handSchema in H1, H2.
  destruct (nth_error_in_range hand1 12) as [f1 E1]; [lia |].
  destruct (nth_error_in_range hand2 12) as [f2 E2]; [lia |].
  unfold HandWingspan.measure. rewrite E1, E2. eauto.
Qed.

End Runs.

(** X1. A frozen picture costs one detection at most, in all three loops:
    after a tick of a playing video, any number of further ticks that find
    the video playing at the same presentation time leave the detector
    count and the measurement exactly as that first tick left them. *)
Theorem frozen_video_is_detected_once :
  forall (video : Video) (results : LandmarkerResult)
         (rest : list (Video * LandmarkerResult)),
    isPlaying video = true ->
    frozenAt (currentTime video) rest ->
    (forall s : Pose.State,
        Pose.detectCalls (final (loop Pose.detectPose ((video, results) :: rest) s))
        = Pose.detectCalls (final (Pose.detectPose video results s))
        /\ poseReading (final (loop Pose.detectPose ((video, results) :: rest) s))
           = poseReading (final (Pose.detectPose video results s))
        /\ (Pose.detectCalls
              (final (loop Pose.detectPose ((video, results) :: rest) s))
            <= S (Pose.detectCalls s))%nat)
    /\ (forall s : HandDistance.State,
           HandDistance.detectCalls
             (final (loop HandDistance.detectHands ((video, results) :: rest) s))
           = HandDistance.detectCalls (final (HandDistance.detectHands video results s))
           /\ HandDistance.distance
                (final (loop HandDistance.detectHands ((video, results) :: rest) s))
              = HandDistance.distance (final (HandDistance.detectHands video results s))
           /\ (HandDistance.detectCalls
                 (final (loop HandDistance.detectHands ((video, results) :: rest) s))
               <= S (HandDistance.detectCalls s))%nat)
    /\ (forall s : HandWingspan.State,
           HandWingspan.detectCalls
             (final (loop HandWingspan.detectHands ((video, results) :: rest) s))
           = HandWingspan.detectCalls (final (HandWingspan.detectHands video results s))
           /\ HandWingspan.wingspan
                (final (loop HandWingspan.detectHands ((video, results) :: rest) s))
              = HandWingspan.wingspan (final (HandWingspan.detectHands video results s))
           /\ (HandWingspan.detectCalls
                 (final (loop HandWingspan.detectHands ((video, results) :: rest) s))
               <= S (HandWingspan.detectCalls s))%nat).
Proof.
  intros video results rest Hplay Hfrozen. split; [| split]; intros s.
  - exact (gate_loop_repeats _ _ Pose.detectPose Pose.lastVideoTime Pose.detectCalls
                             poseReading pose_idle pose_same pose_new
                             video results rest s Hplay Hfrozen).
  - exact (gate_loop_repeats _ _ HandDistance.detectHands HandDistance.lastVideoTime
                             HandDistance.detectCalls HandDistance.distance
                             hand_distance_idle hand_distance_same hand_distance_new
                             video results rest s Hplay Hfrozen).
  - exact (gate_loop_repeats _ _ HandWingspan.detectHands HandWingspan.lastVideoTime
                             HandWingspan.detectCalls HandWingspan.wingspan
                             hand_wingspan_idle hand_wingspan_same hand_wingspan_new
                             video results rest s Hplay Hfrozen).
Qed.

Lemma frozen_video_is_detected_once_witness :
  Pose.detectCalls
    (final (loop Pose.detectPose
                 [(playing 1280 720 0, mkResult [scenarioPose]);
                  (playing 1280 720 0, mkResult []);
                  (playing 640 480 0, mkResult [scenarioPose])]
                 Pose.initial))
  = Pose.detectCalls
      (final (Pose.detectPose (playing 1280 720 0) (mkResult [scenarioPose])
                              Pose.initial))
  /\ poseReading
       (final (loop Pose.detectPose
                    [(playing 1280 720 0, mkResult [scenarioPose]);
                     (playing 1280 720 0, mkResult []);
                     (playing 640 480 0, mkResult [scenarioPose])]
                    Pose.initial))
     = poseReading
         (final (Pose.detectPose (playing 1280 720 0) (mkResult [scenarioPose])
                                 Pose.initial))
  /\ (Pose.detectCalls
        (final (loop Pose.detectPose
                     [(playing 1280 720 0, mkResult [scenarioPose]);
                      (playing 1280 720 0, mkResult []);
                      (playing 640 480 0, mkResult [scenarioPose])]
                     Pose.initial))
      <= S (Pose.detectCalls Pose.initial))%nat.
Proof.
  destruct (frozen_video_is_detected_once
              (playing 1280 720 0) (mkResult [scenarioPose])
              [(playing 1280 720 0, mkResult []);
               (playing 640 480 0, mkResult [scenarioPose])])
    as [Hpose _].
  - reflexivity.
  - repeat constructor.
  - exact (Hpose Pose.initial).
Defined.

(** X2. No loop ever invokes the detector more often than it has ticks that
    find the video playing, and the count of invocations never goes down:
    ticks on a paused or ended video cost no detection, however many. *)
Theorem detections_bounded_by_playing_ticks :
  forall frames : list (Video * LandmarkerResult),
    (forall s : Pose.State,
        (Pose.detectCalls s
         <= Pose.detectCalls (final (loop Pose.detectPose frames s))
         <= Pose.detectCalls s + playingTicks frames)%nat)
    /\ (forall s : HandDistance.State,
           (HandDistance.detectCalls s
            <= HandDistance.detectCalls (final (loop HandDistance.detectHands frames s))
            <= HandDistance.detectCalls s + playingTicks frames)%nat)
    /\ (forall s : HandWingspan.State,
           (HandWingspan.detectCalls s
            <= HandWingspan.detectCalls (final (loop HandWingspan.detectHands frames s))
            <= HandWingspan.detectCalls s + playingTicks frames)%nat).
Proof.
  intros frames. split; [| split]; intros s.
  - exact (gate_loop_calls _ _ Pose.detectPose Pose.lastVideoTime Pose.detectCalls
                           poseReading pose_idle pose_same pose_new frames s).
  - exact (gate_loop_calls _ _ HandDistance.detectHands HandDistance.lastVideoTime
                           HandDistance.detectCalls HandDistance.distance
                           hand_distance_idle hand_distance_same hand_distance_new
                           frames s).
  - exact (gate_loop_calls _ _ HandWingspan.detectHands HandWingspan.lastVideoTime
                           HandWingspan.detectCalls HandWingspan.wingspan
                           hand_wingspan_idle hand_wingspan_same hand_wingspan_new
                           frames s).
Qed.

(** X3. Every genuinely new frame is detected on exactly once: over a run
    of ticks that each find the video playing at a presentation time other
    than the previous one, with detector results that follow the landmark
    schema, no tick throws, the detector count grows by the number of ticks
    and the loop ends on the timestamp of the last frame. *)
Theorem fresh_frames_are_each_detected :
  forall frames : list (Video * LandmarkerResult),
    (forall s : Pose.State,
        freshFrames (Pose.lastVideoTime s) frames ->
        Forall (fun f => Forall Pose.schema (landmarks (snd f))) frames ->
        exists s' : Pose.State,
          loop Pose.detectPose frames s = Scheduled s'
          /\ Pose.detectCalls s' = (Pose.detectCalls s + length frames)%nat
          /\ Pose.lastVideoTime s' = lastTime (Pose.lastVideoTime s) frames)
    /\ (forall s : HandDistance.State,
           freshFrames (HandDistance.lastVideoTime s) frames ->
           Forall (fun f => Forall handSchema (landmarks (snd f))) frames ->
           exists s' : HandDistance.State,
             loop HandDistance.detectHands frames s = Scheduled s'
             /\ HandDistance.detectCalls s'
                = (HandDistance.detectCalls s + length frames)%nat
             /\ HandDistance.lastVideoTime s'
                = lastTime (HandDistance.lastVideoTime s) frames)
    /\ (forall s : HandWingspan.State,
           freshFrames (HandWingspan.lastVideoTime s) frames ->
           Forall (fun f => Forall handSchema (landmarks (snd f))) frames ->
           exists s' : HandWingspan.State,
             loop HandWingspan.detectHands frames s = Scheduled s'
             /\ HandWingspan.detectCalls s'
                = (HandWingspan.detectCalls s + length frames)%nat
             /\ HandWingspan.lastVideoTime s'
                = lastTime (HandWingspan.lastVideoTime s) frames).
Proof.
  intros frames. split; [| split]; intros s Hfresh Hwf.
  - apply (gate_loop_fresh _ Pose.detectPose Pose.lastVideoTime Pose.detectCalls
                           pose_new frames s Hfresh).
    eapply Forall_impl; [| exact Hwf]. intros [video results] H.
    exact (pose_never_throws_on_schema video results H).
  - apply (gate_loop_fresh _ HandDistance.detectHands HandDistance.lastVideoTime
                           HandDistance.detectCalls hand_distance_new
                           frames s Hfresh).
    eapply Forall_impl; [| exact Hwf]. intros [video results] H.
    exact (hand_distance_never_throws_on_schema video results H).
  - apply (gate_loop_fresh _ HandWingspan.detectHands HandWingspan.lastVideoTime
                           HandWingspan.detectCalls hand_wingspan_new
                           frames s Hfresh).
    eapply Forall_impl; [| exact Hwf]. intros [video results] H.
    exact (hand_wingspan_never_throws_on_schema video results H).
Qed.

Lemma fresh_frames_are_each_detected_witness :
  (exists s' : Pose.State,
      loop Pose.detectPose
           [(playing 1280 720 0, mkResult [scenarioPose]);
            (playing 1280 720 1, mkResult [])]
           Pose.initial
      = Scheduled s'
      /\ Pose.detectCalls s' = 2%nat
      /\ Pose.lastVideoTime s' = 1)
  /\ (exists s' : HandWingspan.State,
         loop HandWingspan.detectHands
              [(playing 1280 720 0,
                mkResult [handWith (pt 0.2 0.5); handWith (pt 0.8 0.5)]);
               (playing 1280 720 1, mkResult [handWith (pt 0.2 0.5)])]
              HandWingspan.initial
         = Scheduled s'
         /\ HandWingspan.detectCalls s' = 2%nat
         /\ HandWingspan.lastVideoTime s' = 1).
Proof.
  split.
  - destruct (fresh_frames_are_each_detected
                [(playing 1280 720 0, mkResult [scenarioPose]);
                 (playing 1280 720 1, mkResult [])]) as [Hpose _].
    apply (Hpose Pose.initial).
    + simpl. repeat split; lra.
    + repeat constructor.
  - destruct (fresh_frames_are_each_detected
                [(playing 1280 720 0,
                  mkResult [handWith (pt 0.2 0.5); handWith (pt 0.8 0.5)]);
                 (playing 1280 720 1, mkResult [handWith (pt 0.2 0.5)])])
      as (_ & _ & Hhand).
    apply (Hhand HandWingspan.initial).
    + simpl. repeat split; lra.
    + repeat constructor.
Defined.

(** X4. Over any run of the pose loop, from any state in which distance and
    wingspan are available together or not at all -- the initial state is
    one -- and with detector results that follow the 33-landmark schema, the
    state the run ends in has them available together or not at all. *)
Theorem pose_run_keeps_measurement_consistent :
  forall (frames : list (Video * LandmarkerResult)) (s : Pose.State),
    Forall (fun f => Forall Pose.schema (landmarks (snd f))) frames ->
    consistent s ->
    consistent (final (loop Pose.detectPose frames s))
    /\ consistent Pose.initial.
Proof.
  intros frames s Hwf Hs. split; [| unfold consistent; simpl; tauto].
  revert s Hs. induction frames as [| [video results] rest IH]; intros s Hs.
  - exact Hs.
  - inversion Hwf as [| f fs Hhead Htail]; subst. simpl in Hhead.
    pose proof (detectPose_consistent video results s Hhead Hs) as Hstep.
    simpl. destruct (Pose.detectPose video results s) as [s1 | s1].
    + apply IH; assumption.
    + exact Hstep.
Qed.

Lemma pose_run_keeps_measurement_consistent_witness :
  consistent
    (final (loop Pose.detectPose
                 [(playing 1280 720 0, mkResult [scenarioPose]);
                  (playing 1280 720 1, mkResult []);
                  (mkVideo true false 1280 720 1, mkResult [scenarioPose])]
                 Pose.initial))
  /\ consistent Pose.initial.
Proof.
  apply (pose_run_keeps_measurement_consistent
           [(playing 1280 720 0, mkResult [scenarioPose]);
            (playing 1280 720 1, mkResult []);
            (mkVideo true false 1280 720 1, mkResult [scenarioPose])]
           Pose.initial).
  - repeat constructor.
  - unfold consistent. simpl. tauto.
Defined.

(** X5. The field of view cancels out of the wingspan, up to rounding.  On
    a processed frame of positive width whose shoulders are [p] pixels
    apart, [p] not zero, and whose wrists are [q] pixels apart, the pose
    tick stores a wingspan near [45 * q / p]: the assumed shoulder width
    times the ratio of the two pixel separations, whatever the frame width
    and the assumed field of view; the distance it stores is near
    [45 * f / p] for the focal length [f]. *)
Theorem wingspan_is_ratio_of_separations :
  forall (video : Video) (results : LandmarkerResult) (s : Pose.State)
         (subject : list Landmark) (others : list (list Landmark))
         (leftShoulder rightShoulder leftWrist rightWrist : Landmark)
         (p q : R),
    Pose.processes video s ->
    landmarks results = subject :: others ->
    nth_error subject 11 = Some leftShoulder ->
    nth_error subject 12 = Some rightShoulder ->
    nth_error subject 15 = Some leftWrist ->
    nth_error subject 16 = Some rightWrist ->
    (0 < videoWidth video)%N ->
    Pose.shoulderWidthPixels (frame video) leftShoulder rightShoulder = Fin p ->
    p <> 0 ->
    Pose.wingspanPixels (frame video) leftWrist rightWrist = Fin q ->
    exists (s' : Pose.State) (d w : R),
      Pose.detectPose video results s = Scheduled s'
      /\ Pose.wingspan s' = Some (Fin w)
      /\ near w (45 * q / p)
      /\ Pose.distance s' = Some (Fin d)
      /\ near d (45 * focal (videoWidth video) / p).
Proof.
  intros video results s subject others ls rs lw rw p q
         Hproc Hres H11 H12 H15 H16 HW Hp Hp0 Hq.
  destruct (nondegenerate_is_finite (frame video) ls rs lw rw p q HW Hp Hp0 Hq)
    as [Hd Hw].
  pose proof (focal_pos _ HW) as Hf.
  eexists. exists (45 * focal (videoWidth video) / p), (45 * q / p).
  split;
    [exact (detectPose_measures _ _ _ _ _ _ _ _ _ Hproc Hres H11 H12 H15 H16) |].
  cbn [Pose.distance Pose.wingspan]. rewrite Hd, Hw. cbn [frame width].
  split; [do 2 f_equal; field; lra |].
  split; [apply near_refl |]. split; [reflexivity | apply near_refl].
Qed.

Lemma wingspan_is_ratio_of_separations_witness :
  exists (s' : Pose.State) (d w : R),
    Pose.detectPose (playing 640 480 2) (mkResult [scenarioPose]) Pose.initial
    = Scheduled s'
    /\ Pose.wingspan s' = Some (Fin w)
    /\ near w (45 * 512 / 128)
    /\ Pose.distance s' = Some (Fin d)
    /\ near d (45 * focal 640 / 128).
Proof.
  apply (wingspan_is_ratio_of_separations
           (playing 640 480 2) (mkResult [scenarioPose]) Pose.initial
           scenarioPose [] (pt 0.40 0.50) (pt 0.60 0.50) (pt 0.10 0.50) (pt 0.90 0.50)
           128 512); try reflexivity.
  - unfold Pose.processes. simpl. repeat split; lra.
  - unfold Pose.shoulderWidthPixels, frame, playing.
    cbn [x y pt Num.sub Num.add Num.neg Num.mul Num.of_N width height
           videoWidth videoHeight Z.of_N].
    rewrite sqrt_fin by apply sumsq_nonneg. f_equal.
    rewrite <- (sqrt_square 128) by lra. f_equal. lra.
  - lra.
  - unfold Pose.wingspanPixels, frame, playing.
    cbn [x y pt Num.sub Num.add Num.neg Num.mul Num.of_N width height
           videoWidth videoHeight Z.of_N].
    rewrite sqrt_fin by apply sumsq_nonneg. f_equal.
    rewrite <- (sqrt_square 512) by lra. f_equal. lra.
Defined.

(* ------------------------------------------------------------------------- *)
(** ** Signs of the measurements *)

Section Signs.

Lemma loop_invariant {St : Type} (tick : Video -> LandmarkerResult -> St -> Outcome St)
      (P : St -> Prop) :
  (forall video results s, P s -> P (final (tick video results s))) ->
  forall frames s, P s -> P (final (loop tick frames s)).
Proof.
  intros Hstep frames. induction frames as [| [video results] rest IH]; intros s Hs.
  - exact Hs.
  - pose proof (Hstep video results s Hs) as H1. simpl.
    destruct (tick video results s) as [s1 | s1]; [apply IH |]; exact H1.
Qed.

Lemma Rsign_Positive_inv (r : R) : Rsign r = Positive -> 0 < r.
Proof.
  unfold Rsign.
  destruct (total_order_T r 0) as [[Hlt | Heq] | Hgt]; try discriminate.
  intros _. exact Hgt.
Qed.

Lemma inf_of_not_negative (r : R) : 0 <= r -> ~ negative (inf_of (Rsign r)).
Proof.
  intros Hr. pose proof (Rsign_nonneg r Hr) as Hs.
  destruct (Rsign r); simpl; tauto.
Qed.

Lemma sqrt_not_negative (a : number) : ~ negative (Math.sqrt a).
Proof.
  destruct (sqrt_range a) as [E | [E | (r & Hr & E)]]; rewrite E; simpl; lra.
Qed.

Lemma of_N_not_negative (n : N) : ~ negative (Num.of_N n).
Proof. unfold Num.of_N. simpl. pose proof (of_N_nonneg n). lra. Qed.

Lemma mul_not_negative (a b : number) :
  ~ negative a -> ~ negative b -> ~ negative (a * b)%js.
Proof.
  destruct a as [r | | |], b as [q | | |]; simpl; intros Ha Hb; try tauto.
  - apply Rle_not_lt. apply Rmult_le_pos; lra.
  - apply inf_of_not_negative. lra.
  - apply inf_of_not_negative. lra.
Qed.

Lemma div_not_negative (a b : number) :
  ~ negative a -> ~ negative b -> ~ negative (a / b)%js.
Proof.
  destruct a as [r | | |], b as [q | | |]; simpl; intros Ha Hb; try tauto;
    try lra.
  - destruct (Rsign q) eqn:Eq.
    + exfalso. apply (Rsign_nonneg q); [lra | exact Eq].
    + apply inf_of_not_negative. lra.
    + apply Rsign_Positive_inv in Eq. simpl. apply Rle_not_lt.
      apply Rmult_le_pos; [lra |]. left. apply Rinv_0_lt_compat. exact Eq.
  - destruct (Rsign q) eqn:Eq; simpl; try tauto.
    exfalso. apply (Rsign_nonneg q); [lra | exact Eq].
Qed.

Lemma focalLengthPixels_not_negative (c : Canvas) :
  ~ negative (Pose.focalLengthPixels c).
Proof.
  rewrite focalLengthPixels_focal. simpl. unfold focal.
  pose proof (of_N_nonneg (width c)). pose proof tanHalfFov_pos.
  apply Rle_not_lt. apply Rmult_le_pos; [lra |].
  left. apply Rinv_0_lt_compat. lra.
Qed.

Lemma calculatedDistance_not_negative (c : Canvas) (leftShoulder rightShoulder : Landmark) :
  ~ negative (Pose.calculatedDistance c leftShoulder rightShoulder).
Proof.
  unfold Pose.calculatedDistance. apply div_not_negative.
  - apply mul_not_negative; [simpl; lra | apply focalLengthPixels_not_negative].
  - apply sqrt_not_negative.
Qed.

Lemma wingspanCm_not_negative (c : Canvas)
      (leftShoulder rightShoulder leftWrist rightWrist : Landmark) :
  ~ negative (Pose.wingspanCm c leftShoulder rightShoulder leftWrist rightWrist).
Proof.
  unfold Pose.wingspanCm. apply div_not_negative.
  - apply mul_not_negative;
      [apply sqrt_not_negative | apply calculatedDistance_not_negative].
  - apply focalLengthPixels_not_negative.
Qed.

Lemma distanceCm_not_negative (c : Canvas) (finger1 finger2 : Landmark) :
  ~ negative (HandDistance.distanceCm c finger1 finger2).
Proof.
  unfold HandDistance.distanceCm. apply mul_not_negative; [| simpl; lra].
  apply div_not_negative; [apply sqrt_not_negative | apply of_N_not_negative].
Qed.

Lemma hand_wingspanCm_not_negative (c : Canvas) (middleFinger1 middleFinger2 : Landmark) :
  ~ negative (HandWingspan.wingspanCm c middleFinger1 middleFinger2).
Proof.
  unfold HandWingspan.wingspanCm. apply mul_not_negative.
  - apply sqrt_not_negative.
  - unfold HandWingspan.pixelToCmRatio. apply div_not_negative;
      [| apply of_N_not_negative].
    unfold HandWingspan.fovWidthCm, HandWingspan.CAMERA_DISTANCE,
      HandWingspan.fovDegrees.
    rewrite Math_tanHalfFov. simpl. pose proof tanHalfFov_pos. nra.
Qed.

Lemma pose_tick_not_negative (video : Video) (results : LandmarkerResult)
      (s : Pose.State) :
  notNegative (Pose.distance s) /\ notNegative (Pose.wingspan s) ->
  notNegative (Pose.distance (final (Pose.detectPose video results s)))
  /\ notNegative (Pose.wingspan (final (Pose.detectPose video results s))).
Proof.
  intros [Hd Hw]. unfold Pose.detectPose.
  destruct (paused video || ended video); [simpl; auto |]. cbv zeta.
  destruct (Req_dec_T _ _); [simpl; auto |].
  destruct (landmarks results) as [| subject others]; [simpl; auto |].
  unfold Pose.measure.
  destruct (nth_error subject 11) as [ls |]; [| simpl; auto].
  destruct (nth_error subject 12) as [rs |]; [| simpl; auto].
  destruct (nth_error subject 15) as [lw |];
    [| simpl; split; [apply calculatedDistance_not_negative | exact Hw]].
  destruct (nth_error subject 16) as [rw |];
    [| simpl; split; [apply calculatedDistance_not_negative | exact Hw]].
  simpl. split;
    [apply calculatedDistance_not_negative | apply wingspanCm_not_negative].
Qed.

Lemma hand_distance_tick_not_negative (video : Video) (results : LandmarkerResult)
      (s : HandDistance.State) :
  notNegative (HandDistance.distance s) ->
  notNegative (HandDistance.distance (final (HandDistance.detectHands video results s))).
Proof.
  intros Hd. unfold HandDistance.detectHands.
  destruct (paused video || ended video); [simpl; auto |]. cbv zeta.
  destruct (Req_dec_T _ _); [simpl; auto |].
  destruct (landmarks results) as [| hand1 [| hand2 [| hand3 rest]]];
    try (simpl; tauto).
  unfold HandDistance.measure.
  destruct (nth_error hand1 12) as [f1 |]; [| simpl; auto].
  destruct (nth_error hand2 12) as [f2 |]; [| simpl; auto].
  simpl. apply distanceCm_not_negative.
Qed.

Lemma hand_wingspan_tick_not_negative (video : Video) (results : LandmarkerResult)
      (s : HandWingspan.State) :
  notNegative (HandWingspan.wingspan s) ->
  notNegative (HandWingspan.wingspan (final (HandWingspan.detectHands video results s))).
Proof.
  intros Hd. unfold HandWingspan.detectHands.
  destruct (paused video || ended video); [simpl; auto |]. cbv zeta.
  destruct (Req_dec_T _ _); [simpl; auto |].
  destruct (landmarks results) as [| hand1 [| hand2 [| hand3 rest]]];
    try (simpl; tauto).
  unfold HandWingspan.measure.
  destruct (nth_error hand1 12) as [f1 |]; [| simpl; auto].
  destruct (nth_error hand2 12) as [f2 |]; [| simpl; auto].
  simpl. apply hand_wingspanCm_not_negative.
Qed.

End Signs.

(** X6. No loop ever shows a negative measurement.  From the initial state,
    whatever the video does and whatever the detector returns -- landmarks
    anywhere, non-finite coordinates, subjects cut short -- the distance and
    the wingspan a run ends with are unavailable, NaN, +Infinity or a real
    that is at least zero, never a number below zero or -Infinity. *)
Theorem measurements_are_never_negative :
  forall frames : list (Video * LandmarkerResult),
    (notNegative (Pose.distance (final (loop Pose.detectPose frames Pose.initial)))
     /\ notNegative (Pose.wingspan (final (loop Pose.detectPose frames Pose.initial))))
    /\ notNegative
         (HandDistance.distance
            (final (loop HandDistance.detectHands frames HandDistance.initial)))
    /\ notNegative
         (HandWingspan.wingspan
            (final (loop HandWingspan.detectHands frames HandWingspan.initial))).
Proof.
  intros frames. split; [| split].
  - apply (loop_invariant
             Pose.detectPose
             (fun s => notNegative (Pose.distance s) /\ notNegative (Pose.wingspan s))
             pose_tick_not_negative).
    simpl. tauto.
  - apply (loop_invariant
             HandDistance.detectHands
             (fun s => notNegative (HandDistance.distance s))
             hand_distance_tick_not_negative).
    exact I.
  - apply (loop_invariant
             HandWingspan.detectHands
             (fun s => notNegative (HandWingspan.wingspan s))
             hand_wingspan_tick_not_negative).
    exact I.
Qed.

(* ------------------------------------------------------------------------- *)
(** ** Symmetry of the pixel separations *)

Section Symmetry.

Lemma Rsign_opp (r : R) : Rsign (- r) = sign_opp (Rsign r).
Proof.
  destruct (total_order_T r 0) as [[Hlt | Heq] | Hgt].
  - rewrite (Rsign_neg r Hlt), Rsign_pos by lra. reflexivity.
  - subst r. rewrite Ropp_0, Rsign_zero. reflexivity.
  - rewrite (Rsign_pos r Hgt), Rsign_neg by lra. reflexivity.
Qed.

(** The square of a scaled coordinate difference does not depend on the
    order of the two coordinates, special values included. *)
Lemma sq_diff_sym (a b : number) (w : R) :
  (((a - b) * Fin w) * ((a - b) * Fin w)
   = ((b - a) * Fin w) * ((b - a) * Fin w))%js.
Proof.
  destruct a as [r | | |], b as [q | | |];
    cbn [Num.sub Num.add Num.neg Num.mul];
    try reflexivity;
    try (f_equal; ring);
    destruct (Rsign w); reflexivity.
Qed.

Lemma shoulderWidthPixels_sym (c : Canvas) (a b : Landmark) :
  Pose.shoulderWidthPixels c a b = Pose.shoulderWidthPixels c b a.
Proof.
  unfold Pose.shoulderWidthPixels, Num.of_N. cbv zeta.
  rewrite (sq_diff_sym (x b) (x a)), (sq_diff_sym (y b) (y a)). reflexivity.
Qed.

Lemma wingspanPixels_sym (c : Canvas) (a b : Landmark) :
  Pose.wingspanPixels c a b = Pose.wingspanPixels c b a.
Proof. exact (shoulderWidthPixels_sym c a b). Qed.

Lemma hand_distancePixels_sym (c : Canvas) (a b : Landmark) :
  HandDistance.distancePixels c a b = HandDistance.distancePixels c b a.
Proof.
  unfold HandDistance.distancePixels, Num.of_N. cbv zeta.
  rewrite (sq_diff_sym (x b) (x a)), (sq_diff_sym (y b) (y a)),
    (sq_diff_sym (z b) (z a)).
  reflexivity.
Qed.

Lemma hand_wingspan_distancePixels_sym (c : Canvas) (a b : Landmark) :
  HandWingspan.distancePixels c a b = HandWingspan.distancePixels c b a.
Proof.
  unfold HandWingspan.distancePixels, Num.of_N. cbv zeta.
  rewrite (sq_diff_sym (x b) (x a)), (sq_diff_sym (y b) (y a)). reflexivity.
Qed.

End Symmetry.

(** X7. The hand measurements do not depend on the order in which the
    detector lists the two hands: either hand tick, run on a result with the
    two hands exchanged, ends exactly as on the original result -- the same
    state when it measures, the same throw when a fingertip is missing. *)
Theorem hand_order_is_irrelevant :
  forall (video : Video) (hand1 hand2 : list Landmark),
    (forall s : HandDistance.State,
        HandDistance.detectHands video (mkResult [hand2; hand1]) s
        = HandDistance.detectHands video (mkResult [hand1; hand2]) s)
    /\ (forall s : HandWingspan.State,
           HandWingspan.detectHands video (mkResult [hand2; hand1]) s
           = HandWingspan.detectHands video (mkResult [hand1; hand2]) s).
Proof.
  intros video hand1 hand2. split; intros s.
  - unfold HandDistance.detectHands.
    destruct (paused video || ended video); [reflexivity |]. cbv zeta.
    destruct (Req_dec_T _ _); [reflexivity |].
    cbn [landmarks]. unfold HandDistance.measure.
    destruct (nth_error hand1 12) as [f1 |], (nth_error hand2 12) as [f2 |];
      try reflexivity.
    unfold HandDistance.distanceCm.
    rewrite (hand_distancePixels_sym _ f2 f1). reflexivity.
  - unfold HandWingspan.detectHands.
    destruct (paused video || ended video); [reflexivity |]. cbv zeta.
    destruct (Req_dec_T _ _); [reflexivity |].
    cbn [landmarks]. unfold HandWingspan.measure.
    destruct (nth_error hand1 12) as [f1 |], (nth_error hand2 12) as [f2 |];
      try reflexivity.
    unfold HandWingspan.wingspanCm.
    rewrite (hand_wingspan_distancePixels_sym _ f2 f1). reflexivity.
Qed.

(** X8. The pose measurement does not depend on which shoulder and which
    wrist the detector labels left: two processed frames whose first
    subjects carry the same two shoulder landmarks and the same two wrist
    landmarks, with left and right exchanged, store the same distance and
    the same wingspan. *)
Theorem left_right_labels_are_irrelevant :
  forall (video : Video) (results results' : LandmarkerResult) (s : Pose.State)
         (subject subject' : list Landmark) (others others' : list (list Landmark))
         (shoulderA shoulderB wristA wristB : Landmark),
    Pose.processes video s ->
    landmarks results = subject :: others ->
    landmarks results' = subject' :: others' ->
    nth_error subject 11 = Some shoulderA -> nth_error subject' 11 = Some shoulderB ->
    nth_error subject 12 = Some shoulderB -> nth_error subject' 12 = Some shoulderA ->
    nth_error subject 15 = Some wristA -> nth_error subject' 15 = Some wristB ->
    nth_error subject 16 = Some wristB -> nth_error subject' 16 = Some wristA ->
    poseReading (final (Pose.detectPose video results' s))
    = poseReading (final (Pose.detectPose video results s)).
Proof.
  intros video results results' s subject subject' others others' sa sb wa wb
         Hproc Hres Hres' H11 H11' H12 H12' H15 H15' H16 H16'.
  rewrite (detectPose_measures _ _ _ _ _ _ _ _ _ Hproc Hres H11 H12 H15 H16).
  rewrite (detectPose_measures _ _ _ _ _ _ _ _ _ Hproc Hres' H11' H12' H15' H16').
  unfold poseReading. cbn [final Pose.distance Pose.wingspan].
  unfold Pose.wingspanCm, Pose.calculatedDistance.
  rewrite (shoulderWidthPixels_sym _ sb sa), (wingspanPixels_sym _ wb wa).
  reflexivity.
Qed.

Lemma left_right_labels_are_irrelevant_witness :
  poseReading
    (final (Pose.detectPose
              (playing 1280 720 0)
              (mkResult [poseWith (pt 0.60 0.50) (pt 0.40 0.50)
                                  (pt 0.90 0.50) (pt 0.10 0.50)])
              Pose.initial))
  = poseReading
      (final (Pose.detectPose (playing 1280 720 0) (mkResult [scenarioPose])
                              Pose.initial)).
Proof.
  apply (left_right_labels_are_irrelevant
           (playing 1280 720 0) (mkResult [scenarioPose])
           (mkResult [poseWith (pt 0.60 0.50) (pt 0.40 0.50)
                               (pt 0.90 0.50) (pt 0.10 0.50)])
           Pose.initial
           scenarioPose
           (poseWith (pt 0.60 0.50) (pt 0.40 0.50) (pt 0.90 0.50) (pt 0.10 0.50))
           [] []
           (pt 0.40 0.50) (pt 0.60 0.50) (pt 0.10 0.50) (pt 0.90 0.50));
    try reflexivity.
  unfold Pose.processes. simpl. repeat split; lra.
Defined.

(* ------------------------------------------------------------------------- *)
(** ** Scaling the resolution *)

Section Resolution.

Lemma Rsign_scale (K r : R) : 0 < K -> Rsign (K * r) = Rsign r.
Proof.
  intros HK. destruct (total_order_T r 0) as [[Hlt | Heq] | Hgt].
  - rewrite (Rsign_neg r Hlt). apply Rsign_neg. nra.
  - subst r. rewrite Rmult_0_r. reflexivity.
  - rewrite (Rsign_pos r Hgt). apply Rsign_pos. nra.
Qed.

Lemma div_scale (K a b : R) :
  0 < K -> (Fin (K * a) / Fin (K * b))%js = (Fin a / Fin b)%js.
Proof.
  intros HK. unfold Num.div. rewrite !(Rsign_scale K) by exact HK.
  destruct (Rsign b) eqn:Eb; try reflexivity.
  - apply f_equal. field. split; [| lra].
    intros ->. rewrite Rsign_zero in Eb. discriminate.
  - apply f_equal. field. split; [| lra].
    intros ->. rewrite Rsign_zero in Eb. discriminate.
Qed.

Lemma mul_div_scale (K q f : R) (d : number) :
  0 < K -> ((Fin (K * q) * d) / Fin (K * f) = (Fin q * d) / Fin f)%js.
Proof.
  intros HK. destruct d as [d | | |].
  - cbn [Num.mul]. replace (K * q * d) with (K * (q * d)) by ring.
    apply div_scale. exact HK.
  - cbn [Num.mul]. rewrite (Rsign_scale K q HK).
    destruct (Rsign q); cbn [inf_of Num.div]; rewrite ?(Rsign_scale K f HK);
      reflexivity.
  - cbn [Num.mul]. rewrite (Rsign_scale K q HK).
    destruct (Rsign q); cbn [sign_opp inf_of Num.div];
      rewrite ?(Rsign_scale K f HK); reflexivity.
  - reflexivity.
Qed.

Lemma mul_ratio_scale (K d F W : R) :
  0 < K -> (Fin (K * d) * (Fin F / Fin (K * W)) = Fin d * (Fin F / Fin W))%js.
Proof.
  intros HK. destruct (Req_dec_T W 0) as [-> | HW].
  - rewrite Rmult_0_r. unfold Num.div. rewrite Rsign_zero.
    destruct (Rsign F); cbn [inf_of sign_opp Num.mul];
      rewrite ?(Rsign_scale K d HK); reflexivity.
  - rewrite !div_fin by nra. cbn [Num.mul]. f_equal. field. split; lra.
Qed.

Lemma of_N_mul (k n : N) :
  IZR (Z.of_N (k * n)) = IZR (Z.of_N k) * IZR (Z.of_N n).
Proof. rewrite N2Z.inj_mul. apply mult_IZR. Qed.

Lemma sqrt_scale2 (K a b : R) :
  0 <= K -> sqrt (K * a * (K * a) + K * b * (K * b)) = K * sqrt (a * a + b * b).
Proof.
  intros HK. replace (K * a * (K * a) + K * b * (K * b))
    with ((K * K) * (a * a + b * b)) by ring.
  rewrite sqrt_mult; [| nra | apply sumsq_nonneg].
  rewrite sqrt_square by exact HK. reflexivity.
Qed.

Lemma sqrt_scale3 (K a b c : R) :
  0 <= K ->
  sqrt (K * a * (K * a) + K * b * (K * b) + K * c * (K * c))
  = K * sqrt (a * a + b * b + c * c).
Proof.
  intros HK. replace (K * a * (K * a) + K * b * (K * b) + K * c * (K * c))
    with ((K * K) * (a * a + b * b + c * c)) by ring.
  rewrite sqrt_mult; [| nra | apply sumsq3_nonneg].
  rewrite sqrt_square by exact HK. reflexivity.
Qed.

Lemma focal_scaled (k W : N) : focal (k * W) = IZR (Z.of_N k) * focal W.
Proof.
  unfold focal. rewrite of_N_mul. pose proof tanHalfFov_pos. field. lra.
Qed.

(** A pixel separation of finite landmarks grows with the resolution. *)
Lemma shoulderWidthPixels_scaled (k : N) (video : Video) (a b : Landmark) :
  finiteXY a = true -> finiteXY b = true ->
  exists p : R,
    Pose.shoulderWidthPixels (frame video) a b = Fin p
    /\ Pose.shoulderWidthPixels (frame (scaled k video)) a b
       = Fin (IZR (Z.of_N k) * p).
Proof.
  destruct a as [xa ya za], b as [xb yb zb]. unfold finiteXY. cbn [x y].
  destruct xa, ya; try discriminate. destruct xb, yb; try discriminate.
  intros _ _. unfold Pose.shoulderWidthPixels, frame, scaled.
  cbn [x y Num.sub Num.add Num.neg Num.mul Num.of_N width height
         videoWidth videoHeight].
  rewrite !sqrt_fin by apply sumsq_nonneg.
  eexists. split; [reflexivity |]. f_equal. rewrite !of_N_mul.
  rewrite <- sqrt_scale2 by apply of_N_nonneg. f_equal. ring.
Qed.

Lemma pose_measurements_scaled (k : N) (video : Video)
      (leftShoulder rightShoulder leftWrist rightWrist : Landmark) :
  (0 < k)%N ->
  finiteXY leftShoulder = true -> finiteXY rightShoulder = true ->
  Pose.calculatedDistance (frame (scaled k video)) leftShoulder rightShoulder
  = Pose.calculatedDistance (frame video) leftShoulder rightShoulder
  /\ (finiteXY leftWrist = true -> finiteXY rightWrist = true ->
      Pose.wingspanCm (frame (scaled k video)) leftShoulder rightShoulder
                      leftWrist rightWrist
      = Pose.wingspanCm (frame video) leftShoulder rightShoulder
                        leftWrist rightWrist).
Proof.
  intros Hk Hls Hrs. pose proof (of_N_pos k Hk) as HK.
  destruct (shoulderWidthPixels_scaled k video leftShoulder rightShoulder Hls Hrs)
    as (p & Hp & Hp').
  assert (Hd : Pose.calculatedDistance (frame (scaled k video)) leftShoulder rightShoulder
               = Pose.calculatedDistance (frame video) leftShoulder rightShoulder).
  { unfold Pose.calculatedDistance, Pose.ASSUMED_SHOULDER_WIDTH_CM.
    rewrite !focalLengthPixels_focal, Hp, Hp'.
    cbn [frame scaled width videoWidth Num.mul]. rewrite focal_scaled.
    replace (45 * (IZR (Z.of_N k) * focal (videoWidth video)))
      with (IZR (Z.of_N k) * (45 * focal (videoWidth video))) by ring.
    apply div_scale. exact HK. }
  split; [exact Hd |]. intros Hlw Hrw.
  destruct (shoulderWidthPixels_scaled k video leftWrist rightWrist Hlw Hrw)
    as (q & Hq & Hq').
  unfold Pose.wingspanCm. rewrite Hd.
  change (Pose.wingspanPixels (frame (scaled k video)) leftWrist rightWrist)
    with (Pose.shoulderWidthPixels (frame (scaled k video)) leftWrist rightWrist).
  change (Pose.wingspanPixels (frame video) leftWrist rightWrist)
    with (Pose.shoulderWidthPixels (frame video) leftWrist rightWrist).
  rewrite Hq, Hq', !focalLengthPixels_focal.
  cbn [frame scaled width videoWidth]. rewrite focal_scaled.
  apply mul_div_scale. exact HK.
Qed.

Lemma hand_distanceCm_scaled (k : N) (video : Video) (finger1 finger2 : Landmark) :
  (0 < k)%N ->
  finiteXYZ finger1 = true -> finiteXYZ finger2 = true ->
  HandDistance.distanceCm (frame (scaled k video)) finger1 finger2
  = HandDistance.distanceCm (frame video) finger1 finger2.
Proof.
  intros Hk. pose proof (of_N_pos k Hk) as HK.
  destruct finger1 as [x1 y1 z1], finger2 as [x2 y2 z2].
  unfold finiteXYZ, finiteXY. cbn [x y z].
  destruct x1, y1, z1; try discriminate. destruct x2, y2, z2; try discriminate.
  intros _ _.
  unfold HandDistance.distanceCm, HandDistance.distancePixels, frame, scaled,
    Num.of_N.
  cbn [x y z Num.sub Num.add Num.neg Num.mul Num.of_N width height
         videoWidth videoHeight].
  rewrite !sqrt_fin by apply sumsq3_nonneg. rewrite !of_N_mul.
  f_equal.
  match goal with |- (Fin (sqrt ?e) / _ = Fin (sqrt ?e0) / _)%js =>
    replace (sqrt e) with (IZR (Z.of_N k) * sqrt e0) end.
  - apply div_scale. exact HK.
  - rewrite <- sqrt_scale3 by lra. f_equal. ring.
Qed.

Lemma hand_wingspanCm_scaled (k : N) (video : Video)
      (middleFinger1 middleFinger2 : Landmark) :
  (0 < k)%N ->
  finiteXY middleFinger1 = true -> finiteXY middleFinger2 = true ->
  HandWingspan.wingspanCm (frame (scaled k video)) middleFinger1 middleFinger2
  = HandWingspan.wingspanCm (frame video) middleFinger1 middleFinger2.
Proof.
  intros Hk. pose proof (of_N_pos k Hk) as HK.
  destruct middleFinger1 as [x1 y1 z1], middleFinger2 as [x2 y2 z2].
  unfold finiteXY. cbn [x y].
  destruct x1, y1; try discriminate. destruct x2, y2; try discriminate.
  intros _ _.
  unfold HandWingspan.wingspanCm, HandWingspan.distancePixels,
    HandWingspan.pixelToCmRatio, HandWingspan.fovWidthCm,
    HandWingspan.CAMERA_DISTANCE, HandWingspan.fovDegrees, frame, scaled.
  rewrite Math_tanHalfFov. unfold Num.of_N.
  cbn [x y Num.sub Num.add Num.neg Num.mul Num.of_N width height
         videoWidth videoHeight].
  rewrite !sqrt_fin by apply sumsq_nonneg. rewrite !of_N_mul.
  match goal with |- (Fin (sqrt ?e) * _ = Fin (sqrt ?e0) * _)%js =>
    replace (sqrt e) with (IZR (Z.of_N k) * sqrt e0) end.
  - apply mul_ratio_scale. exact HK.
  - rewrite <- sqrt_scale2 by lra. f_equal. ring.
Qed.

Lemma nth_error_Forall {A : Type} (P : A -> Prop) (l : list A) (i : nat) (a : A) :
  Forall P l -> nth_error l i = Some a -> P a.
Proof.
  intros Hall Hnth. apply nth_error_In in Hnth.
  rewrite Forall_forall in Hall. exact (Hall a Hnth).
Qed.

End Resolution.

(** In the exact arithmetic of [number] the three ticks store the very same
    values at [k] times the resolution. *)
Lemma resolution_exact :
  forall (k : N) (video : Video) (results : LandmarkerResult),
    (0 < k)%N ->
    Forall (Forall (fun l => finiteXYZ l = true)) (landmarks results) ->
    (forall s : Pose.State,
        poseReading (final (Pose.detectPose (scaled k video) results s))
        = poseReading (final (Pose.detectPose video results s)))
    /\ (forall s : HandDistance.State,
           HandDistance.distance
             (final (HandDistance.detectHands (scaled k video) results s))
           = HandDistance.distance (final (HandDistance.detectHands video results s)))
    /\ (forall s : HandWingspan.State,
           HandWingspan.wingspan
             (final (HandWingspan.detectHands (scaled k video) results s))
           = HandWingspan.wingspan (final (HandWingspan.detectHands video results s))).
Proof.
  intros k video results Hk Hfin.
  assert (Hxy : forall subject l i,
             In subject (landmarks results) -> nth_error subject i = Some l ->
             finiteXYZ l = true /\ finiteXY l = true).
  { intros subject l i Hin Hnth. rewrite Forall_forall in Hfin.
    pose proof (nth_error_Forall _ _ _ _ (Hfin subject Hin) Hnth) as H.
    split; [exact H |]. unfold finiteXYZ in H. apply andb_true_iff in H. tauto. }
  split; [| split]; intros s.
  - unfold Pose.detectPose. cbn [scaled paused ended currentTime videoWidth videoHeight].
    destruct (paused video || ended video); [reflexivity |]. cbv zeta.
    cbn [Pose.lastVideoTime Pose.setCanvas].
    destruct (Req_dec_T (currentTime video) (Pose.lastVideoTime s));
      [reflexivity |].
    destruct (landmarks results) as [| subject others] eqn:Hres; [reflexivity |].
    unfold Pose.measure.
    destruct (nth_error subject 11) as [ls |] eqn:H11; [| reflexivity].
    destruct (nth_error subject 12) as [rs |] eqn:H12; [| reflexivity].
    destruct (Hxy subject ls 11%nat (or_introl eq_refl) H11) as [_ Hls].
    destruct (Hxy subject rs 12%nat (or_introl eq_refl) H12) as [_ Hrs].
    destruct (nth_error subject 15) as [lw |] eqn:H15.
    + destruct (nth_error subject 16) as [rw |] eqn:H16.
      * destruct (Hxy subject lw 15%nat (or_introl eq_refl) H15) as [_ Hlw].
        destruct (Hxy subject rw 16%nat (or_introl eq_refl) H16) as [_ Hrw].
        destruct (pose_measurements_scaled k video ls rs lw rw Hk Hls Hrs)
          as [Hd Hw].
        specialize (Hw Hlw Hrw). unfold frame, scaled in Hd, Hw.
        cbn [videoWidth videoHeight] in Hd, Hw.
        unfold poseReading. cbn. rewrite Hd, Hw. reflexivity.
      * destruct (pose_measurements_scaled k video ls rs ls rs Hk Hls Hrs)
          as [Hd _].
        unfold frame, scaled in Hd. cbn [videoWidth videoHeight] in Hd.
        unfold poseReading. cbn. rewrite Hd. reflexivity.
    + destruct (pose_measurements_scaled k video ls rs ls rs Hk Hls Hrs)
        as [Hd _].
      unfold frame, scaled in Hd. cbn [videoWidth videoHeight] in Hd.
      unfold poseReading. cbn. rewrite Hd. reflexivity.
  - unfold HandDistance.detectHands.
    cbn [scaled paused ended currentTime videoWidth videoHeight].
    destruct (paused video || ended video); [reflexivity |]. cbv zeta.
    cbn [HandDistance.lastVideoTime HandDistance.setCanvas].
    destruct (Req_dec_T (currentTime video) (HandDistance.lastVideoTime s));
      [reflexivity |].
    destruct (landmarks results) as [| hand1 [| hand2 [| hand3 rest]]] eqn:Hres;
      try reflexivity.
    unfold HandDistance.measure.
    destruct (nth_error hand1 12) as [f1 |] eqn:H1; [| reflexivity].
    destruct (nth_error hand2 12) as [f2 |] eqn:H2; [| reflexivity].
    destruct (Hxy hand1 f1 12%nat (or_introl eq_refl) H1) as [Hf1 _].
    destruct (Hxy hand2 f2 12%nat (or_intror (or_introl eq_refl)) H2) as [Hf2 _].
    pose proof (hand_distanceCm_scaled k video f1 f2 Hk Hf1 Hf2) as Hd.
    unfold frame, scaled in Hd. cbn [videoWidth videoHeight] in Hd.
    cbn. rewrite Hd. reflexivity.
  - unfold HandWingspan.detectHands.
    cbn [scaled paused ended currentTime videoWidth videoHeight].
    destruct (paused video || ended video); [reflexivity |]. cbv zeta.
    cbn [HandWingspan.lastVideoTime HandWingspan.setCanvas].
    destruct (Req_dec_T (currentTime video) (HandWingspan.lastVideoTime s));
      [reflexivity |].
    destruct (landmarks results) as [| hand1 [| hand2 [| hand3 rest]]] eqn:Hres;
      try reflexivity.
    unfold HandWingspan.measure.
    destruct (nth_error hand1 12) as [f1 |] eqn:H1; [| reflexivity].
    destruct (nth_error hand2 12) as [f2 |] eqn:H2; [| reflexivity].
    destruct (Hxy hand1 f1 12%nat (or_introl eq_refl) H1) as [_ Hf1].
    destruct (Hxy hand2 f2 12%nat (or_intror (or_introl eq_refl)) H2) as [_ Hf2].
    pose proof (hand_wingspanCm_scaled k video f1 f2 Hk Hf1 Hf2) as Hd.
    unfold frame, scaled in Hd. cbn [videoWidth videoHeight] in Hd.
    cbn. rewrite Hd. reflexivity.
Qed.

(** X9. The measurements do not depend on the resolution of the camera,
    up to rounding.  For landmarks with finite coordinates, each of the
    three ticks run on the same video surface at [k] times the width and [k]
    times the height ([k] at least 1) leaves a distance and a wingspan that
    agree with those on the original surface: unavailable together, the same
    special value, or reals near each other. *)
Theorem resolution_is_irrelevant :
  forall (k : N) (video : Video) (results : LandmarkerResult),
    (0 < k)%N ->
    Forall (Forall (fun l => finiteXYZ l = true)) (landmarks results) ->
    (forall s : Pose.State,
        closeSlot (Pose.distance (final (Pose.detectPose (scaled k video) results s)))
                  (Pose.distance (final (Pose.detectPose video results s)))
        /\ closeSlot
             (Pose.wingspan (final (Pose.detectPose (scaled k video) results s)))
             (Pose.wingspan (final (Pose.detectPose video results s))))
    /\ (forall s : HandDistance.State,
           closeSlot
             (HandDistance.distance
                (final (HandDistance.detectHands (scaled k video) results s)))
             (HandDistance.distance
                (final (HandDistance.detectHands video results s))))
    /\ (forall s : HandWingspan.State,
           closeSlot
             (HandWingspan.wingspan
                (final (HandWingspan.detectHands (scaled k video) results s)))
             (HandWingspan.wingspan
                (final (HandWingspan.detectHands video results s)))).
Proof.
  intros k video results Hk Hfin.
  destruct (resolution_exact k video results Hk Hfin) as (Hpose & Hdist & Hspan).
  split; [| split]; intros s.
  - specialize (Hpose s). unfold poseReading in Hpose.
    injection Hpose as Hd Hw. rewrite Hd, Hw.
    split; apply closeSlot_refl.
  - rewrite (Hdist s). apply closeSlot_refl.
  - rewrite (Hspan s). apply closeSlot_refl.
Qed.

Lemma resolution_is_irrelevant_witness :
  closeSlot
    (Pose.distance
       (final (Pose.detectPose (scaled 3 (playing 640 360 0))
                               (mkResult [scenarioPose]) Pose.initial)))
    (Pose.distance
       (final (Pose.detectPose (playing 640 360 0) (mkResult [scenarioPose])
                               Pose.initial)))
  /\ closeSlot
       (Pose.wingspan
          (final (Pose.detectPose (scaled 3 (playing 640 360 0))
                                  (mkResult [scenarioPose]) Pose.initial)))
       (Pose.wingspan
          (final (Pose.detectPose (playing 640 360 0) (mkResult [scenarioPose])
                                  Pose.initial))).
Proof.
  destruct (resolution_is_irrelevant 3 (playing 640 360 0) (mkResult [scenarioPose]))
    as [Hpose _].
  - reflexivity.
  - repeat constructor.
  - exact (Hpose Pose.initial).
Defined.

(* ------------------------------------------------------------------------- *)
(** ** What the scale factors mean *)

Section Scales.

Lemma sqrt_sq_abs (a : R) : sqrt (a * a) = Rabs a.
Proof. exact (sqrt_Rsqr_abs a). Qed.

Lemma fovWidth_bounds : 210.06 < 2 * 150 * tanHalfFov < 210.07.
Proof. pose proof tanHalfFov_bounds. lra. Qed.

Lemma hand_wingspan_horizontal (c : Canvas) (x1 x2 y0 : R) (z1 z2 : number) :
  (0 < width c)%N ->
  HandWingspan.wingspanCm c (mkLandmark (Fin x1) (Fin y0) z1)
                          (mkLandmark (Fin x2) (Fin y0) z2)
  = Fin (Rabs (x2 - x1) * (2 * 150 * tanHalfFov)).
Proof.
  intros HW. pose proof (of_N_pos _ HW) as HWpos.
  unfold HandWingspan.wingspanCm. rewrite (pixelToCmRatio_finite c HW).
  unfold HandWingspan.distancePixels.
  cbn [x y Num.sub Num.add Num.neg Num.mul Num.of_N].
  rewrite sqrt_fin by apply sumsq_nonneg. cbn [Num.mul]. f_equal.
  replace ((x2 + - x1) * IZR (Z.of_N (width c)) * ((x2 + - x1) * IZR (Z.of_N (width c)))
           + (y0 + - y0) * IZR (Z.of_N (height c))
             * ((y0 + - y0) * IZR (Z.of_N (height c))))
    with (((x2 - x1) * IZR (Z.of_N (width c))) * ((x2 - x1) * IZR (Z.of_N (width c))))
    by ring.
  rewrite sqrt_sq_abs, Rabs_mult, (Rabs_pos_eq (IZR (Z.of_N (width c)))) by lra.
  field. lra.
Qed.

End Scales.

(** X10. In the hand-distance tracker the frame width stands for 50 cm,
    whatever the resolution: on a processed frame of positive width, two
    middle-finger tips at the same height and the same depth are reported
    near [50 * |x2 - x1|] cm apart, [x1] and [x2] being their horizontal
    image fractions. *)
Theorem frame_width_stands_for_50_cm :
  forall (video : Video) (results : LandmarkerResult) (s : HandDistance.State)
         (hand1 hand2 : list Landmark) (x1 x2 y0 z0 : R),
    HandDistance.processes video s ->
    landmarks results = [hand1; hand2] ->
    nth_error hand1 12 = Some (mkLandmark (Fin x1) (Fin y0) (Fin z0)) ->
    nth_error hand2 12 = Some (mkLandmark (Fin x2) (Fin y0) (Fin z0)) ->
    (0 < videoWidth video)%N ->
    exists (s' : HandDistance.State) (d : R),
      HandDistance.detectHands video results s = Scheduled s'
      /\ HandDistance.distance s' = Some (Fin d)
      /\ near d (50 * Rabs (x2 - x1)).
Proof.
  intros video results s hand1 hand2 x1 x2 y0 z0 Hproc Hres H1 H2 HW.
  pose proof (of_N_pos _ HW) as HWpos.
  eexists. exists (50 * Rabs (x2 - x1)). split; [| split].
  - exact (hand_distance_measures video results s hand1 hand2 _ _ Hproc Hres H1 H2).
  - cbn [HandDistance.distance]. unfold HandDistance.distanceCm.
    rewrite hand_distancePixels_finite. cbn [frame width height].
    unfold Num.of_N. rewrite div_fin by lra. cbn [Num.mul]. do 2 f_equal.
    replace (((x2 - x1) * IZR (Z.of_N (videoWidth video))) ^ 2
             + ((y0 - y0) * IZR (Z.of_N (videoHeight video))) ^ 2
             + ((z0 - z0) * IZR (Z.of_N (videoWidth video))) ^ 2)
      with (((x2 - x1) * IZR (Z.of_N (videoWidth video)))
            * ((x2 - x1) * IZR (Z.of_N (videoWidth video)))) by ring.
    rewrite sqrt_sq_abs, Rabs_mult,
      (Rabs_pos_eq (IZR (Z.of_N (videoWidth video)))) by lra.
    field. lra.
  - apply near_refl.
Qed.

Lemma frame_width_stands_for_50_cm_witness :
  exists (s' : HandDistance.State) (d : R),
    HandDistance.detectHands
      (playing 640 480 0)
      (mkResult [handWith (pt 1 0.5); handWith (pt 0 0.5)])
      HandDistance.initial
    = Scheduled s'
    /\ HandDistance.distance s' = Some (Fin d)
    /\ near d (50 * Rabs (0 - 1)).
Proof.
  apply (frame_width_stands_for_50_cm
           (playing 640 480 0) (mkResult [handWith (pt 1 0.5); handWith (pt 0 0.5)])
           HandDistance.initial (handWith (pt 1 0.5)) (handWith (pt 0 0.5))
           1 0 0.5 0); try reflexivity.
  unfold HandDistance.processes. simpl. repeat split; lra.
Defined.

(** X11. In the hand-wingspan tracker the frame width stands for
    [2 * 150 * tan 35deg] cm, between 210.06 and 210.07 cm, whatever the
    resolution: on a processed frame of positive width, two middle-finger
    tips at the same height are reported [|x2 - x1|] times that length
    apart. *)
Theorem frame_width_stands_for_210_cm :
  forall (video : Video) (results : LandmarkerResult) (s : HandWingspan.State)
         (hand1 hand2 : list Landmark) (x1 x2 y0 : R) (z1 z2 : number),
    HandWingspan.processes video s ->
    landmarks results = [hand1; hand2] ->
    nth_error hand1 12 = Some (mkLandmark (Fin x1) (Fin y0) z1) ->
    nth_error hand2 12 = Some (mkLandmark (Fin x2) (Fin y0) z2) ->
    (0 < videoWidth video)%N ->
    exists (s' : HandWingspan.State) (span : R),
      HandWingspan.detectHands video results s = Scheduled s'
      /\ HandWingspan.wingspan s' = Some (Fin (Rabs (x2 - x1) * span))
      /\ 210.06 < span < 210.07.
Proof.
  intros video results s hand1 hand2 x1 x2 y0 z1 z2 Hproc Hres H1 H2 HW.
  exists (HandWingspan.mkState
            (currentTime video) (frame video)
            (Some (HandWingspan.wingspanCm
                     (frame video) (mkLandmark (Fin x1) (Fin y0) z1)
                     (mkLandmark (Fin x2) (Fin y0) z2)))
            (S (HandWingspan.detectCalls s))),
         (2 * 150 * tanHalfFov).
  split; [| split].
  - exact (hand_wingspan_measures video results s hand1 hand2 _ _ Hproc Hres H1 H2).
  - cbn [HandWingspan.wingspan].
    rewrite (hand_wingspan_horizontal (frame video) x1 x2 y0 z1 z2 HW). reflexivity.
  - exact fovWidth_bounds.
Qed.

Lemma frame_width_stands_for_210_cm_witness :
  exists (s' : HandWingspan.State) (span : R),
    HandWingspan.detectHands
      (playing 1280 720 0)
      (mkResult [handWith (pt 0.25 0.5); handWith (pt 0.75 0.5)])
      HandWingspan.initial
    = Scheduled s'
    /\ HandWingspan.wingspan s' = Some (Fin (Rabs (0.75 - 0.25) * span))
    /\ 210.06 < span < 210.07.
Proof.
  apply (frame_width_stands_for_210_cm
           (playing 1280 720 0)
           (mkResult [handWith (pt 0.25 0.5); handWith (pt 0.75 0.5)])
           HandWingspan.initial (handWith (pt 0.25 0.5)) (handWith (pt 0.75 0.5))
           0.25 0.75 0.5 (Fin 0) (Fin 0)); try reflexivity.
  unfold HandWingspan.processes. simpl. repeat split; lra.
Defined.

Section NoStaleValue.

Lemma hand_distance_resets (video : Video) (results : LandmarkerResult)
      (s : HandDistance.State) :
  HandDistance.processes video s ->
  length (landmarks results) <> 2%nat ->
  HandDistance.detectHands video results s
  = Scheduled (HandDistance.mkState (currentTime video) (frame video) None
                                    (S (HandDistance.detectCalls s))).
Proof.
  intros (Hp & He & Ht) Hlen.
  unfold HandDistance.detectHands. rewrite Hp, He. simpl.
  destruct (Req_dec_T (currentTime video) (HandDistance.lastVideoTime s));
    [contradiction |].
  destruct (landmarks results) as [| hand1 [| hand2 [| hand3 rest]]];
    try reflexivity.
  simpl in Hlen. contradiction.
Qed.

(** Without two hands in view an unavailable measurement stays unavailable,
    whether the tick is idle, repeats a timestamp or processes the frame. *)
Lemma hand_distance_stays_unavailable (frames : list (Video * LandmarkerResult)) :
  forall s : HandDistance.State,
    Forall (fun f => length (landmarks (snd f)) <> 2%nat) frames ->
    HandDistance.distance s = None ->
    exists s', loop HandDistance.detectHands frames s = Scheduled s'
               /\ HandDistance.distance s' = None.
Proof.
  induction frames as [| [video results] rest IH]; intros s Hall Hnone; simpl.
  - eauto.
  - inversion Hall as [| f fs Hhead Htail]; subst. simpl in Hhead.
    assert (Hstep : exists s1, HandDistance.detectHands video results s = Scheduled s1
                               /\ HandDistance.distance s1 = None).
    { unfold HandDistance.detectHands.
      destruct (paused video || ended video); [eauto |]. cbv zeta.
      destruct (Req_dec_T _ _); [eauto |].
      destruct (landmarks results) as [| hand1 [| hand2 [| hand3 more]]];
        try (eexists; split; reflexivity).
      simpl in Hhead. contradiction. }
    destruct Hstep as (s1 & -> & Hs1). exact (IH s1 Htail Hs1).
Qed.

Lemma hand_wingspan_stays_unavailable (frames : list (Video * LandmarkerResult)) :
  forall s : HandWingspan.State,
    Forall (fun f => length (landmarks (snd f)) <> 2%nat) frames ->
    HandWingspan.wingspan s = None ->
    exists s', loop HandWingspan.detectHands frames s = Scheduled s'
               /\ HandWingspan.wingspan s' = None.
Proof.
  induction frames as [| [video results] rest IH]; intros s Hall Hnone; simpl.
  - eauto.
  - inversion Hall as [| f fs Hhead Htail]; subst. simpl in Hhead.
    assert (Hstep : exists s1, HandWingspan.detectHands video results s = Scheduled s1
                               /\ HandWingspan.wingspan s1 = None).
    { unfold HandWingspan.detectHands.
      destruct (paused video || ended video); [eauto |]. cbv zeta.
      destruct (Req_dec_T _ _); [eauto |].
      destruct (landmarks results) as [| hand1 [| hand2 [| hand3 more]]];
        try (eexists; split; reflexivity).
      simpl in Hhead. contradiction. }
    destruct Hstep as (s1 & -> & Hs1). exact (IH s1 Htail Hs1).
Qed.

End NoStaleValue.

(** X12. The hand trackers keep no stale value.  Once a processed frame
    shows a number of hands other than two, the measurement is unavailable,
    whatever was shown before, and it stays unavailable over every further
    tick -- idle, repeated or processed -- for as long as no frame shows
    exactly two hands; none of these ticks throws. *)
Theorem measurement_is_unavailable_without_two_hands :
  forall (video : Video) (results : LandmarkerResult)
         (rest : list (Video * LandmarkerResult)),
    length (landmarks results) <> 2%nat ->
    Forall (fun f => length (landmarks (snd f)) <> 2%nat) rest ->
    (forall s : HandDistance.State,
        HandDistance.processes video s ->
        exists s' : HandDistance.State,
          loop HandDistance.detectHands ((video, results) :: rest) s = Scheduled s'
          /\ HandDistance.distance s' = None)
    /\ (forall s : HandWingspan.State,
           HandWingspan.processes video s ->
           exists s' : HandWingspan.State,
             loop HandWingspan.detectHands ((video, results) :: rest) s = Scheduled s'
             /\ HandWingspan.wingspan s' = None).
Proof.
  intros video results rest Hlen Hrest. split; intros s Hproc.
  - cbn [loop]. rewrite (hand_distance_resets video results s Hproc Hlen).
    apply hand_distance_stays_unavailable; [exact Hrest | reflexivity].
  - cbn [loop]. rewrite (hand_wingspan_resets video results s Hproc Hlen).
    apply hand_wingspan_stays_unavailable; [exact Hrest | reflexivity].
Qed.

Lemma measurement_is_unavailable_without_two_hands_witness :
  exists s' : HandDistance.State,
    loop HandDistance.detectHands
         [(playing 1280 720 3, mkResult [handWith (pt 0.2 0.5)]);
          (playing 1280 720 3, mkResult [handWith (pt 0.2 0.5)]);
          (playing 1280 720 4, mkResult [])]
         (HandDistance.mkState 2 (mkCanvas 1280 720) (Some (Fin 30)) 7)
    = Scheduled s'
    /\ HandDistance.distance s' = None.
Proof.
  destruct (measurement_is_unavailable_without_two_hands
              (playing 1280 720 3) (mkResult [handWith (pt 0.2 0.5)])
              [(playing 1280 720 3, mkResult [handWith (pt 0.2 0.5)]);
               (playing 1280 720 4, mkResult [])])
    as [Hdist _].
  - simpl. discriminate.
  - repeat constructor; simpl; discriminate.
  - apply Hdist. unfold HandDistance.processes. simpl. repeat split; lra.
Defined.

(* ------------------------------------------------------------------------- *)
(** ** Subjects that miss landmarks *)

Section MissingLandmarks.

Lemma nth_error_short {A : Type} (l : list A) (i : nat) :
  (length l <= i)%nat -> nth_error l i = None.
Proof. intros H. apply nth_error_None. exact H. Qed.

End MissingLandmarks.

(** X13. What a pose subject with missing landmarks does to a processed
    frame.  The tick ends normally exactly when the first subject has at
    least 17 landmarks.  With 12 or fewer it throws before anything is
    stored: distance and wingspan stay as they were.  With 13 to 16 it
    throws between the two stores: the distance is new, the wingspan is the
    old one.  Either way the frame counts as seen and as one detection, and
    the loop is not rescheduled. *)
Theorem pose_subject_cut_short :
  forall (video : Video) (results : LandmarkerResult) (s : Pose.State)
         (subject : list Landmark) (others : list (list Landmark)),
    Pose.processes video s ->
    landmarks results = subject :: others ->
    ((17 <= length subject)%nat <->
     exists s' : Pose.State, Pose.detectPose video results s = Scheduled s')
    /\ ((length subject <= 12)%nat ->
        Pose.detectPose video results s
        = Threw (Pose.mkState (currentTime video) (frame video)
                              (Pose.distance s) (Pose.wingspan s)
                              (S (Pose.detectCalls s))))
    /\ ((13 <= length subject <= 16)%nat ->
        exists d : number,
          Pose.detectPose video results s
          = Threw (Pose.mkState (currentTime video) (frame video)
                                (Some d) (Pose.wingspan s)
                                (S (Pose.detectCalls s)))).
Proof.
  intros video results s subject others Hproc Hres.
  rewrite (detectPose_processes video results s Hproc). cbv zeta. rewrite Hres.
  unfold Pose.measure.
  split; [split | split].
  - intros Hlen.
    destruct (nth_error_in_range subject 11) as [ls ->]; [lia |].
    destruct (nth_error_in_range subject 12) as [rs ->]; [lia |].
    destruct (nth_error_in_range subject 15) as [lw ->]; [lia |].
    destruct (nth_error_in_range subject 16) as [rw ->]; [lia |].
    eauto.
  - intros [s' Hs'].
    destruct (Nat.le_gt_cases 17 (length subject)) as [Hge | Hlt]; [exact Hge |].
    exfalso. assert (H16 : nth_error subject 16 = None)
      by (apply nth_error_short; lia).
    rewrite H16 in Hs'.
    destruct (nth_error subject 11), (nth_error subject 12),
             (nth_error subject 15); discriminate.
  - intros Hlen. rewrite (nth_error_short subject 12 Hlen).
    destruct (nth_error subject 11); reflexivity.
  - intros [Hlo Hhi].
    destruct (nth_error_in_range subject 11) as [ls ->]; [lia |].
    destruct (nth_error_in_range subject 12) as [rs ->]; [lia |].
    rewrite (nth_error_short subject 16) by lia.
    eexists. destruct (nth_error subject 15); reflexivity.
Qed.

Lemma pose_subject_cut_short_witness :
  exists d : number,
    Pose.detectPose (playing 1280 720 0) (mkResult [firstn 13 scenarioPose])
                    Pose.initial
    = Threw (Pose.mkState 0 (mkCanvas 1280 720) (Some d) None 1).
Proof.
  destruct (pose_subject_cut_short
              (playing 1280 720 0) (mkResult [firstn 13 scenarioPose]) Pose.initial
              (firstn 13 scenarioPose) [])
    as (_ & _ & Hmid).
  - unfold Pose.processes. simpl. repeat split; lra.
  - reflexivity.
  - apply Hmid. simpl. lia.
Defined.

(** X14. What a hand with missing landmarks does to a processed two-hand
    frame, in both hand trackers.  The tick ends normally exactly when each
    hand has at least 13 landmarks; otherwise it throws before anything is
    stored, so the measurement stays as it was, while the frame counts as
    seen and as one detection and the loop is not rescheduled. *)
Theorem hand_cut_short :
  forall (video : Video) (results : LandmarkerResult) (hand1 hand2 : list Landmark),
    landmarks results = [hand1; hand2] ->
    (forall s : HandDistance.State,
        HandDistance.processes video s ->
        ((13 <= length hand1 /\ 13 <= length hand2)%nat <->
         exists s', HandDistance.detectHands video results s = Scheduled s')
        /\ (~ (13 <= length hand1 /\ 13 <= length hand2)%nat ->
            HandDistance.detectHands video results s
            = Threw (HandDistance.mkState (currentTime video) (frame video)
                                          (HandDistance.distance s)
                                          (S (HandDistance.detectCalls s)))))
    /\ (forall s : HandWingspan.State,
           HandWingspan.processes video s ->
           ((13 <= length hand1 /\ 13 <= length hand2)%nat <->
            exists s', HandWingspan.detectHands video results s = Scheduled s')
           /\ (~ (13 <= length hand1 /\ 13 <= length hand2)%nat ->
               HandWingspan.detectHands video results s
               = Threw (HandWingspan.mkState (currentTime video) (frame video)
                                             (HandWingspan.wingspan s)
                                             (S (HandWingspan.detectCalls s))))).
Proof.
  intros video results hand1 hand2 Hres.
  assert (Hcases : (13 <= length hand1 /\ 13 <= length hand2)%nat
                   \/ nth_error hand1 12 = None \/ nth_error hand2 12 = None).
  { destruct (Nat.le_gt_cases 13 (length hand1)) as [H1 | H1];
      [| right; left; apply nth_error_short; lia].
    destruct (Nat.le_gt_cases 13 (length hand2)) as [H2 | H2];
      [left; split; assumption | right; right; apply nth_error_short; lia]. }
  assert (Hnone : forall i (l : list Landmark),
             nth_error l i = None -> (length l <= i)%nat).
  { intros i l H. apply nth_error_None. exact H. }
  split; intros s Hproc.
  - destruct Hproc as (Hp & He & Ht).
    unfold HandDistance.detectHands. rewrite Hp, He. simpl.
    destruct (Req_dec_T (currentTime video) (HandDistance.lastVideoTime s));
      [contradiction |].
    rewrite Hres. unfold HandDistance.measure.
    destruct Hcases as [[H1 H2] | [H1 | H2]].
    + destruct (nth_error_in_range hand1 12) as [f1 ->]; [lia |].
      destruct (nth_error_in_range hand2 12) as [f2 ->]; [lia |].
      split; [split; eauto | intros Hn; exfalso; apply Hn; split; assumption].
    + rewrite H1. apply Hnone in H1. split; [split |].
      * intros [Hge _]. lia.
      * intros [s' Hs']. discriminate.
      * intros _. reflexivity.
    + rewrite H2. apply Hnone in H2. split; [split |].
      * intros [_ Hge]. lia.
      * intros [s' Hs']. destruct (nth_error hand1 12); discriminate.
      * intros _. destruct (nth_error hand1 12); reflexivity.
  - destruct Hproc as (Hp & He & Ht).
    unfold HandWingspan.detectHands. rewrite Hp, He. simpl.
    destruct (Req_dec_T (currentTime video) (HandWingspan.lastVideoTime s));
      [contradiction |].
    rewrite Hres. unfold HandWingspan.measure.
    destruct Hcases as [[H1 H2] | [H1 | H2]].
    + destruct (nth_error_in_range hand1 12) as [f1 ->]; [lia |].
      destruct (nth_error_in_range hand2 12) as [f2 ->]; [lia |].
      split; [split; eauto | intros Hn; exfalso; apply Hn; split; assumption].
    + rewrite H1. apply Hnone in H1. split; [split |].
      * intros [Hge _]. lia.
      * intros [s' Hs']. discriminate.
      * intros _. reflexivity.
    + rewrite H2. apply Hnone in H2. split; [split |].
      * intros [_ Hge]. lia.
      * intros [s' Hs']. destruct (nth_error hand1 12); discriminate.
      * intros _. destruct (nth_error hand1 12); reflexivity.
Qed.

Lemma hand_cut_short_witness :
  HandDistance.detectHands
    (playing 1280 720 0)
    (mkResult [handWith (pt 0.2 0.5); firstn 5 (handWith (pt 0.8 0.5))])
    HandDistance.initial
  = Threw (HandDistance.mkState 0 (mkCanvas 1280 720) None 1).
Proof.
  destruct (hand_cut_short
              (playing 1280 720 0)
              (mkResult [handWith (pt 0.2 0.5); firstn 5 (handWith (pt 0.8 0.5))])
              (handWith (pt 0.2 0.5)) (firstn 5 (handWith (pt 0.8 0.5))) eq_refl)
    as [Hdist _].
  destruct (Hdist HandDistance.initial) as [_ Hthrow].
  - unfold HandDistance.processes. simpl. repeat split; lra.
  - apply Hthrow. simpl. lia.
Defined.

(* ------------------------------------------------------------------------- *)
(** ** What a pose measurement depends on *)

Section Dependence.

Lemma shoulderWidthPixels_xy (c : Canvas) (a b a' b' : Landmark) :
  x a = x a' -> y a = y a' -> x b = x b' -> y b = y b' ->
  Pose.shoulderWidthPixels c a b = Pose.shoulderWidthPixels c a' b'.
Proof.
  intros Hxa Hya Hxb Hyb. unfold Pose.shoulderWidthPixels.
  rewrite Hxa, Hya, Hxb, Hyb. reflexivity.
Qed.

End Dependence.

(** X15. A pose measurement is made from the frame alone, and from eight
    coordinates of it.  Two processed ticks on video surfaces of the same
    pixel size store the same distance and the same wingspan as soon as the
    shoulders (11, 12) and wrists (15, 16) of their first subjects agree in
    x and y: the depth of these landmarks, every other landmark, every
    further subject, the presentation time and the measurement shown before
    play no part. *)
Theorem pose_measurement_depends_on_eight_coordinates :
  forall (video video' : Video) (results results' : LandmarkerResult)
         (s s' : Pose.State)
         (subject subject' : list Landmark) (others others' : list (list Landmark))
         (ls rs lw rw ls' rs' lw' rw' : Landmark),
    Pose.processes video s ->
    Pose.processes video' s' ->
    videoWidth video' = videoWidth video ->
    videoHeight video' = videoHeight video ->
    landmarks results = subject :: others ->
    landmarks results' = subject' :: others' ->
    nth_error subject 11 = Some ls -> nth_error subject' 11 = Some ls' ->
    nth_error subject 12 = Some rs -> nth_error subject' 12 = Some rs' ->
    nth_error subject 15 = Some lw -> nth_error subject' 15 = Some lw' ->
    nth_error subject 16 = Some rw -> nth_error subject' 16 = Some rw' ->
    x ls = x ls' -> y ls = y ls' -> x rs = x rs' -> y rs = y rs' ->
    x lw = x lw' -> y lw = y lw' -> x rw = x rw' -> y rw = y rw' ->
    poseReading (final (Pose.detectPose video' results' s'))
    = poseReading (final (Pose.detectPose video results s)).
Proof.
  intros video video' results results' s s' subject subject' others others'
         ls rs lw rw ls' rs' lw' rw'
         Hproc Hproc' HW HH Hres Hres' H11 H11' H12 H12' H15 H15' H16 H16'
         Hxls Hyls Hxrs Hyrs Hxlw Hylw Hxrw Hyrw.
  rewrite (detectPose_measures _ _ _ _ _ _ _ _ _ Hproc Hres H11 H12 H15 H16).
  rewrite (detectPose_measures _ _ _ _ _ _ _ _ _ Hproc' Hres' H11' H12' H15' H16').
  unfold poseReading. cbn [final Pose.distance Pose.wingspan].
  unfold frame. rewrite HW, HH.
  unfold Pose.wingspanCm, Pose.calculatedDistance, Pose.wingspanPixels.
  rewrite (shoulderWidthPixels_xy _ ls rs ls' rs' Hxls Hyls Hxrs Hyrs).
  fold (Pose.shoulderWidthPixels
          (mkCanvas (videoWidth video) (videoHeight video)) lw rw).
  fold (Pose.shoulderWidthPixels
          (mkCanvas (videoWidth video) (videoHeight video)) lw' rw').
  rewrite (shoulderWidthPixels_xy _ lw rw lw' rw' Hxlw Hylw Hxrw Hyrw).
  reflexivity.
Qed.

Lemma pose_measurement_depends_on_eight_coordinates_witness :
  poseReading
    (final (Pose.detectPose
              (playing 1280 720 9)
              (mkResult [poseWith (mkLandmark (Fin 0.40) (Fin 0.50) (Fin 3))
                                  (mkLandmark (Fin 0.60) (Fin 0.50) NaN)
                                  (mkLandmark (Fin 0.10) (Fin 0.50) (Fin (-1)))
                                  (mkLandmark (Fin 0.90) (Fin 0.50) PosInf);
                         scenarioPose])
              (Pose.mkState 8 (mkCanvas 640 480) (Some (Fin 1)) (Some (Fin 2)) 5)))
  = poseReading
      (final (Pose.detectPose (playing 1280 720 0) (mkResult [scenarioPose])
                              Pose.initial)).
Proof.
  apply (pose_measurement_depends_on_eight_coordinates
           (playing 1280 720 0) (playing 1280 720 9)
           (mkResult [scenarioPose])
           (mkResult [poseWith (mkLandmark (Fin 0.40) (Fin 0.50) (Fin 3))
                               (mkLandmark (Fin 0.60) (Fin 0.50) NaN)
                               (mkLandmark (Fin 0.10) (Fin 0.50) (Fin (-1)))
                               (mkLandmark (Fin 0.90) (Fin 0.50) PosInf);
                      scenarioPose])
           Pose.initial
           (Pose.mkState 8 (mkCanvas 640 480) (Some (Fin 1)) (Some (Fin 2)) 5)
           scenarioPose
           (poseWith (mkLandmark (Fin 0.40) (Fin 0.50) (Fin 3))
                     (mkLandmark (Fin 0.60) (Fin 0.50) NaN)
                     (mkLandmark (Fin 0.10) (Fin 0.50) (Fin (-1)))
                     (mkLandmark (Fin 0.90) (Fin 0.50) PosInf))
           [] [scenarioPose]
           (pt 0.40 0.50) (pt 0.60 0.50) (pt 0.10 0.50) (pt 0.90 0.50)
           (mkLandmark (Fin 0.40) (Fin 0.50) (Fin 3))
           (mkLandmark (Fin 0.60) (Fin 0.50) NaN)
           (mkLandmark (Fin 0.10) (Fin 0.50) (Fin (-1)))
           (mkLandmark (Fin 0.90) (Fin 0.50) PosInf));
    try reflexivity.
  - unfold Pose.processes. simpl. repeat split; lra.
  - unfold Pose.processes. simpl. repeat split; lra.
Defined.

(* ------------------------------------------------------------------------- *)
(** ** The range of the measurements for landmarks inside the image *)

Section Range.

Lemma sq_le_of_unit (d w : R) : -1 <= d <= 1 -> d * w * (d * w) <= w * w.
Proof.
  intros Hd. replace (d * w * (d * w)) with ((d * d) * (w * w)) by ring.
  assert (Hdd : d * d <= 1) by nra.
  assert (Hww : 0 <= w * w) by nra.
  nra.
Qed.

(** Two landmarks inside the image are at most a diagonal apart. *)
Lemma separation_in_frame (c : Canvas) (a b : Landmark) :
  inFrame a -> inFrame b ->
  exists p : R,
    Pose.shoulderWidthPixels c a b = Fin p /\ 0 <= p <= diagonal c.
Proof.
  intros (xa & ya & Hxa & Hya & Hxa1 & Hya1) (xb & yb & Hxb & Hyb & Hxb1 & Hyb1).
  unfold Pose.shoulderWidthPixels. rewrite Hxa, Hya, Hxb, Hyb.
  cbn [Num.sub Num.add Num.neg Num.mul Num.of_N].
  rewrite sqrt_fin by apply sumsq_nonneg.
  eexists. split; [reflexivity |]. split; [apply sqrt_pos |].
  unfold diagonal. apply sqrt_le_1_alt.
  pose proof (sq_le_of_unit (xb + - xa) (IZR (Z.of_N (width c)))).
  pose proof (sq_le_of_unit (yb + - ya) (IZR (Z.of_N (height c)))).
  lra.
Qed.

Lemma diagonal_pos (c : Canvas) : (0 < width c)%N -> 0 < diagonal c.
Proof.
  intros HW. pose proof (of_N_pos _ HW). unfold diagonal.
  apply sqrt_lt_R0. nra.
Qed.

End Range.

(** X16. The largest wingspan the Fixed-Distance tracker can report.  On a
    processed frame of positive width with both middle-finger tips inside
    the image, the wingspan stored is a real between 0 and 210.07 cm times
    the ratio of the frame diagonal to the frame width (210.07 cm bounds
    [2 * 150 * tan 35deg] from above): a longer span cannot be measured at
    this camera distance. *)
Theorem wingspan_is_bounded_by_the_field_of_view :
  forall (video : Video) (results : LandmarkerResult) (s : HandWingspan.State)
         (hand1 hand2 : list Landmark) (middleFinger1 middleFinger2 : Landmark),
    HandWingspan.processes video s ->
    landmarks results = [hand1; hand2] ->
    nth_error hand1 12 = Some middleFinger1 ->
    nth_error hand2 12 = Some middleFinger2 ->
    inFrame middleFinger1 -> inFrame middleFinger2 ->
    (0 < videoWidth video)%N ->
    exists (s' : HandWingspan.State) (w : R),
      HandWingspan.detectHands video results s = Scheduled s'
      /\ HandWingspan.wingspan s' = Some (Fin w)
      /\ 0 <= w
      /\ w <= 210.07 * (diagonal (frame video) / IZR (Z.of_N (videoWidth video))).
Proof.
  intros video results s hand1 hand2 m1 m2 Hproc Hres H1 H2 Hin1 Hin2 HW.
  pose proof (of_N_pos _ HW) as HWpos.
  destruct (separation_in_frame (frame video) m1 m2 Hin1 Hin2) as (p & Hp & Hp0 & Hp1).
  change (Pose.shoulderWidthPixels (frame video) m1 m2)
    with (HandWingspan.distancePixels (frame video) m1 m2) in Hp.
  pose proof fovWidth_bounds as [Hlo Hhi].
  assert (Hratio : 0 <= p / IZR (Z.of_N (videoWidth video))
                   <= diagonal (frame video) / IZR (Z.of_N (videoWidth video))).
  { unfold Rdiv. split.
    - apply Rmult_le_pos; [lra |]. left. apply Rinv_0_lt_compat. exact HWpos.
    - apply Rmult_le_compat_r; [| lra]. left. apply Rinv_0_lt_compat. exact HWpos. }
  exists (HandWingspan.mkState
            (currentTime video) (frame video)
            (Some (HandWingspan.wingspanCm (frame video) m1 m2))
            (S (HandWingspan.detectCalls s))),
         (2 * 150 * tanHalfFov * (p / IZR (Z.of_N (videoWidth video)))).
  split; [| split; [| split]].
  - exact (hand_wingspan_measures video results s hand1 hand2 m1 m2 Hproc Hres H1 H2).
  - cbn [HandWingspan.wingspan]. unfold HandWingspan.wingspanCm.
    rewrite Hp, (pixelToCmRatio_finite (frame video) HW).
    cbn [Num.mul frame width]. do 2 f_equal. field. lra.
  - apply Rmult_le_pos; lra.
  - apply Rle_trans
      with (2 * 150 * tanHalfFov
            * (diagonal (frame video) / IZR (Z.of_N (videoWidth video)))).
    + apply Rmult_le_compat_l; lra.
    + apply Rmult_le_compat_r; lra.
Qed.

Lemma wingspan_is_bounded_by_the_field_of_view_witness :
  exists (s' : HandWingspan.State) (w : R),
    HandWingspan.detectHands
      (playing 1280 720 0)
      (mkResult [handWith (pt 0 0.5); handWith (pt 1 0.5)])
      HandWingspan.initial
    = Scheduled s'
    /\ HandWingspan.wingspan s' = Some (Fin w)
    /\ 0 <= w
    /\ w <= 210.07 * (diagonal (frame (playing 1280 720 0)) / 1280).
Proof.
  apply (wingspan_is_bounded_by_the_field_of_view
           (playing 1280 720 0)
           (mkResult [handWith (pt 0 0.5); handWith (pt 1 0.5)])
           HandWingspan.initial (handWith (pt 0 0.5)) (handWith (pt 1 0.5))
           (pt 0 0.5) (pt 1 0.5)); try reflexivity.
  - unfold HandWingspan.processes. simpl. repeat split; lra.
  - exists 0, 0.5. simpl. repeat split; lra.
  - exists 1, 0.5. simpl. repeat split; lra.
Defined.

(** X17. The smallest distance the pose tracker can report.  On a processed
    frame of positive width whose shoulders lie inside the image and do not
    coincide, the distance stored is a real that is at least 32.13 cm times
    the ratio of the frame width to the frame diagonal (32.13 bounds
    [45 / (2 * tan 35deg)] from below): a subject cannot be reported any
    closer than about where 45 cm fill the diagonal of the frame. *)
Theorem distance_is_bounded_below :
  forall (video : Video) (results : LandmarkerResult) (s : Pose.State)
         (subject : list Landmark) (others : list (list Landmark))
         (leftShoulder rightShoulder leftWrist rightWrist : Landmark),
    Pose.processes video s ->
    landmarks results = subject :: others ->
    nth_error subject 11 = Some leftShoulder ->
    nth_error subject 12 = Some rightShoulder ->
    nth_error subject 15 = Some leftWrist ->
    nth_error subject 16 = Some rightWrist ->
    inFrame leftShoulder -> inFrame rightShoulder ->
    (0 < videoWidth video)%N ->
    Pose.shoulderWidthPixels (frame video) leftShoulder rightShoulder <> Fin 0 ->
    exists (s' : Pose.State) (d : R),
      Pose.detectPose video results s = Scheduled s'
      /\ Pose.distance s' = Some (Fin d)
      /\ 32.13 * (IZR (Z.of_N (videoWidth video)) / diagonal (frame video)) <= d.
Proof.
  intros video results s subject others ls rs lw rw
         Hproc Hres H11 H12 H15 H16 Hin1 Hin2 HW Hne.
  pose proof (focal_pos _ HW) as Hf.
  pose proof (of_N_pos _ HW) as HWpos.
  pose proof (diagonal_pos (frame video) HW) as Hdiag.
  destruct (separation_in_frame (frame video) ls rs Hin1 Hin2) as (p & Hp & Hp0 & Hp1).
  assert (Hppos : 0 < p).
  { destruct Hp0 as [Hlt | Heq]; [exact Hlt |].
    exfalso. apply Hne. rewrite Hp, <- Heq. reflexivity. }
  assert (Hfocal : 32.13 * IZR (Z.of_N (videoWidth video))
                   <= 45 * focal (videoWidth video)).
  { unfold focal. pose proof tanHalfFov_bounds as [Hlo Hhi].
    replace (45 * (IZR (Z.of_N (videoWidth video)) / (2 * tanHalfFov)))
      with ((45 * IZR (Z.of_N (videoWidth video))) / (2 * tanHalfFov))
      by (field; lra).
    apply Rmult_le_reg_r with (2 * tanHalfFov); [lra |].
    replace (45 * IZR (Z.of_N (videoWidth video)) / (2 * tanHalfFov)
             * (2 * tanHalfFov))
      with (45 * IZR (Z.of_N (videoWidth video))) by (field; lra).
    nra. }
  eexists. exists (45 * focal (videoWidth video) / p). split; [| split].
  - exact (detectPose_measures _ _ _ _ _ _ _ _ _ Hproc Hres H11 H12 H15 H16).
  - cbn [Pose.distance]. unfold Pose.calculatedDistance, Pose.ASSUMED_SHOULDER_WIDTH_CM.
    rewrite focalLengthPixels_focal, Hp. cbn [Num.mul frame width].
    rewrite div_fin by lra. reflexivity.
  - apply Rle_trans with (45 * focal (videoWidth video) / diagonal (frame video)).
    + unfold Rdiv. rewrite <- Rmult_assoc.
      apply Rmult_le_compat_r; [| exact Hfocal].
      left. apply Rinv_0_lt_compat. exact Hdiag.
    + unfold Rdiv. apply Rmult_le_compat_l; [lra |].
      apply Rinv_le_contravar; assumption.
Qed.

Lemma distance_is_bounded_below_witness :
  exists (s' : Pose.State) (d : R),
    Pose.detectPose (playing 1280 720 0) (mkResult [scenarioPose]) Pose.initial
    = Scheduled s'
    /\ Pose.distance s' = Some (Fin d)
    /\ 32.13 * (1280 / diagonal (frame (playing 1280 720 0))) <= d.
Proof.
  apply (distance_is_bounded_below
           (playing 1280 720 0) (mkResult [scenarioPose]) Pose.initial
           scenarioPose [] (pt 0.40 0.50) (pt 0.60 0.50)
           (pt 0.10 0.50) (pt 0.90 0.50)); try reflexivity.
  - unfold Pose.processes. simpl. repeat split; lra.
  - exists 0.40, 0.50. simpl. repeat split; lra.
  - exists 0.60, 0.50. simpl. repeat split; lra.
  - unfold frame, playing. cbn [videoWidth videoHeight].
    rewrite scenario_shoulderWidthPixels. intros H. injection H as H. lra.
Defined.
